(** * TaskBum: the tool-selection-and-execution loop

    A shallow embedding of the TypeScript sources of the repository:

    - [lib/tools/solanaTokenMarketData.ts]  (market-data tool, two sources)
    - [lib/tools/retrieve.ts]               (content retrieval, two backends)
    - [lib/tools/search/providers/tavily.ts] (Tavily search provider)
    - [lib/streaming/tool-execution.ts]     (the orchestrator [executeToolCall],
                                             in its revision that knows the
                                             market-data tool)

    Conventions of the embedding.

    - JavaScript values are the inductive [JS.jsval]; numbers are IEEE
      doubles ([PrimFloat.float]); strings are [string], counted by code unit.
    - An [async] function is a computation in the monad [M]: it reads and
      extends a store and either returns or throws.  [await] is sequencing.
    - The store holds the caller's conversation array and the ordered log of
      every effect performed on the outside world (model calls, writes on the
      data stream, adapter invocations, HTTP requests).  Writes on the data
      stream append and return; the module [Throwing] drops that convention
      for the one question it matters to, what can make a pass throw.
      Console output is not recorded.
    - What the runtime or other modules supply (HTTP, the model, the clock,
      the identifier generator, [JSON.stringify], the environment, the call
      parser, the search client) is a variable of the section that uses it. *)

From Stdlib Require Import String Ascii List ZArith Lia Bool PrimFloat.
From Stdlib Require Import DecimalString.
From Stdlib Require Uint63 SpecFloat FloatOps FloatAxioms.
Import ListNotations.

Set Warnings "-register-all,-abstract-large-number".

Local Open Scope list_scope.
Local Open Scope string_scope.

(* ===================================================================== *)
(** ** JavaScript values and the string operations the sources use        *)
(* ===================================================================== *)

Module JS.

Inductive jsval : Type :=
| VUndefined
| VNull
| VBool (b : bool)
| VNum (x : float)
| VStr (s : string)
| VArr (elems : list jsval)
| VObj (fields : list (string * jsval)).

(** An [Error] object; the sources only ever read its [message]. *)
Record JsError : Type := mkError { message : string }.

(** How a call ends: it returns a value or throws. *)
Inductive outcome (A : Type) : Type :=
| Returned (a : A)
| Thrown (e : JsError).

Arguments Returned {A} a.
Arguments Thrown {A} e.

(** Truthiness ([!x], [x || y], [if (x)]). *)
Definition str_truthy (s : string) : bool := negb (s =? "").

Definition num_truthy (x : float) : bool := negb (is_zero x || is_nan x).

Definition truthy (v : jsval) : bool :=
  match v with
  | VUndefined | VNull => false
  | VBool b => b
  | VNum x => num_truthy x
  | VStr s => str_truthy s
  | VArr _ | VObj _ => true
  end.

(** Truthiness of an optional string field ([undefined] when absent). *)
Definition opt_truthy (o : option string) : bool :=
  match o with
  | Some s => str_truthy s
  | None => false
  end.

(** [a || b] on values and on optional strings. *)
Definition or_else (a b : jsval) : jsval := if truthy a then a else b.

Definition opt_or (a b : option string) : option string :=
  if opt_truthy a then a else b.

Definition of_opt_string (o : option string) : jsval :=
  match o with
  | Some s => VStr s
  | None => VUndefined
  end.

(** Interpolation of a possibly undefined string in a template literal. *)
Definition show_opt (o : option string) : string :=
  match o with
  | Some s => s
  | None => "undefined"
  end.

Definition float_of_nat (n : nat) : float := of_uint63 (Uint63.of_Z (Z.of_nat n)).

Definition string_of_Z (z : Z) : string := NilEmpty.string_of_int (Z.to_int z).

Fixpoint assoc (k : string) (fs : list (string * jsval)) : jsval :=
  match fs with
  | [] => VUndefined
  | (k', v) :: rest => if k' =? k then v else assoc k rest
  end.

(** Own properties of a value that is neither [undefined] nor [null]. *)
Definition prop (v : jsval) (k : string) : jsval :=
  match v with
  | VObj fs => assoc k fs
  | VStr s => if k =? "length" then VNum (float_of_nat (String.length s)) else VUndefined
  | VArr l => if k =? "length" then VNum (float_of_nat (List.length l)) else VUndefined
  | _ => VUndefined
  end.

Definition nullish (v : jsval) : bool :=
  match v with
  | VUndefined | VNull => true
  | _ => false
  end.

Definition type_name (v : jsval) : string :=
  match v with
  | VNull => "null"
  | _ => "undefined"
  end.

(** The message V8 gives to a property read on [undefined] or [null]. *)
Definition cannot_read (v : jsval) (k : string) : JsError :=
  mkError ("Cannot read properties of " ++ type_name v ++ " (reading '" ++ k ++ "')").

(** [v.k] *)
Definition get (v : jsval) (k : string) : outcome jsval :=
  if nullish v then Thrown (cannot_read v k) else Returned (prop v k).

(** [v?.k] *)
Definition get_opt (v : jsval) (k : string) : jsval :=
  if nullish v then VUndefined else prop v k.

(** [v[0]] *)
Definition first_elem (v : jsval) : outcome jsval :=
  match v with
  | VUndefined | VNull => Thrown (cannot_read v "0")
  | VArr l => Returned (nth 0 l VUndefined)
  | VStr s => Returned (match s with
                        | EmptyString => VUndefined
                        | String c _ => VStr (String c EmptyString)
                        end)
  | VObj fs => Returned (assoc "0" fs)
  | _ => Returned VUndefined
  end.

(** [x === 0] *)
Definition is_number_zero (v : jsval) : bool :=
  match v with
  | VNum x => is_zero x
  | _ => false
  end.

(** [v.slice(0, n)]: strings and arrays have the method, nothing else that
    JSON can carry does. *)
Definition slice_to (n : nat) (v : jsval) : outcome jsval :=
  match v with
  | VStr s => Returned (VStr (substring 0 n s))
  | VArr l => Returned (VArr (firstn n l))
  | VUndefined | VNull => Thrown (cannot_read v "slice")
  | _ => Thrown (mkError "slice is not a function")
  end.

(** The [length] of what [slice] returns. *)
Definition size (v : jsval) : nat :=
  match v with
  | VStr s => String.length s
  | VArr l => List.length l
  | _ => 0
  end.

(** [' '.repeat(n)] *)
Fixpoint spaces (n : nat) : string :=
  match n with
  | O => ""
  | S k => String " "%char (spaces k)
  end.

(** [s.includes(pat)] *)
Fixpoint includes (pat s : string) : bool :=
  if prefix pat s then true
  else match s with
       | EmptyString => false
       | String _ rest => includes pat rest
       end.

(** [l.join(sep)] *)
Definition join (sep : string) (l : list string) : string := String.concat sep l.

(** [Math.max(a, b)] on two numbers. *)
Definition Math_max (a b : float) : float :=
  if is_nan a || is_nan b then nan
  else if ltb a b then b
  else if ltb b a then a
  else if get_sign a then b else a.

End JS.

Import JS.

(* ===================================================================== *)
(** ** Data of the conversation, the data stream and HTTP                 *)
(* ===================================================================== *)

Inductive Role : Type := RSystem | RUser | RAssistant | RTool | RData.

(** [CoreMessage]: a turn of the conversation. *)
Record CoreMessage : Type := mkMessage { role : Role; content : jsval }.

(** The [state] of a progress event on the data stream. *)
Inductive ProgressState : Type := StateCall | StateResult | StateError.

(** The payload [{ type: 'tool_call', data: { state, toolCallId, toolName,
    args, result } }] written on the data stream.  [args] and [result] are
    [None] when the field is [undefined] or not present. *)
Record ProgressEvent : Type := mkEvent {
  ev_state : ProgressState;
  ev_toolCallId : string;
  ev_toolName : string;
  ev_args : option string;
  ev_result : option string
}.

(** The content of the [role: 'data'] annotation returned to the caller. *)
Record ToolCallData : Type := mkToolCallData {
  toolCallId : string;
  toolName : string;
  args : option string;
  result : option string
}.

Record ExtendedCoreMessage : Type := mkExtended {
  ext_role : Role;
  ext_type : string;
  ext_data : ToolCallData
}.

Record ToolExecutionResult : Type := mkResult {
  toolCallDataAnnotation : option ExtendedCoreMessage;
  toolCallMessages : list CoreMessage
}.

Module Http.

Record Request : Type := mkRequest {
  url : string;
  method : string;
  headers : list (string * string);
  body : option string
}.

(** What the sources read of a [Response]; [json] is what [response.json()]
    resolves to or rejects with. *)
Record Response : Type := mkResponse {
  ok : bool;
  status : Z;
  statusText : string;
  json : outcome jsval
}.

End Http.

(** Everything a pass does to the outside world, in order. *)
Inductive Effect : Type :=
| EGenerateText (model system : string) (messages : list CoreMessage)
| EWriteData (ev : ProgressEvent)
| EWriteMessageAnnotation (ev : ProgressEvent)
| EExecuteSearchViaApi (query max_results search_depth include_domains exclude_domains : jsval)
| EMarketDataExecute (params : jsval)
| EFetch (req : Http.Request).

Record Store : Type := mkStore {
  conversation : list CoreMessage;
  log : list Effect
}.

(* ===================================================================== *)
(** ** The monad of asynchronous functions                                *)
(* ===================================================================== *)

Definition M (A : Type) : Type := Store -> outcome A * Store.

Definition ret {A : Type} (a : A) : M A := fun st => (Returned a, st).

Definition throw {A : Type} (e : JsError) : M A := fun st => (Thrown e, st).

Definition bind {A B : Type} (m : M A) (k : A -> M B) : M B :=
  fun st =>
    match m st with
    | (Returned a, st') => k a st'
    | (Thrown e, st') => (Thrown e, st')
    end.

(** [try { m } catch (e) { h e }]: what [m] did before it threw stays done. *)
Definition try_catch {A : Type} (m : M A) (h : JsError -> M A) : M A :=
  fun st =>
    match m st with
    | (Returned a, st') => (Returned a, st')
    | (Thrown e, st') => h e st'
    end.

(** A synchronous step that may throw. *)
Definition lift {A : Type} (o : outcome A) : M A := fun st => (o, st).

(** Append one effect to the log. *)
Definition perform (e : Effect) : M unit :=
  fun st => (Returned tt, mkStore (conversation st) (log st ++ [e])).

(** Read the caller's conversation array. *)
Definition read_conversation : M (list CoreMessage) :=
  fun st => (Returned (conversation st), st).

Declare Scope js_scope.
Delimit Scope js_scope with js.
Notation "x <- m ;; k" := (bind m (fun x => k))
  (at level 61, m at next level, right associativity) : js_scope.
Notation "m ;; k" := (bind m (fun _ => k))
  (at level 61, right associativity) : js_scope.
Local Open Scope js_scope.

(* ===================================================================== *)
(** ** lib/schema/solanaTokenMarketData.ts and the market-data records    *)
(* ===================================================================== *)

(** [SolanaTokenMarketDataParams]: two optional strings. *)
Record SolanaTokenMarketDataParams : Type := mkParams {
  tokenSymbol : option string;
  tokenMintAddress : option string
}.

(** The refinement of the schema: [data.tokenSymbol || data.tokenMintAddress]. *)
Definition has_identifier (params : SolanaTokenMarketDataParams) : bool :=
  opt_truthy (tokenSymbol params) || opt_truthy (tokenMintAddress params).

Module BirdeyeData.
Record t : Type := mk {
  price : jsval;
  volume24h : jsval;
  liquidity : jsval;
  mc : jsval;
  source : option string;
  url : option string;
  error : option string
}.
End BirdeyeData.

Module SolscanData.
Record t : Type := mk {
  price : jsval;
  marketCap : jsval;
  circulatingSupply : jsval;
  totalSupply : jsval;
  holders : jsval;
  source : option string;
  url : option string;
  error : option string
}.
End SolscanData.

Module CombinedMarketData.
Record t : Type := mk {
  tokenSymbol : option string;
  tokenMintAddress : option string;
  birdeye : option BirdeyeData.t;
  solscan : option SolscanData.t;
  lastUpdated : option string;
  errors : option (list string)
}.
End CombinedMarketData.

(** What [getSolanaTokenMarketDataTool.execute] resolves to:
    [CombinedMarketData | { error: string }]. *)
Inductive ExecuteResult : Type :=
| ErrorObject (error : string)
| Combined (results : CombinedMarketData.t).

(* ===================================================================== *)
(** ** The adapters                                                       *)
(* ===================================================================== *)

Section Adapters.

(** [process.env]. *)
Variable env : string -> option string.
(** The global [fetch]: it rejects, or resolves to a response. *)
Variable fetch : Http.Request -> outcome Http.Response.
(** [new Date().toISOString()]. *)
Variable now_iso : string.
(** [JSON.stringify]; [None] is [undefined]. *)
Variable JSON_stringify : jsval -> option string.

Definition http_fetch (req : Http.Request) : M Http.Response :=
  perform (EFetch req) ;; lift (fetch req).

(** *** lib/tools/solanaTokenMarketData.ts *)

Definition birdeye_failure (msg : string) : BirdeyeData.t :=
  {| BirdeyeData.price := VUndefined; BirdeyeData.volume24h := VUndefined;
     BirdeyeData.liquidity := VUndefined; BirdeyeData.mc := VUndefined;
     BirdeyeData.source := Some "Birdeye"; BirdeyeData.url := None;
     BirdeyeData.error := Some msg |}.

Definition solscan_failure (msg : string) : SolscanData.t :=
  {| SolscanData.price := VUndefined; SolscanData.marketCap := VUndefined;
     SolscanData.circulatingSupply := VUndefined; SolscanData.totalSupply := VUndefined;
     SolscanData.holders := VUndefined;
     SolscanData.source := Some "Solscan"; SolscanData.url := None;
     SolscanData.error := Some msg |}.

Definition birdeye_price_request (key mint : string) : Http.Request :=
  {| Http.url := "https://public-api.birdeye.so/public/price?address=" ++ mint;
     Http.method := "GET";
     Http.headers := [("X-API-KEY", key)];
     Http.body := None |}.

Definition birdeye_overview_request (key mint : string) : Http.Request :=
  {| Http.url := "https://public-api.birdeye.so/public/overview/token/" ++ mint;
     Http.method := "GET";
     Http.headers := [("X-API-KEY", key)];
     Http.body := None |}.

Definition fetchBirdeyeData (params : SolanaTokenMarketDataParams) : M BirdeyeData.t :=
  let birdeyeApiKey := env "BIRDEYE_API_KEY" in
  if negb (opt_truthy birdeyeApiKey) then
    ret (birdeye_failure "Birdeye API key not configured.")
  else if opt_truthy (tokenMintAddress params) then
    try_catch
      (response <- http_fetch (birdeye_price_request (show_opt birdeyeApiKey)
                                 (show_opt (tokenMintAddress params))) ;;
       if negb (Http.ok response) then
         throw (mkError ("Birdeye API error (price): " ++ string_of_Z (Http.status response)))
       else
         priceData <- lift (Http.json response) ;;
         overviewResponse <- http_fetch (birdeye_overview_request (show_opt birdeyeApiKey)
                                           (show_opt (tokenMintAddress params))) ;;
         if negb (Http.ok overviewResponse) then
           throw (mkError ("Birdeye API error (overview): "
                           ++ string_of_Z (Http.status overviewResponse)))
         else
           overviewData <- lift (Http.json overviewResponse) ;;
           data <- lift (get priceData "data") ;;
           ret {| BirdeyeData.price := get_opt data "value";
                  BirdeyeData.volume24h := VUndefined;
                  BirdeyeData.liquidity := VUndefined;
                  BirdeyeData.mc := VUndefined;
                  BirdeyeData.source := Some "Birdeye API";
                  BirdeyeData.url := Some ("https://birdeye.so/token/"
                                           ++ show_opt (tokenMintAddress params)
                                           ++ "?chain=solana");
                  BirdeyeData.error := None |})
      (fun e => ret (birdeye_failure ("Birdeye API fetch error: " ++ message e)))
  else
    ret (birdeye_failure "Birdeye: Mint address preferred for precise data.").

Definition solscan_meta_request (mint : string) : Http.Request :=
  {| Http.url := "https://public-api.solscan.io/token/meta?tokenAddress=" ++ mint;
     Http.method := "GET";
     Http.headers := [];
     Http.body := None |}.

Definition fetchSolscanData (params : SolanaTokenMarketDataParams) : M SolscanData.t :=
  if opt_truthy (tokenMintAddress params) then
    try_catch
      (response <- http_fetch (solscan_meta_request (show_opt (tokenMintAddress params))) ;;
       if negb (Http.ok response) then
         throw (mkError ("Solscan API error: " ++ string_of_Z (Http.status response)))
       else
         data <- lift (Http.json response) ;;
         marketCapFD <- lift (get data "marketCapFD") ;;
         supply <- lift (get data "supply") ;;
         holder <- lift (get data "holder") ;;
         ret {| SolscanData.price := VUndefined;
                SolscanData.marketCap := marketCapFD;
                SolscanData.circulatingSupply := supply;
                SolscanData.totalSupply := supply;
                SolscanData.holders := holder;
                SolscanData.source := Some "Solscan API";
                SolscanData.url := Some ("https://solscan.io/token/"
                                         ++ show_opt (tokenMintAddress params));
                SolscanData.error := None |})
      (fun e => ret (solscan_failure ("Solscan API fetch error: " ++ message e)))
  else
    ret (solscan_failure "Solscan: Mint address required for precise data.").

(** [if (r.error) results.errors?.push(r.error)] *)
Definition push_error (errors : list string) (error : option string) : list string :=
  if opt_truthy error then errors ++ [show_opt error] else errors.

(** The test that decides the wholesale failure:
    [!birdeyeResult.price && !solscanResult.circulatingSupply
     && (results.errors?.length || 0) > 1]. *)
Definition nothing_significant (birdeyeResult : BirdeyeData.t) (solscanResult : SolscanData.t)
    (errors : list string) : bool :=
  negb (truthy (BirdeyeData.price birdeyeResult))
  && negb (truthy (SolscanData.circulatingSupply solscanResult))
  && (1 <? List.length errors)%nat.

(** [getSolanaTokenMarketDataTool.execute] *)
Definition getSolanaTokenMarketDataTool_execute (params : SolanaTokenMarketDataParams)
    : M ExecuteResult :=
  if negb (opt_truthy (tokenSymbol params)) && negb (opt_truthy (tokenMintAddress params)) then
    ret (ErrorObject "Tool execution error: Token symbol or mint address is required.")
  else
    birdeyeResult <- fetchBirdeyeData params ;;
    let errors1 := push_error [] (BirdeyeData.error birdeyeResult) in
    solscanResult <- fetchSolscanData params ;;
    let errors2 := push_error errors1 (SolscanData.error solscanResult) in
    let lastUpdated := now_iso in
    if nothing_significant birdeyeResult solscanResult errors2 then
      ret (ErrorObject ("Failed to fetch significant market data. Errors: "
                        ++ join "; " errors2))
    else
      ret (Combined {| CombinedMarketData.tokenSymbol := tokenSymbol params;
                       CombinedMarketData.tokenMintAddress := tokenMintAddress params;
                       CombinedMarketData.birdeye := Some birdeyeResult;
                       CombinedMarketData.solscan := Some solscanResult;
                       CombinedMarketData.lastUpdated := Some lastUpdated;
                       CombinedMarketData.errors := Some errors2 |}).

(** *** lib/tools/retrieve.ts *)

Definition CONTENT_CHARACTER_LIMIT : nat := 10000.

Record SearchResultItem : Type := mkItem {
  item_title : jsval;
  item_content : jsval;
  item_url : jsval
}.

(** [SearchResults] as the retrieval functions build it. *)
Record SearchResults : Type := mkSearchResults {
  results : list SearchResultItem;
  query : string;
  images : list jsval
}.

Definition jina_request (url : string) : Http.Request :=
  {| Http.url := "https://r.jina.ai/" ++ url;
     Http.method := "GET";
     Http.headers := [("Accept", "application/json"); ("X-With-Generated-Alt", "true")];
     Http.body := None |}.

Definition fetchJinaReaderData (url : string) : M (option SearchResults) :=
  try_catch
    (response <- http_fetch (jina_request url) ;;
     json <- lift (Http.json response) ;;
     data <- lift (get json "data") ;;
     if negb (truthy data) || is_number_zero (prop data "length") then
       ret None
     else
       raw <- lift (get data "content") ;;
       content <- lift (slice_to CONTENT_CHARACTER_LIMIT raw) ;;
       title <- lift (get data "title") ;;
       url' <- lift (get data "url") ;;
       ret (Some {| results := [ {| item_title := title;
                                    item_content := content;
                                    item_url := url' |} ];
                    query := "";
                    images := [] |}))
    (fun _ => ret None).

Definition tavily_extract_request (url : string) : Http.Request :=
  {| Http.url := "https://api.tavily.com/extract";
     Http.method := "POST";
     Http.headers := [("Content-Type", "application/json")];
     Http.body := JSON_stringify
                    (VObj [("api_key", of_opt_string (env "TAVILY_API_KEY"));
                           ("urls", VArr [VStr url])]) |}.

Definition fetchTavilyExtractData (url : string) : M (option SearchResults) :=
  try_catch
    (response <- http_fetch (tavily_extract_request url) ;;
     json <- lift (Http.json response) ;;
     rs <- lift (get json "results") ;;
     if negb (truthy rs) || is_number_zero (prop rs "length") then
       ret None
     else
       result <- lift (first_elem rs) ;;
       raw <- lift (get result "raw_content") ;;
       content <- lift (slice_to CONTENT_CHARACTER_LIMIT raw) ;;
       title <- lift (slice_to 100 content) ;;
       url' <- lift (get result "url") ;;
       ret (Some {| results := [ {| item_title := title;
                                    item_content := content;
                                    item_url := url' |} ];
                    query := "";
                    images := [] |}))
    (fun _ => ret None).

Inductive RetrieveResult : Type :=
| RetrieveError (error : string)
| Retrieved (r : SearchResults).

(** [retrieveTool.execute] *)
Definition retrieveTool_execute (url : string) : M RetrieveResult :=
  let useJina := env "JINA_API_KEY" in
  rs <- (if opt_truthy useJina then fetchJinaReaderData url
         else fetchTavilyExtractData url) ;;
  match rs with
  | None => ret (RetrieveError "Failed to retrieve content from the URL or no content found.")
  | Some r => ret (Retrieved r)
  end.

(** *** lib/tools/search/providers/tavily.ts *)

(** [BaseSearchProvider.validateApiKey] and [sanitizeUrl] live in modules
    that are not part of the sources at hand. *)
Variable validateApiKey : option string -> string -> outcome unit.
Variable sanitizeUrl : jsval -> outcome jsval.

Definition default_includeDomains : list string :=
  [ "solana.com"; "solscan.io"; "solana.fm"; "explorer.solana.com"; "defillama.com";
    "coingecko.com"; "coinmarketcap.com"; "solanafloor.com"; "decrypt.co";
    "theblockcrypto.com"; "nosana.io"; "jup.ag"; "tensor.trade"; "drift.trade";
    "pyth.network"; "magiceden.io"; "metaplex.com"; "docs.solana.com";
    "github.com/solana-labs"; "medium.com"; "substack.com" ].

(** A parameter with a default value: the default stands in for [undefined]. *)
Definition with_default {A : Type} (d : A) (o : option A) : A :=
  match o with
  | Some a => a
  | None => d
  end.

(** [query.length < 5 ? query + ' '.repeat(5 - query.length) : query] *)
Definition filledQuery (query : string) : string :=
  if (String.length query <? 5)%nat then query ++ spaces (5 - String.length query)
  else query.

(** The object handed to [JSON.stringify] for the body of the request. *)
Definition tavily_search_payload (apiKey : option string) (query : string) (maxResults : float)
    (searchDepth : string) (includeDomains excludeDomains : list string) : jsval :=
  VObj [ ("api_key", of_opt_string apiKey);
         ("query", VStr (filledQuery query));
         ("max_results", VNum (Math_max maxResults 5));
         ("search_depth", VStr searchDepth);
         ("include_images", VBool true);
         ("include_image_descriptions", VBool true);
         ("include_answers", VBool true);
         ("include_domains", VArr (map VStr includeDomains));
         ("exclude_domains", VArr (map VStr excludeDomains)) ].

Definition tavily_search_request (payload : jsval) : Http.Request :=
  {| Http.url := "https://api.tavily.com/search";
     Http.method := "POST";
     Http.headers := [("Content-Type", "application/json")];
     Http.body := JSON_stringify payload |}.

(** [({ url, description }) => ({ url: sanitizeUrl(url), description })] *)
Definition sanitize_image (image : jsval) : outcome jsval :=
  match get image "url" with
  | Thrown e => Thrown e
  | Returned u =>
      match sanitizeUrl u with
      | Thrown e => Thrown e
      | Returned u' => Returned (VObj [("url", u'); ("description", prop image "description")])
      end
  end.

Fixpoint map_outcome {A B : Type} (f : A -> outcome B) (l : list A) : outcome (list B) :=
  match l with
  | [] => Returned []
  | a :: rest =>
      match f a with
      | Thrown e => Thrown e
      | Returned b =>
          match map_outcome f rest with
          | Thrown e => Thrown e
          | Returned bs => Returned (b :: bs)
          end
      end
  end.

(** [image.description !== undefined && image.description !== ''] (the
    [typeof image === 'object'] conjunct holds of every mapped image). *)
Definition described (image : jsval) : bool :=
  match prop image "description" with
  | VUndefined => false
  | VStr s => negb (s =? "")
  | _ => true
  end.

(** [data.images.map(...).filter(...)] *)
Definition processedImages (imgs : jsval) : outcome jsval :=
  match imgs with
  | VArr l =>
      match map_outcome sanitize_image l with
      | Thrown e => Thrown e
      | Returned l' => Returned (VArr (filter described l'))
      end
  | VUndefined | VNull => Thrown (cannot_read imgs "map")
  | _ => Thrown (mkError "data.images.map is not a function")
  end.

Fixpoint set_field (k : string) (v : jsval) (fs : list (string * jsval)) : list (string * jsval) :=
  match fs with
  | [] => [(k, v)]
  | (k', v') :: rest => if k' =? k then (k, v) :: rest else (k', v') :: set_field k v rest
  end.

(** [{ ...data, images }] for the object [data]. *)
Definition spread_with_images (data imgs : jsval) : jsval :=
  match data with
  | VObj fs => VObj (set_field "images" imgs fs)
  | _ => VObj [("images", imgs)]
  end.

(** [TavilySearchProvider.search] *)
Definition TavilySearchProvider_search (query : string) (maxResults : option float)
    (searchDepth : option string) (includeDomains excludeDomains : option (list string))
    : M jsval :=
  let maxResults := with_default 10%float maxResults in
  let searchDepth := with_default "basic" searchDepth in
  let includeDomains := with_default default_includeDomains includeDomains in
  let excludeDomains := with_default [] excludeDomains in
  let apiKey := env "TAVILY_API_KEY" in
  lift (validateApiKey apiKey "TAVILY") ;;
  response <- http_fetch (tavily_search_request
                            (tavily_search_payload apiKey query maxResults searchDepth
                               includeDomains excludeDomains)) ;;
  if negb (Http.ok response) then
    throw (mkError ("Tavily API error: " ++ string_of_Z (Http.status response)
                    ++ " " ++ Http.statusText response))
  else
    data <- lift (Http.json response) ;;
    imgs <- lift (get data "images") ;;
    processed <- lift (processedImages imgs) ;;
    ret (spread_with_images data processed).

End Adapters.

(* ===================================================================== *)
(** ** lib/streaming/tool-execution.ts: the orchestrator                  *)
(* ===================================================================== *)

(** A Zod object schema as far as the call parser can use it. *)
Inductive FieldType : Type := TString | TNumber | TStringList.

Record FieldDecl : Type := mkField {
  field_name : string;
  field_type : FieldType;
  field_optional : bool;
  field_default : option jsval
}.

Record ZodSchema : Type := mkSchema {
  shape : list FieldDecl;
  refinement : option (jsval -> bool)
}.

(** lib/schema/solanaTokenMarketData.ts *)
Definition solanaTokenMarketDataSchema : ZodSchema :=
  {| shape := [ mkField "tokenSymbol" TString true None;
                mkField "tokenMintAddress" TString true None ];
     refinement := Some (fun data =>
       truthy (or_else (prop data "tokenSymbol") (prop data "tokenMintAddress"))) |}.

(** What [parseToolCallXml] returns. *)
Record ToolCall : Type := mkToolCall {
  tool : string;
  parameters : jsval
}.

Definition nl : string := String (ascii_of_nat 10) EmptyString.

(** The value of a field the schema declares as a string. *)
Definition string_field (v : jsval) : option string :=
  match v with
  | VStr s => Some s
  | _ => None
  end.

(** [toolCall.parameters] seen at the type [SolanaTokenMarketDataParams],
    whose two fields the schema declares as optional strings. *)
Definition market_params (p : jsval) : SolanaTokenMarketDataParams :=
  {| tokenSymbol := string_field (prop p "tokenSymbol");
     tokenMintAddress := string_field (prop p "tokenMintAddress") |}.

(** The objects [JSON.stringify] receives, keys in the order in which the
    object literals of the fetchers list them. *)
Definition json_of_BirdeyeData (b : BirdeyeData.t) : jsval :=
  VObj [ ("price", BirdeyeData.price b);
         ("volume24h", BirdeyeData.volume24h b);
         ("liquidity", BirdeyeData.liquidity b);
         ("mc", BirdeyeData.mc b);
         ("error", of_opt_string (BirdeyeData.error b));
         ("source", of_opt_string (BirdeyeData.source b));
         ("url", of_opt_string (BirdeyeData.url b)) ].

Definition json_of_SolscanData (s : SolscanData.t) : jsval :=
  VObj [ ("price", SolscanData.price s);
         ("marketCap", SolscanData.marketCap s);
         ("circulatingSupply", SolscanData.circulatingSupply s);
         ("totalSupply", SolscanData.totalSupply s);
         ("holders", SolscanData.holders s);
         ("error", of_opt_string (SolscanData.error s));
         ("source", of_opt_string (SolscanData.source s));
         ("url", of_opt_string (SolscanData.url s)) ].

Definition json_of_option {A : Type} (f : A -> jsval) (o : option A) : jsval :=
  match o with
  | Some a => f a
  | None => VUndefined
  end.

Definition json_of_ExecuteResult (r : ExecuteResult) : jsval :=
  match r with
  | ErrorObject msg => VObj [("error", VStr msg)]
  | Combined c =>
      VObj [ ("tokenSymbol", of_opt_string (CombinedMarketData.tokenSymbol c));
             ("tokenMintAddress", of_opt_string (CombinedMarketData.tokenMintAddress c));
             ("errors", json_of_option (fun l => VArr (map VStr l)) (CombinedMarketData.errors c));
             ("birdeye", json_of_option json_of_BirdeyeData (CombinedMarketData.birdeye c));
             ("solscan", json_of_option json_of_SolscanData (CombinedMarketData.solscan c));
             ("lastUpdated", of_opt_string (CombinedMarketData.lastUpdated c)) ]
  end.

(** [{ error: msg }] *)
Definition error_object (msg : string) : jsval := VObj [("error", VStr msg)].

(** [coreMessages.slice(-Math.min(coreMessages.length, 5))] *)
Definition last_five (coreMessages : list CoreMessage) : list CoreMessage :=
  skipn (List.length coreMessages - Nat.min (List.length coreMessages) 5) coreMessages.

(** The instruction of the second synthesized turn. *)
Definition synthesis_instruction (finalToolName : string) : string :=
  "The user's original query led to the use of the '" ++ finalToolName
  ++ "' tool, and the output is provided above." ++ nl
  ++ "Please analyze this output in the context of our conversation." ++ nl
  ++ "- If the tool was 'search', synthesize the search results to answer the user's question about the Solana ecosystem. Cite sources using [number](url) format." ++ nl
  ++ "- If the tool was 'getSolanaTokenMarketDataTool', present the key market data (price, volume, market cap, supply, holders) clearly. Mention the sources (Birdeye, Solscan) and the 'lastUpdated' time from the tool's output." ++ nl
  ++ "- If there were errors from the tool, acknowledge them." ++ nl
  ++ "Now, provide a comprehensive response to the user based on this information.".

Definition no_tool_pass : ToolExecutionResult :=
  {| toolCallDataAnnotation := None; toolCallMessages := [] |}.

Section Orchestrator.

Variable env : string -> option string.
Variable fetch : Http.Request -> outcome Http.Response.
Variable now_iso : string.
Variable JSON_stringify : jsval -> option string.

(** [generateText({ model: getModel(model), system, messages }).text] *)
Variable generateText : string -> string -> list CoreMessage -> outcome string.
(** The system prompt of the selection step: a template over the current
    date, the descriptions rendered from the two schemas and the default
    number of results. *)
Variable selection_prompt : float -> string.
(** [generateId()] *)
Variable generateId : string.
(** lib/streaming/parse-tool-call.ts *)
Variable parseToolCallXml : string -> option ZodSchema -> ToolCall.
(** lib/schema/search.ts *)
Variable searchSchema : ZodSchema.
(** [search] of lib/tools/search: the client of the search endpoint. *)
Variable executeSearchViaApi : jsval -> jsval -> jsval -> jsval -> jsval -> outcome jsval.

Definition call_generateText (model system : string) (messages : list CoreMessage) : M string :=
  perform (EGenerateText model system messages) ;; lift (generateText model system messages).

Definition call_executeSearchViaApi (q m d i x : jsval) : M jsval :=
  perform (EExecuteSearchViaApi q m d i x) ;; lift (executeSearchViaApi q m d i x).

(** [getSolanaTokenMarketDataTool.execute(toolCall.parameters,
    toolExecutionOptions)]: the options carry the identifier of the call and
    the conversation array itself, and [execute] takes one parameter only. *)
Definition call_marketDataExecute (params : jsval) : M ExecuteResult :=
  perform (EMarketDataExecute params) ;;
  getSolanaTokenMarketDataTool_execute env fetch now_iso (market_params params).

(** [model?.includes('ollama') ? 5 : 7] *)
Definition defaultMaxResultsSearch (model : string) : float :=
  if includes "ollama" model then 5%float else 7%float.

(** The variable [toolCall] after the two-step parse. *)
Definition selectToolCall (text : string) : option ToolCall :=
  let parsedXmlForToolName := parseToolCallXml text None in
  let chosenToolName := tool parsedXmlForToolName in
  if chosenToolName =? "search" then
    Some (parseToolCallXml text (Some searchSchema))
  else if chosenToolName =? "getSolanaTokenMarketDataTool" then
    Some (parseToolCallXml text (Some solanaTokenMarketDataSchema))
  else if str_truthy chosenToolName then
    Some parsedXmlForToolName
  else None.

(** The branches between the two writes on the data stream: the value
    assigned to [toolResultJson]. *)
Definition dispatch (model : string) (toolCall : ToolCall) : M (option string) :=
  let finalToolName := tool toolCall in
  let p := parameters toolCall in
  if finalToolName =? "search" then
    if negb (truthy (get_opt p "query")) then
      ret (JSON_stringify (error_object "Search query missing."))
    else
      searchResults <- call_executeSearchViaApi
                         (prop p "query")
                         (or_else (prop p "max_results") (VNum (defaultMaxResultsSearch model)))
                         (or_else (prop p "search_depth") (VStr "basic"))
                         (or_else (prop p "include_domains") (VArr []))
                         (or_else (prop p "exclude_domains") (VArr [])) ;;
      ret (JSON_stringify searchResults)
  else if finalToolName =? "getSolanaTokenMarketDataTool" then
    if negb (truthy (get_opt p "tokenSymbol")) && negb (truthy (get_opt p "tokenMintAddress")) then
      ret (JSON_stringify (error_object "Token symbol or mint address missing for market data."))
    else
      marketData <- call_marketDataExecute p ;;
      ret (JSON_stringify (json_of_ExecuteResult marketData))
  else
    ret (JSON_stringify
           (error_object ("Tool '" ++ finalToolName ++ "' is not implemented or recognized."))).

Definition progress (state : ProgressState) (toolCallId : string) (toolCall : ToolCall)
    (result : option string) : ProgressEvent :=
  {| ev_state := state;
     ev_toolCallId := toolCallId;
     ev_toolName := tool toolCall;
     ev_args := JSON_stringify (parameters toolCall);
     ev_result := result |}.

(** The [try { ... } catch (toolError) { ... }] block. *)
Definition run_tool (model toolCallId : string) (toolCall : ToolCall) : M (option string) :=
  try_catch
    (perform (EWriteData (progress StateCall toolCallId toolCall None)) ;;
     toolResultJson <- dispatch model toolCall ;;
     perform (EWriteMessageAnnotation (progress StateResult toolCallId toolCall toolResultJson)) ;;
     ret toolResultJson)
    (fun toolError =>
       let toolResultJson :=
         JSON_stringify (error_object ("Failed to execute tool " ++ tool toolCall ++ ": "
                                       ++ message toolError)) in
       perform (EWriteMessageAnnotation (progress StateError toolCallId toolCall toolResultJson)) ;;
       ret toolResultJson).

(** What the pass returns once [toolResultJson] is known. *)
Definition synthesize (toolCallId : string) (toolCall : ToolCall) (toolResultJson : option string)
    : ToolExecutionResult :=
  let finalToolName := tool toolCall in
  {| toolCallDataAnnotation :=
       Some {| ext_role := RData;
               ext_type := "tool_call";
               ext_data := {| toolCallId := toolCallId;
                              toolName := finalToolName;
                              args := JSON_stringify (parameters toolCall);
                              result := toolResultJson |} |};
     toolCallMessages :=
       [ {| role := RAssistant;
            content := VStr ("[Tool Used: " ++ finalToolName ++ "]" ++ nl ++ "Output:" ++ nl
                             ++ show_opt toolResultJson) |};
         {| role := RUser;
            content := VStr (synthesis_instruction finalToolName) |} ] |}.

(** [executeToolCall(coreMessages, dataStream, model, searchMode)]: the two
    reference parameters are the conversation and the log of the store. *)
Definition executeToolCall (model : string) (searchMode : bool) : M ToolExecutionResult :=
  if negb searchMode then ret no_tool_pass
  else
    coreMessages <- read_conversation ;;
    toolSelectionResponse <- call_generateText model
                               (selection_prompt (defaultMaxResultsSearch model))
                               (last_five coreMessages) ;;
    match selectToolCall toolSelectionResponse with
    | None => ret no_tool_pass
    | Some toolCall =>
        if negb (str_truthy (tool toolCall)) then ret no_tool_pass
        else
          let toolCallId := "call_" ++ generateId in
          toolResultJson <- run_tool model toolCallId toolCall ;;
          ret (synthesize toolCallId toolCall toolResultJson)
    end.

End Orchestrator.

(* ===================================================================== *)
(** ** The call parser                                                    *)
(* ===================================================================== *)

(** lib/streaming/parse-tool-call.ts and lib/schema/search.ts are not among
    the sources: this module follows the specification. *)
Module CallParser.

(** The text after the first [n] characters. *)
Fixpoint drop (n : nat) (s : string) : string :=
  match n, s with
  | O, _ => s
  | S _, EmptyString => EmptyString
  | S k, String _ rest => drop k rest
  end.

(** The text before and the text after the first occurrence of [pat]. *)
Fixpoint split_at (pat s : string) : option (string * string) :=
  if prefix pat s then Some (EmptyString, drop (String.length pat) s)
  else match s with
       | EmptyString => None
       | String c rest =>
           match split_at pat rest with
           | Some (before, after) => Some (String c before, after)
           | None => None
           end
       end.

(** The text enclosed by the first [opening] and the first [closing] after
    it, and the text that follows. *)
Definition between (opening closing s : string) : option (string * string) :=
  match split_at opening s with
  | None => None
  | Some (_, rest) => split_at closing rest
  end.

(** Modelled from the spec: the nested parameter fields of the markup block
    (section 4.3), read as the elements [<name>value</name>] in order; an
    opening tag that is never closed is skipped. *)
Fixpoint fields_of (fuel : nat) (s : string) : list (string * string) :=
  match fuel with
  | O => []
  | S fuel' =>
      match between "<" ">" s with
      | None => []
      | Some (name, rest) =>
          match split_at ("</" ++ name ++ ">") rest with
          | None => fields_of fuel' rest
          | Some (value, rest') => (name, value) :: fields_of fuel' rest'
          end
      end
  end.

Fixpoint lookup (k : string) (fs : list (string * string)) : option string :=
  match fs with
  | [] => None
  | (k', v) :: rest => if k' =? k then Some v else lookup k rest
  end.

Fixpoint split_commas (fuel : nat) (s : string) : list string :=
  match fuel with
  | O => [s]
  | S fuel' =>
      match split_at "," s with
      | None => [s]
      | Some (item, rest) => item :: split_commas fuel' rest
      end
  end.

Definition float_of_Z (z : Z) : float :=
  if (z <? 0)%Z then opp (of_uint63 (Uint63.of_Z (- z))) else of_uint63 (Uint63.of_Z z).

Definition parse_number (s : string) : option float :=
  option_map (fun i => float_of_Z (Z.of_int i)) (NilZero.int_of_string s).

(** Modelled from the spec: the coercion of one declared field (section
    4.3): string passthrough, numeric parse with fallback to the declared
    default, comma-separated text split into a list; the declared default
    when the field is not matched, and [undefined] when there is none. *)
Definition coerce (decl : FieldDecl) (matched : option string) : jsval :=
  let fallback := json_of_option (fun v => v) (field_default decl) in
  match matched with
  | None => fallback
  | Some raw =>
      match field_type decl with
      | TString => VStr raw
      | TNumber => match parse_number raw with
                   | Some x => VNum x
                   | None => fallback
                   end
      | TStringList => VArr (map VStr (split_commas (String.length raw) raw))
      end
  end.

(** Modelled from the spec: the parameters of the invocation (section 4.3):
    the matched fields as they are when no schema is given, the declared
    fields coerced when one is. *)
Definition typed_parameters (schema : option ZodSchema) (raw : list (string * string)) : jsval :=
  match schema with
  | None => VObj (map (fun kv => (fst kv, VStr (snd kv))) raw)
  | Some sch =>
      VObj (map (fun decl => (field_name decl, coerce decl (lookup (field_name decl) raw)))
                (shape sch))
  end.

(** Modelled from the spec: the no-tool invocation (section 3): an empty
    tool name and an empty mapping of parameters. *)
Definition no_tool : ToolCall := {| tool := ""; parameters := VObj [] |}.

(** Modelled from the spec: [parseToolCallXml] of
    lib/streaming/parse-tool-call.ts, which is not among the sources.
    Section 4.3 of the specification: the text is expected to contain one
    markup block with a tool name and nested parameter fields; the tool name
    is extracted first, whatever the schema; with a schema each matched field
    is coerced by its declared type and an unmatched field takes its declared
    default or stays absent; no tool block, an empty tool name and
    unparseable markup all give the same no-tool invocation, and nothing is
    ever thrown.  The markup is the one the selection prompt of the
    orchestrator asks the model for. *)
Definition parseToolCallXml (xml : string) (schema : option ZodSchema) : ToolCall :=
  match between "<tool_call>" "</tool_call>" xml with
  | None => no_tool
  | Some (block, _) =>
      match between "<tool>" "</tool>" block with
      | None => no_tool
      | Some (name, _) =>
          if name =? "" then no_tool
          else
            let raw := match between "<parameters>" "</parameters>" block with
                       | None => []
                       | Some (inner, _) => fields_of (String.length inner) inner
                       end in
            {| tool := name; parameters := typed_parameters schema raw |}
      end
  end.

(** Modelled from the spec: the schema of lib/schema/search.ts, which is not
    among the sources.  Section 4.1: a free-text search query with optional
    result-count, depth and domain-filter fields; the defaults are the ones
    the selection prompt names (depth [basic]) and the ones the orchestrator
    substitutes for absent lists; the default count is left to the
    orchestrator. *)
Definition searchSchema : ZodSchema :=
  {| shape := [ mkField "query" TString false None;
                mkField "max_results" TNumber true None;
                mkField "search_depth" TString true (Some (VStr "basic"));
                mkField "include_domains" TStringList true (Some (VArr []));
                mkField "exclude_domains" TStringList true (Some (VArr [])) ];
     refinement := None |}.

(** [text] contains a call block that names the tool [name]. *)
Definition names_tool (text name : string) : Prop :=
  exists pre block post p q,
    text = pre ++ "<tool_call>" ++ block ++ "</tool_call>" ++ post
    /\ block = p ++ "<tool>" ++ name ++ "</tool>" ++ q.

End CallParser.

(* ===================================================================== *)
(** ** Predicates on logs and results used by the statements              *)
(* ===================================================================== *)

(** The progress events a log holds, in the order they were written. *)
Fixpoint progress_events (l : list Effect) : list ProgressEvent :=
  match l with
  | [] => []
  | EWriteData ev :: rest => ev :: progress_events rest
  | EWriteMessageAnnotation ev :: rest => ev :: progress_events rest
  | _ :: rest => progress_events rest
  end.

(** An adapter was invoked, or a request left the process. *)
Definition adapter_effect (e : Effect) : bool :=
  match e with
  | EExecuteSearchViaApi _ _ _ _ _ | EMarketDataExecute _ | EFetch _ => true
  | _ => false
  end.

Definition fetch_effect (e : Effect) : bool :=
  match e with
  | EFetch _ => true
  | _ => false
  end.

(** An error message that asks for a mint address. *)
Definition asks_for_mint_address (error : option string) : bool :=
  match error with
  | Some msg => includes "Mint address" msg
  | None => false
  end.

(** The store after the effects [added] have been logged. *)
Definition logged (st : Store) (added : list Effect) : Store :=
  {| conversation := conversation st; log := (log st ++ added)%list |}.

(** [m] keeps the conversation as it is and adds to the log only effects
    that satisfy [P]. *)
Definition only {A : Type} (P : Effect -> bool) (m : M A) : Prop :=
  forall st o st',
    m st = (o, st') ->
    conversation st' = conversation st
    /\ exists added, log st' = (log st ++ added)%list /\ forallb P added = true.

(** [raw] is the [content] of the document the Jina reader answers with. *)
Definition jina_content (fetch : Http.Request -> outcome Http.Response) (url : string)
    (raw : jsval) : Prop :=
  exists response json data,
    fetch (jina_request url) = Returned response
    /\ Http.json response = Returned json
    /\ get json "data" = Returned data
    /\ get data "content" = Returned raw.

(** [raw] is the [raw_content] of the first result Tavily Extract answers
    with. *)
Definition tavily_raw_content (env : string -> option string)
    (fetch : Http.Request -> outcome Http.Response)
    (JSON_stringify : jsval -> option string) (url : string) (raw : jsval) : Prop :=
  exists response json rs result,
    fetch (tavily_extract_request env JSON_stringify url) = Returned response
    /\ Http.json response = Returned json
    /\ get json "results" = Returned rs
    /\ first_elem rs = Returned result
    /\ get result "raw_content" = Returned raw.

(** [m] returns: it does not throw. *)
Definition returns {A : Type} (m : M A) : Prop :=
  forall st, exists a st', m st = (Returned a, st').

(* ===================================================================== *)
(** ** A closed world for the examples                                    *)
(* ===================================================================== *)

Module Stub.

Definition dquote : string := String (ascii_of_nat 34) EmptyString.

Fixpoint escape (s : string) : string :=
  match s with
  | EmptyString => EmptyString
  | String c rest =>
      if (Ascii.eqb c (ascii_of_nat 34) || Ascii.eqb c (ascii_of_nat 92))%bool
      then String (ascii_of_nat 92) (String c (escape rest))
      else String c (escape rest)
  end.

Definition quoted (s : string) : string := dquote ++ escape s ++ dquote.

(** The integer a double stands for, when it is one. *)
Definition integer_of (x : float) : option Z :=
  match FloatOps.Prim2SF x with
  | SpecFloat.S754_zero _ => Some 0%Z
  | SpecFloat.S754_finite s m e =>
      let n := if s then Z.neg m else Z.pos m in
      if (0 <=? e)%Z then Some (n * 2 ^ e)%Z
      else if (n mod 2 ^ (- e) =? 0)%Z then Some (n / 2 ^ (- e))%Z
      else None
  | _ => None
  end.

(** [JSON.stringify] on the values of the examples: [undefined] gives
    [undefined], an undefined property is left out, an undefined element is
    [null]; of the numbers only the integers are printed. *)
Fixpoint text_of (v : jsval) : option string :=
  match v with
  | VUndefined => None
  | VNull => Some "null"
  | VBool b => Some (if b then "true" else "false")
  | VNum x => option_map string_of_Z (integer_of x)
  | VStr s => Some (quoted s)
  | VArr l =>
      Some ("[" ++ String.concat ","
                     (map (fun e => match text_of e with
                                    | Some t => t
                                    | None => "null"
                                    end) l) ++ "]")
  | VObj fs =>
      Some ("{" ++ String.concat ","
                     (flat_map (fun kv => match text_of (snd kv) with
                                          | Some t => [quoted (fst kv) ++ ":" ++ t]
                                          | None => []
                                          end) fs) ++ "}")
  end.

Definition stringify : jsval -> option string := text_of.

(** No variable of the environment is set. *)
Definition env_empty : string -> option string := fun _ => None.

(** The API keys are set. *)
Definition env_keys : string -> option string :=
  fun k => if (k =? "BIRDEYE_API_KEY") || (k =? "TAVILY_API_KEY") || (k =? "JINA_API_KEY")
           then Some "secret" else None.

(** The network is down. *)
Definition fetch_down : Http.Request -> outcome Http.Response :=
  fun _ => Thrown (mkError "fetch failed").

(** Every request is answered with the same document. *)
Definition fetch_page : Http.Request -> outcome Http.Response :=
  fun _ => Returned
    {| Http.ok := true; Http.status := 200%Z; Http.statusText := "OK";
       Http.json := Returned
         (VObj [ ("data", VObj [ ("title", VStr "Nosana");
                                 ("content", VStr "Nosana is a GPU marketplace.");
                                 ("url", VStr "https://nosana.io") ]);
                 ("results", VArr [ VObj [ ("url", VStr "https://nosana.io");
                                           ("raw_content", VStr "Nosana is a GPU marketplace.") ] ]);
                 ("images", VArr []) ]) |}.

Definition now_iso : string := "2025-05-20T10:00:00.000Z".

Definition generateId : string := "a1b2c3".

Definition selection_prompt : float -> string := fun _ => "Respond ONLY in XML format.".

(** A model that always answers [text]. *)
Definition answers (text : string) : string -> string -> list CoreMessage -> outcome string :=
  fun _ _ _ => Returned text.

(** A search client that finds nothing. *)
Definition executeSearchViaApi : jsval -> jsval -> jsval -> jsval -> jsval -> outcome jsval :=
  fun _ _ _ _ _ => Returned (VObj [("results", VArr []); ("images", VArr [])]).

Definition validateApiKey : option string -> string -> outcome unit :=
  fun apiKey provider =>
    if opt_truthy apiKey then Returned tt
    else Thrown (mkError (provider ++ "_API_KEY is not set in the environment variables")).

Definition sanitizeUrl : jsval -> outcome jsval := fun u => Returned u.

Definition st0 : Store :=
  {| conversation := [ mkMessage RUser (VStr "What is the price of $NOS?") ];
     log := [] |}.

(** The orchestrator in the closed world, with the model answering [text]. *)
Definition pass (env : string -> option string) (text : string) : M ToolExecutionResult :=
  executeToolCall env fetch_down now_iso stringify (answers text) selection_prompt generateId
    CallParser.parseToolCallXml CallParser.searchSchema executeSearchViaApi
    "openai:gpt-4o" true.

Definition search_without_query : string :=
  "<tool_call><tool>search</tool><parameters></parameters></tool_call>".

Definition market_without_identifier : string :=
  "<tool_call><tool>getSolanaTokenMarketDataTool</tool><parameters></parameters></tool_call>".

Definition market_with_symbol : string :=
  "<tool_call><tool>getSolanaTokenMarketDataTool</tool><parameters><tokenSymbol>$NOS</tokenSymbol></parameters></tool_call>".

Definition search_with_query : string :=
  "<tool_call><tool>search</tool><parameters><query>Nosana $NOS overview</query></parameters></tool_call>".


Definition no_tool_text : string := "<tool_call><tool></tool></tool_call>".

Definition symbol_only : SolanaTokenMarketDataParams :=
  {| tokenSymbol := Some "$NOS"; tokenMintAddress := None |}.

End Stub.

(* ===================================================================== *)
(** ** lib/streaming/create-tool-calling-stream.ts and                    *)
(** ** lib/agents/researcher.ts: the callers of the tools                 *)
(* ===================================================================== *)

(** [v === s] for a string literal [s]. *)
Definition is_string (v : jsval) (s : string) : bool :=
  match v with
  | VStr t => t =? s
  | _ => false
  end.

(** [content.some(item => item.type === 'tool-call'
                          && item.toolName === 'ask_question')] *)
Fixpoint some_ask_question (items : list jsval) : outcome bool :=
  match items with
  | [] => Returned false
  | item :: rest =>
      match get item "type" with
      | Thrown e => Thrown e
      | Returned type =>
          if is_string type "tool-call" && is_string (prop item "toolName") "ask_question"
          then Returned true
          else some_ask_question rest
      end
  end.

(** [containsAskQuestionTool] *)
Definition containsAskQuestionTool (message : CoreMessage) : outcome bool :=
  match role message, content message with
  | RAssistant, VArr items => some_ask_question items
  | _, _ => Returned false
  end.

(** Sequencing of synchronous calls that may throw. *)
Definition and_then {A B : Type} (o : outcome A) (k : A -> outcome B) : outcome B :=
  match o with
  | Returned a => k a
  | Thrown e => Thrown e
  end.

(** [try { o } catch (error) { h error }] for synchronous code. *)
Definition or_catch {A : Type} (o : outcome A) (h : JsError -> outcome A) : outcome A :=
  match o with
  | Returned a => Returned a
  | Thrown e => h e
  end.

Section Researcher.

(** The tool objects, the model handle and the stream transform of the AI
    SDK are opaque to the researcher. *)
Variable Tool Model Transform : Type.
(** The tool constructors of lib/tools and [getModel] of the registry. *)
Variable createSearchTool createVideoSearchTool createQuestionTool : string -> outcome Tool.
Variable retrieveTool getSolanaTokenMarketDataTool : Tool.
Variable getModel : string -> outcome Model.
(** [smoothStream()] *)
Variable smoothStream : outcome Transform.
(** The system prompt, a template over the current date. *)
Variable researcher_system : string.

(** The argument [researcher] builds for [streamText]. *)
Record ResearcherReturn : Type := mkResearcherReturn {
  rr_model : Model;
  rr_system : string;
  rr_messages : list CoreMessage;
  rr_tools : list (string * Tool);
  experimental_activeTools : list string;
  maxSteps : nat;
  experimental_transform : Transform
}.

(** [researcher({ messages, model, searchMode })] *)
Definition researcher (messages : list CoreMessage) (model : string) (searchMode : bool)
    : outcome ResearcherReturn :=
  or_catch
    (and_then (createSearchTool model) (fun searchTool =>
     and_then (createVideoSearchTool model) (fun videoSearchTool =>
     and_then (createQuestionTool model) (fun askQuestionTool =>
     let solanaMarketDataTool := getSolanaTokenMarketDataTool in
     let toolsForStream :=
       if searchMode
       then [ ("search", searchTool);
              ("retrieve", retrieveTool);
              ("videoSearch", videoSearchTool);
              ("ask_question", askQuestionTool);
              ("getSolanaTokenMarketDataTool", solanaMarketDataTool) ]
       else [] in
     let activeToolsList :=
       if searchMode
       then [ "search"; "retrieve"; "videoSearch"; "ask_question";
              "getSolanaTokenMarketDataTool" ]
       else [] in
     and_then (getModel model) (fun m =>
     and_then smoothStream (fun transform =>
     Returned {| rr_model := m;
                 rr_system := researcher_system;
                 rr_messages := messages;
                 rr_tools := toolsForStream;
                 experimental_activeTools := activeToolsList;
                 maxSteps := if searchMode then 7 else 1;
                 experimental_transform := transform |}))))))
    (fun error =>
       Thrown (mkError ("Failed to configure researcher agent: " ++ message error))).

End Researcher.

Arguments rr_model {Tool Model Transform} _.
Arguments rr_system {Tool Model Transform} _.
Arguments rr_messages {Tool Model Transform} _.
Arguments rr_tools {Tool Model Transform} _.
Arguments experimental_activeTools {Tool Model Transform} _.
Arguments maxSteps {Tool Model Transform} _.
Arguments experimental_transform {Tool Model Transform} _.
Arguments researcher {Tool Model Transform} _ _ _ _ _ _ _ _ _ _ _.

(* ===================================================================== *)
(** ** lib/streaming/tool-execution.ts once more: what can throw          *)
(* ===================================================================== *)

(** [executeToolCall] for the question of which calls can make a pass
    throw.  Above, a write on the data stream, a call of the parser and
    [generateId()] always return.  Here each of them is a call that may
    throw, like the model call and the adapters; a write that throws writes
    nothing.  [JSON.stringify] is applied to parsed parameters, to what the
    adapters return and to literal error objects, and is taken to return. *)
Module Throwing.

Section WithWriter.

Variable env : string -> option string.
Variable fetch : Http.Request -> outcome Http.Response.
Variable now_iso : string.
Variable JSON_stringify : jsval -> option string.
Variable generateText : string -> string -> list CoreMessage -> outcome string.
Variable selection_prompt : float -> string.
(** [generateId()] *)
Variable generateId : outcome string.
(** lib/streaming/parse-tool-call.ts *)
Variable parseToolCallXml : string -> option ZodSchema -> outcome ToolCall.
Variable searchSchema : ZodSchema.
Variable executeSearchViaApi : jsval -> jsval -> jsval -> jsval -> jsval -> outcome jsval.
(** [dataStream.writeData] and [dataStream.writeMessageAnnotation] *)
Variable writeData : ProgressEvent -> outcome unit.
Variable writeMessageAnnotation : ProgressEvent -> outcome unit.

Definition call_writeData (ev : ProgressEvent) : M unit :=
  lift (writeData ev) ;; perform (EWriteData ev).

Definition call_writeMessageAnnotation (ev : ProgressEvent) : M unit :=
  lift (writeMessageAnnotation ev) ;; perform (EWriteMessageAnnotation ev).

(** The variable [toolCall] after the two-step parse. *)
Definition selectToolCall (text : string) : outcome (option ToolCall) :=
  and_then (parseToolCallXml text None) (fun parsedXmlForToolName =>
  let chosenToolName := tool parsedXmlForToolName in
  if chosenToolName =? "search" then
    and_then (parseToolCallXml text (Some searchSchema)) (fun toolCall =>
    Returned (Some toolCall))
  else if chosenToolName =? "getSolanaTokenMarketDataTool" then
    and_then (parseToolCallXml text (Some solanaTokenMarketDataSchema)) (fun toolCall =>
    Returned (Some toolCall))
  else if str_truthy chosenToolName then
    Returned (Some parsedXmlForToolName)
  else Returned None).

(** The [try { ... } catch (toolError) { ... }] block. *)
Definition run_tool (model toolCallId : string) (toolCall : ToolCall) : M (option string) :=
  try_catch
    (call_writeData (progress JSON_stringify StateCall toolCallId toolCall None) ;;
     toolResultJson <- dispatch env fetch now_iso JSON_stringify executeSearchViaApi
                         model toolCall ;;
     call_writeMessageAnnotation
       (progress JSON_stringify StateResult toolCallId toolCall toolResultJson) ;;
     ret toolResultJson)
    (fun toolError =>
       let toolResultJson :=
         JSON_stringify (error_object ("Failed to execute tool " ++ tool toolCall ++ ": "
                                       ++ message toolError)) in
       call_writeMessageAnnotation
         (progress JSON_stringify StateError toolCallId toolCall toolResultJson) ;;
       ret toolResultJson).

(** [executeToolCall(coreMessages, dataStream, model, searchMode)] *)
Definition executeToolCall (model : string) (searchMode : bool) : M ToolExecutionResult :=
  if negb searchMode then ret no_tool_pass
  else
    coreMessages <- read_conversation ;;
    toolSelectionResponse <- call_generateText generateText model
                               (selection_prompt (defaultMaxResultsSearch model))
                               (last_five coreMessages) ;;
    selected <- lift (selectToolCall toolSelectionResponse) ;;
    match selected with
    | None => ret no_tool_pass
    | Some toolCall =>
        if negb (str_truthy (tool toolCall)) then ret no_tool_pass
        else
          id <- lift generateId ;;
          let toolCallId := "call_" ++ id in
          toolResultJson <- run_tool model toolCallId toolCall ;;
          ret (synthesize JSON_stringify toolCallId toolCall toolResultJson)
    end.

End WithWriter.

End Throwing.

(* ===================================================================== *)
(** ** More predicates and closed inputs for the statements               *)
(* ===================================================================== *)

(** A value the schema of the market-data tool admits for a field: a
    string, or nothing. *)
Definition string_or_absent (v : jsval) : bool :=
  match v with
  | VStr _ | VUndefined => true
  | _ => false
  end.

(** Two networks that answer every request alike, up to the status line of
    the answer. *)
Definition same_bodies (fetch1 fetch2 : Http.Request -> outcome Http.Response) : Prop :=
  forall req,
    match fetch1 req, fetch2 req with
    | Returned r1, Returned r2 => Http.json r1 = Http.json r2
    | Thrown _, Thrown _ => True
    | _, _ => False
    end.

(** [l] is what is left of [whole] after some first elements are dropped. *)
Definition suffix_of {A : Type} (l whole : list A) : Prop :=
  exists dropped, whole = (dropped ++ l)%list.

(** A call of the language model. *)
Definition model_call (e : Effect) : bool :=
  match e with
  | EGenerateText _ _ _ => true
  | _ => false
  end.

Module Cases.

Definition with_mint : SolanaTokenMarketDataParams :=
  {| tokenSymbol := Some "$NOS";
     tokenMintAddress := Some "nosXBVoaCTtYdLvKY6Csb4AC8JCdQKKAaWYtx2ZMoo7" |}.

Definition answer (ok : bool) (status : Z) (statusText : string) (body : jsval)
    : outcome Http.Response :=
  Returned {| Http.ok := ok; Http.status := status; Http.statusText := statusText;
              Http.json := Returned body |}.

(** Every service answers 503. *)
Definition fetch_unavailable : Http.Request -> outcome Http.Response :=
  fun _ => answer false 503 "Service Unavailable" (VObj [("error", VStr "unavailable")]).

(** The price endpoint of Birdeye answers, its overview endpoint is down. *)
Definition fetch_without_overview : Http.Request -> outcome Http.Response :=
  fun req =>
    if includes "/public/price" (Http.url req)
    then answer true 200 "OK" (VObj [("data", VObj [("value", VNum 1.5)])])
    else answer false 503 "Service Unavailable" VNull.

(** The reader answers 500, with a document in the body. *)
Definition fetch_page_as_500 : Http.Request -> outcome Http.Response :=
  fun req =>
    match Stub.fetch_page req with
    | Returned r => Returned {| Http.ok := false; Http.status := 500;
                                Http.statusText := "Internal Server Error";
                                Http.json := Http.json r |}
    | Thrown e => Thrown e
    end.

(** A search answer with two images, one of them without a description. *)
Definition fetch_images : Http.Request -> outcome Http.Response :=
  fun _ => answer true 200 "OK"
    (VObj [ ("query", VStr "NOS  ");
            ("results", VArr []);
            ("images", VArr [ VObj [("url", VStr "https://a.example/1.png");
                                    ("description", VStr "logo")];
                              VObj [("url", VStr "https://a.example/2.png");
                                    ("description", VStr "")] ]) ]).


(** A data stream that takes every write, and one that is closed. *)
Definition stream_open : ProgressEvent -> outcome unit := fun _ => Returned tt.



Definition market_with_mint : string :=
  "<tool_call><tool>getSolanaTokenMarketDataTool</tool><parameters><tokenMintAddress>nosXBVoaCTtYdLvKY6Csb4AC8JCdQKKAaWYtx2ZMoo7</tokenMintAddress></parameters></tool_call>".

(** The orchestrator in a closed world with every oracle named. *)
Definition pass (env : string -> option string)
    (fetch : Http.Request -> outcome Http.Response)
    (generateText : string -> string -> list CoreMessage -> outcome string)
    (executeSearchViaApi : jsval -> jsval -> jsval -> jsval -> jsval -> outcome jsval)
    (searchMode : bool) : M ToolExecutionResult :=
  executeToolCall env fetch Stub.now_iso Stub.stringify generateText Stub.selection_prompt
    Stub.generateId CallParser.parseToolCallXml CallParser.searchSchema executeSearchViaApi
    "openai:gpt-4o" searchMode.

(** A conversation of seven turns. *)
Definition long_conversation : list CoreMessage :=
  map (fun s => mkMessage RUser (VStr s)) ["1"; "2"; "3"; "4"; "5"; "6"; "7"].

(** An assistant message that calls the question tool. *)
Definition asks_a_question : CoreMessage :=
  {| role := RAssistant;
     content := VArr [ VObj [("type", VStr "text"); ("text", VStr "Which token?")];
                       VObj [("type", VStr "tool-call"); ("toolName", VStr "ask_question")] ] |}.

End Cases.

(* ===================================================================== *)
(** ** Facts about the monad                                              *)
(* ===================================================================== *)

Section MonadFacts.

Context {A B : Type}.
Variable P : Effect -> bool.

Lemma only_ret (a : A) : only P (ret a).
Proof.
  intros st o st' H. inversion H; subst. split; [reflexivity|].
  exists []. now rewrite app_nil_r.
Qed.

Lemma only_throw (e : JsError) : only P (@throw A e).
Proof.
  intros st o st' H. inversion H; subst. split; [reflexivity|].
  exists []. now rewrite app_nil_r.
Qed.

Lemma only_lift (o : outcome A) : only P (lift o).
Proof.
  intros st o' st' H. inversion H; subst. split; [reflexivity|].
  exists []. now rewrite app_nil_r.
Qed.

Lemma only_perform (e : Effect) : P e = true -> only P (perform e).
Proof.
  intros He st o st' H. inversion H; subst. split; [reflexivity|].
  exists [e]. split; [reflexivity|]. simpl. now rewrite He.
Qed.

Lemma only_bind (m : M A) (k : A -> M B) :
  only P m -> (forall a, only P (k a)) -> only P (bind m k).
Proof.
  intros Hm Hk st o st' H. unfold bind in H.
  destruct (m st) as [[a|e] st1] eqn:E.
  - destruct (Hm _ _ _ E) as (C1 & l1 & L1 & F1).
    destruct (Hk a _ _ _ H) as (C2 & l2 & L2 & F2).
    split; [congruence|]. exists (l1 ++ l2)%list.
    rewrite L2, L1, app_assoc, forallb_app, F1, F2. now split.
  - inversion H; subst. exact (Hm _ _ _ E).
Qed.

Lemma only_try_catch (m : M A) (h : JsError -> M A) :
  only P m -> (forall e, only P (h e)) -> only P (try_catch m h).
Proof.
  intros Hm Hh st o st' H. unfold try_catch in H.
  destruct (m st) as [[a|e] st1] eqn:E.
  - inversion H; subst. exact (Hm _ _ _ E).
  - destruct (Hm _ _ _ E) as (C1 & l1 & L1 & F1).
    destruct (Hh e _ _ _ H) as (C2 & l2 & L2 & F2).
    split; [congruence|]. exists (l1 ++ l2)%list.
    rewrite L2, L1, app_assoc, forallb_app, F1, F2. now split.
Qed.

Lemma returns_ret (a : A) : returns (ret a).
Proof. intros st. now exists a, st. Qed.

Lemma returns_perform (e : Effect) : returns (perform e).
Proof. intros st. eexists; eexists; reflexivity. Qed.

Lemma returns_bind (m : M A) (k : A -> M B) :
  returns m -> (forall a, returns (k a)) -> returns (bind m k).
Proof.
  intros Hm Hk st. destruct (Hm st) as (a & st1 & E).
  destruct (Hk a st1) as (b & st2 & E2).
  exists b, st2. unfold bind. now rewrite E.
Qed.

(** A [try] whose handler returns does not let anything escape. *)
Lemma returns_try_catch (m : M A) (h : JsError -> M A) :
  (forall e, returns (h e)) -> returns (try_catch m h).
Proof.
  intros Hh st. unfold try_catch.
  destruct (m st) as [[a|e] st1].
  - now exists a, st1.
  - apply Hh.
Qed.

End MonadFacts.

Lemma only_weaken {A : Type} (P Q : Effect -> bool) (m : M A) :
  (forall e, P e = true -> Q e = true) -> only P m -> only Q m.
Proof.
  intros PQ Hm st o st' H. destruct (Hm _ _ _ H) as (C & l & L & F).
  split; [exact C|]. exists l. split; [exact L|].
  rewrite forallb_forall in *. auto.
Qed.

Lemma only_read_conversation (P : Effect -> bool) : only P read_conversation.
Proof.
  intros st o st' H. inversion H; subst. split; [reflexivity|].
  exists []. now rewrite app_nil_r.
Qed.

(** Decompose a computation along its syntax. *)
Ltac effects :=
  repeat first
    [ apply only_ret
    | apply only_throw
    | apply only_lift
    | apply only_read_conversation
    | apply only_perform; reflexivity
    | apply only_bind; [| intros ?]
    | apply only_try_catch; [| intros ?]
    | match goal with
      | |- only _ (if ?c then _ else _) => destruct c
      | |- only _ (match ?x with _ => _ end) => destruct x
      end ].

(* ===================================================================== *)
(** ** The market-data tool                                               *)
(* ===================================================================== *)

Section MarketDataFacts.

Variable env : string -> option string.
Variable fetch : Http.Request -> outcome Http.Response.
Variable now_iso : string.

Lemma http_fetch_only : forall req, only fetch_effect (http_fetch fetch req).
Proof. intros req. unfold http_fetch. effects. Qed.

Lemma fetchBirdeyeData_only :
  forall params, only fetch_effect (fetchBirdeyeData env fetch params).
Proof.
  intros params. unfold fetchBirdeyeData.
  effects; apply http_fetch_only.
Qed.

Lemma fetchSolscanData_only :
  forall params, only fetch_effect (fetchSolscanData fetch params).
Proof.
  intros params. unfold fetchSolscanData.
  effects; apply http_fetch_only.
Qed.

(** The fetchers catch what they throw. *)
Lemma fetchBirdeyeData_returns :
  forall params, returns (fetchBirdeyeData env fetch params).
Proof.
  intros params. unfold fetchBirdeyeData.
  destruct (negb (opt_truthy (env "BIRDEYE_API_KEY"))); [apply returns_ret|].
  destruct (opt_truthy (tokenMintAddress params)); [|apply returns_ret].
  apply returns_try_catch. intros e. apply returns_ret.
Qed.

Lemma fetchSolscanData_returns :
  forall params, returns (fetchSolscanData fetch params).
Proof.
  intros params. unfold fetchSolscanData.
  destruct (opt_truthy (tokenMintAddress params)); [|apply returns_ret].
  apply returns_try_catch. intros e. apply returns_ret.
Qed.

(** A result of a fetcher either carries no error, or is a failure record:
    a message that is not empty, and no data. *)
Lemma fetchBirdeyeData_shape :
  forall params st b st',
    fetchBirdeyeData env fetch params st = (Returned b, st') ->
    BirdeyeData.error b = None
    \/ exists msg, b = birdeye_failure msg /\ str_truthy msg = true.
Proof.
  intros params st b st' H. unfold fetchBirdeyeData in H.
  destruct (negb (opt_truthy (env "BIRDEYE_API_KEY")));
    [inversion H; right; eexists; split; reflexivity|].
  destruct (opt_truthy (tokenMintAddress params));
    [|inversion H; right; eexists; split; reflexivity].
  unfold http_fetch, try_catch, bind, lift, perform, throw, ret in H. cbv beta iota in H.
  destruct (fetch _) as [response|e];
    [|inversion H; right; eexists; split; reflexivity]; cbv beta iota in H.
  destruct (negb (Http.ok response));
    [inversion H; right; eexists; split; reflexivity|]; cbv beta iota in H.
  destruct (Http.json response) as [priceData|e];
    [|inversion H; right; eexists; split; reflexivity]; cbv beta iota in H.
  destruct (fetch _) as [overviewResponse|e];
    [|inversion H; right; eexists; split; reflexivity]; cbv beta iota in H.
  destruct (negb (Http.ok overviewResponse));
    [inversion H; right; eexists; split; reflexivity|]; cbv beta iota in H.
  destruct (Http.json overviewResponse) as [overviewData|e];
    [|inversion H; right; eexists; split; reflexivity]; cbv beta iota in H.
  destruct (get priceData "data") as [data|e];
    [|inversion H; right; eexists; split; reflexivity]; cbv beta iota in H.
  inversion H. left. reflexivity.
Qed.

Lemma fetchSolscanData_shape :
  forall params st s st',
    fetchSolscanData fetch params st = (Returned s, st') ->
    SolscanData.error s = None
    \/ exists msg, s = solscan_failure msg /\ str_truthy msg = true.
Proof.
  intros params st s st' H. unfold fetchSolscanData in H.
  destruct (opt_truthy (tokenMintAddress params));
    [|inversion H; right; eexists; split; reflexivity].
  unfold http_fetch, try_catch, bind, lift, perform, throw, ret in H. cbv beta iota in H.
  destruct (fetch _) as [response|e];
    [|inversion H; right; eexists; split; reflexivity]; cbv beta iota in H.
  destruct (negb (Http.ok response));
    [inversion H; right; eexists; split; reflexivity|]; cbv beta iota in H.
  destruct (Http.json response) as [data|e];
    [|inversion H; right; eexists; split; reflexivity]; cbv beta iota in H.
  destruct (get data "marketCapFD") as [marketCapFD|e];
    [|inversion H; right; eexists; split; reflexivity]; cbv beta iota in H.
  destruct (get data "supply") as [supply|e];
    [|inversion H; right; eexists; split; reflexivity]; cbv beta iota in H.
  destruct (get data "holder") as [holder|e];
    [|inversion H; right; eexists; split; reflexivity]; cbv beta iota in H.
  inversion H. left. reflexivity.
Qed.

Lemma execute_only :
  forall params, only fetch_effect (getSolanaTokenMarketDataTool_execute env fetch now_iso params).
Proof.
  intros params. unfold getSolanaTokenMarketDataTool_execute.
  effects; first [apply fetchBirdeyeData_only | apply fetchSolscanData_only].
Qed.

Lemma execute_returns :
  forall params, returns (getSolanaTokenMarketDataTool_execute env fetch now_iso params).
Proof.
  intros params. unfold getSolanaTokenMarketDataTool_execute.
  destruct (_ && _); [apply returns_ret|].
  apply returns_bind; [apply fetchBirdeyeData_returns|]. intros b.
  apply returns_bind; [apply fetchSolscanData_returns|]. intros s.
  destruct (nothing_significant _ _ _); apply returns_ret.
Qed.

End MarketDataFacts.

(** The test of the wholesale failure, in words: both results carry an
    error, no price, no circulating supply. *)
Lemma nothing_significant_iff :
  forall (b : BirdeyeData.t) (s : SolscanData.t),
    nothing_significant b s
      (push_error (push_error [] (BirdeyeData.error b)) (SolscanData.error s)) = true
    <-> opt_truthy (BirdeyeData.error b) = true
        /\ opt_truthy (SolscanData.error s) = true
        /\ truthy (BirdeyeData.price b) = false
        /\ truthy (SolscanData.circulatingSupply s) = false.
Proof.
  intros b s. unfold nothing_significant, push_error.
  destruct (opt_truthy (BirdeyeData.error b)), (opt_truthy (SolscanData.error s)),
    (truthy (BirdeyeData.price b)), (truthy (SolscanData.circulatingSupply s));
    simpl; intuition congruence.
Qed.

(** What the two fetchers return says the same in fewer words: the test
    holds exactly when both results carry an error field. *)
Lemma nothing_significant_of_fetchers :
  forall env fetch params st b st1 s st2,
    fetchBirdeyeData env fetch params st = (Returned b, st1) ->
    fetchSolscanData fetch params st1 = (Returned s, st2) ->
    nothing_significant b s
      (push_error (push_error [] (BirdeyeData.error b)) (SolscanData.error s)) = true
    <-> BirdeyeData.error b <> None /\ SolscanData.error s <> None.
Proof.
  intros env fetch params st b st1 s st2 Eb Es.
  rewrite nothing_significant_iff.
  destruct (fetchBirdeyeData_shape _ _ _ _ _ _ Eb) as [Nb | (mb & -> & Tb)];
    destruct (fetchSolscanData_shape _ _ _ _ _ Es) as [Ns | (ms & -> & Ts)].
  - rewrite Nb, Ns. simpl. intuition congruence.
  - rewrite Nb. simpl. intuition congruence.
  - rewrite Ns. simpl. intuition congruence.
  - simpl. rewrite Tb, Ts. intuition congruence.
Qed.

(** C1.  A call of the market-data tool's [execute] with a token symbol or a
    mint address returns after both fetchers have returned.  It resolves to
    the wholesale error object exactly when the Birdeye result and the
    Solscan result both carry an error and there is neither a Birdeye price
    nor a Solscan circulating supply; the error then lists the collected
    messages.  (A result of a fetcher that carries an error carries no data,
    so this is exactly when both results carry an error.)  In every other
    case it resolves to the aggregate carrying the two identifiers, both
    per-source results, the collected error strings and the time stamp. *)
Theorem execute_fails_wholesale_iff :
  forall env fetch now_iso params st,
    has_identifier params = true ->
    exists birdeyeResult st1 solscanResult st2 out,
      fetchBirdeyeData env fetch params st = (Returned birdeyeResult, st1)
      /\ fetchSolscanData fetch params st1 = (Returned solscanResult, st2)
      /\ getSolanaTokenMarketDataTool_execute env fetch now_iso params st = (Returned out, st2)
      /\ let errors := push_error (push_error [] (BirdeyeData.error birdeyeResult))
                         (SolscanData.error solscanResult) in
         ((exists msg, out = ErrorObject msg)
          <-> opt_truthy (BirdeyeData.error birdeyeResult) = true
              /\ opt_truthy (SolscanData.error solscanResult) = true
              /\ truthy (BirdeyeData.price birdeyeResult) = false
              /\ truthy (SolscanData.circulatingSupply solscanResult) = false)
         /\ ((exists msg, out = ErrorObject msg)
             <-> BirdeyeData.error birdeyeResult <> None
                 /\ SolscanData.error solscanResult <> None)
         /\ ((exists msg, out = ErrorObject msg) ->
             out = ErrorObject ("Failed to fetch significant market data. Errors: "
                                ++ join "; " errors))
         /\ (~ (exists msg, out = ErrorObject msg) ->
             out = Combined
                     {| CombinedMarketData.tokenSymbol := tokenSymbol params;
                        CombinedMarketData.tokenMintAddress := tokenMintAddress params;
                        CombinedMarketData.birdeye := Some birdeyeResult;
                        CombinedMarketData.solscan := Some solscanResult;
                        CombinedMarketData.lastUpdated := Some now_iso;
                        CombinedMarketData.errors := Some errors |}).
Proof.
  intros env fetch now_iso params st Hid.
  destruct (fetchBirdeyeData_returns env fetch params st) as (b & st1 & Eb).
  destruct (fetchSolscanData_returns fetch params st1) as (s & st2 & Es).
  pose proof (nothing_significant_iff b s) as Hiff.
  pose proof (nothing_significant_of_fetchers _ _ _ _ _ _ _ _ Eb Es) as Hboth.
  unfold has_identifier in Hid.
  assert (Hguard : negb (opt_truthy (tokenSymbol params))
                   && negb (opt_truthy (tokenMintAddress params)) = false).
  { destruct (opt_truthy (tokenSymbol params)), (opt_truthy (tokenMintAddress params));
      simpl in *; congruence. }
  destruct (nothing_significant b s
              (push_error (push_error [] (BirdeyeData.error b)) (SolscanData.error s)))
    eqn:Hsig.
  - exists b, st1, s, st2. eexists. split; [exact Eb|]. split; [exact Es|]. split.
    + unfold getSolanaTokenMarketDataTool_execute. rewrite Hguard. unfold bind.
      rewrite Eb, Es, Hsig. reflexivity.
    + cbv zeta. split; [|split; [|split]].
      * split; [intros _; now apply Hiff | intros _; eexists; reflexivity].
      * split; [intros _; now apply Hboth | intros _; eexists; reflexivity].
      * intros _. reflexivity.
      * intros Hn. exfalso. apply Hn. eexists; reflexivity.
  - exists b, st1, s, st2. eexists. split; [exact Eb|]. split; [exact Es|]. split.
    + unfold getSolanaTokenMarketDataTool_execute. rewrite Hguard. unfold bind.
      rewrite Eb, Es, Hsig. reflexivity.
    + cbv zeta. split; [|split; [|split]].
      * split; [intros (msg & Hm); discriminate | intros H; apply Hiff in H; discriminate].
      * split; [intros (msg & Hm); discriminate | intros H; apply Hboth in H; discriminate].
      * intros (msg & Hm). discriminate.
      * intros _. reflexivity.
Qed.

Lemma execute_fails_wholesale_iff_witness :
  has_identifier Stub.symbol_only = true
  /\ exists out st',
       getSolanaTokenMarketDataTool_execute Stub.env_empty Stub.fetch_down Stub.now_iso Stub.symbol_only Stub.st0
       = (Returned out, st').
Proof.
  split; [reflexivity|].
  destruct (execute_fails_wholesale_iff Stub.env_empty Stub.fetch_down Stub.now_iso
              Stub.symbol_only Stub.st0 eq_refl)
    as (b & st1 & s & st2 & out & _ & _ & H & _).
  exists out, st2. exact H.
Defined.

(** C4, the claim as written fails: without a Birdeye API key the Birdeye
    fetcher answers a symbol-only request with the message about the key,
    which does not ask for a mint address. *)
Lemma symbol_only_birdeye_error_is_about_the_key :
  opt_truthy (tokenSymbol Stub.symbol_only) = true
  /\ opt_truthy (tokenMintAddress Stub.symbol_only) = false
  /\ fetchBirdeyeData Stub.env_empty Stub.fetch_down Stub.symbol_only Stub.st0
     = (Returned (birdeye_failure "Birdeye API key not configured."), Stub.st0)
  /\ asks_for_mint_address
       (BirdeyeData.error (birdeye_failure "Birdeye API key not configured.")) = false.
Proof. repeat split. Qed.

(** C4, amended.  For a request with a token symbol and no mint address
    neither fetcher sends anything.  The Solscan fetcher returns the error
    that requires a mint address; the Birdeye fetcher returns the error that
    prefers a mint address when a Birdeye API key is configured, and the
    error about the missing key otherwise.  The aggregate has no price and no
    circulating supply, and the tool's [execute] returns the wholesale error object,
    whose message contains both collected messages. *)
Theorem symbol_only_fails_wholesale :
  forall env fetch now_iso params st,
    opt_truthy (tokenSymbol params) = true ->
    opt_truthy (tokenMintAddress params) = false ->
    let birdeyeError :=
      if opt_truthy (env "BIRDEYE_API_KEY")
      then "Birdeye: Mint address preferred for precise data."
      else "Birdeye API key not configured." in
    let solscanError := "Solscan: Mint address required for precise data." in
    let failure := "Failed to fetch significant market data. Errors: "
                   ++ birdeyeError ++ "; " ++ solscanError in
    fetchBirdeyeData env fetch params st = (Returned (birdeye_failure birdeyeError), st)
    /\ fetchSolscanData fetch params st = (Returned (solscan_failure solscanError), st)
    /\ (opt_truthy (env "BIRDEYE_API_KEY") = true ->
        asks_for_mint_address (Some birdeyeError) = true)
    /\ asks_for_mint_address (Some solscanError) = true
    /\ truthy (BirdeyeData.price (birdeye_failure birdeyeError)) = false
    /\ truthy (SolscanData.circulatingSupply (solscan_failure solscanError)) = false
    /\ getSolanaTokenMarketDataTool_execute env fetch now_iso params st = (Returned (ErrorObject failure), st)
    /\ includes birdeyeError failure = true
    /\ includes solscanError failure = true.
Proof.
  intros env fetch now_iso params st Hsym Hmint. cbv zeta.
  assert (Eb : fetchBirdeyeData env fetch params st
               = (Returned (birdeye_failure
                              (if opt_truthy (env "BIRDEYE_API_KEY")
                               then "Birdeye: Mint address preferred for precise data."
                               else "Birdeye API key not configured.")), st)).
  { unfold fetchBirdeyeData. rewrite Hmint.
    destruct (opt_truthy (env "BIRDEYE_API_KEY")); reflexivity. }
  assert (Es : fetchSolscanData fetch params st
               = (Returned (solscan_failure
                              "Solscan: Mint address required for precise data."), st)).
  { unfold fetchSolscanData. rewrite Hmint. reflexivity. }
  split; [exact Eb|]. split; [exact Es|].
  split; [intros ->; reflexivity|].
  split; [reflexivity|]. split; [reflexivity|]. split; [reflexivity|].
  split.
  - unfold getSolanaTokenMarketDataTool_execute. rewrite Hsym, Hmint.
    change (negb true && negb false) with false.
    unfold bind. rewrite Eb, Es.
    destruct (opt_truthy (env "BIRDEYE_API_KEY")); reflexivity.
  - destruct (opt_truthy (env "BIRDEYE_API_KEY")); split; vm_compute; reflexivity.
Qed.

Lemma symbol_only_fails_wholesale_witness :
  getSolanaTokenMarketDataTool_execute Stub.env_keys Stub.fetch_page Stub.now_iso Stub.symbol_only Stub.st0
  = (Returned (ErrorObject
       ("Failed to fetch significant market data. Errors: "
        ++ "Birdeye: Mint address preferred for precise data."
        ++ "; " ++ "Solscan: Mint address required for precise data.")), Stub.st0).
Proof.
  destruct (symbol_only_fails_wholesale Stub.env_keys Stub.fetch_page Stub.now_iso
              Stub.symbol_only Stub.st0 eq_refl eq_refl)
    as (_ & _ & _ & _ & _ & _ & H & _).
  exact H.
Defined.

(* ===================================================================== *)
(** ** The orchestrator                                                   *)
(* ===================================================================== *)

Lemma logged_logged :
  forall st a b, logged (logged st a) b = logged st (a ++ b)%list.
Proof. intros st a b. unfold logged. simpl. now rewrite app_assoc. Qed.

Lemma perform_logged : forall e st, perform e st = (Returned tt, logged st [e]).
Proof. reflexivity. Qed.

Section OrchestratorFacts.

Variable env : string -> option string.
Variable fetch : Http.Request -> outcome Http.Response.
Variable now_iso : string.
Variable JSON_stringify : jsval -> option string.
Variable generateText : string -> string -> list CoreMessage -> outcome string.
Variable selection_prompt : float -> string.
Variable generateId : string.
Variable parseToolCallXml : string -> option ZodSchema -> ToolCall.
Variable searchSchema : ZodSchema.
Variable executeSearchViaApi : jsval -> jsval -> jsval -> jsval -> jsval -> outcome jsval.

Local Abbreviation dispatch' :=
  (dispatch env fetch now_iso JSON_stringify executeSearchViaApi).
Local Abbreviation run_tool' :=
  (run_tool env fetch now_iso JSON_stringify executeSearchViaApi).
Local Abbreviation progress' := (progress JSON_stringify).
Local Abbreviation executeToolCall' :=
  (executeToolCall env fetch now_iso JSON_stringify generateText selection_prompt
     generateId parseToolCallXml searchSchema executeSearchViaApi).
Local Abbreviation selectToolCall' := (selectToolCall parseToolCallXml searchSchema).

(** Between the two writes only adapters act. *)
Lemma dispatch_only :
  forall model toolCall, only adapter_effect (dispatch' model toolCall).
Proof.
  intros model toolCall. unfold dispatch, call_executeSearchViaApi, call_marketDataExecute.
  effects.
  apply only_weaken with (P := fetch_effect); [|apply execute_only].
  intros [] H; simpl in *; congruence.
Qed.

(** When the branches return, the second write has state [result]. *)
Lemma run_tool_result :
  forall model toolCallId toolCall st r st2,
    dispatch' model toolCall (logged st [EWriteData (progress' StateCall toolCallId toolCall None)])
    = (Returned r, st2) ->
    run_tool' model toolCallId toolCall st
    = (Returned r,
       logged st2 [EWriteMessageAnnotation (progress' StateResult toolCallId toolCall r)]).
Proof.
  intros model toolCallId toolCall st r st2 H.
  unfold run_tool, try_catch, bind. rewrite perform_logged, H, perform_logged. reflexivity.
Qed.

(** When they throw, it has state [error]. *)
Lemma run_tool_error :
  forall model toolCallId toolCall st e st2,
    dispatch' model toolCall (logged st [EWriteData (progress' StateCall toolCallId toolCall None)])
    = (Thrown e, st2) ->
    let r := JSON_stringify (error_object ("Failed to execute tool " ++ tool toolCall ++ ": "
                                           ++ message e)) in
    run_tool' model toolCallId toolCall st
    = (Returned r,
       logged st2 [EWriteMessageAnnotation (progress' StateError toolCallId toolCall r)]).
Proof.
  intros model toolCallId toolCall st e st2 H.
  unfold run_tool, try_catch, bind. rewrite perform_logged, H, perform_logged. reflexivity.
Qed.

(** The shape of every run of the [try] block. *)
Lemma run_tool_shape :
  forall model toolCallId toolCall st,
    exists state r added st',
      run_tool' model toolCallId toolCall st = (Returned r, st')
      /\ conversation st' = conversation st
      /\ log st' = (log st
                    ++ [EWriteData (progress' StateCall toolCallId toolCall None)]
                    ++ added
                    ++ [EWriteMessageAnnotation (progress' state toolCallId toolCall r)])%list
      /\ forallb adapter_effect added = true
      /\ (state = StateResult \/ state = StateError).
Proof.
  intros model toolCallId toolCall st.
  destruct (dispatch' model toolCall
              (logged st [EWriteData (progress' StateCall toolCallId toolCall None)]))
    as [[r|e] st2] eqn:E;
    destruct (dispatch_only model toolCall _ _ _ E) as (C & added & L & F).
  - exists StateResult, r, added. eexists. split; [apply run_tool_result; exact E|].
    simpl. rewrite C, L. simpl. rewrite <- !app_assoc. auto.
  - exists StateError. eexists. exists added. eexists.
    split; [apply run_tool_error; exact E|].
    simpl. rewrite C, L. simpl. rewrite <- !app_assoc. auto.
Qed.

(** A pass with tools switched off does nothing. *)
Lemma executeToolCall_off :
  forall model st, executeToolCall' model false st = (Returned no_tool_pass, st).
Proof. reflexivity. Qed.

(** A pass up to the selection of the tool call. *)
Lemma executeToolCall_selection :
  forall model st text,
    generateText model (selection_prompt (defaultMaxResultsSearch model))
      (last_five (conversation st)) = Returned text ->
    executeToolCall' model true st
    = let st1 := logged st [EGenerateText model (selection_prompt (defaultMaxResultsSearch model))
                              (last_five (conversation st))] in
      match selectToolCall' text with
      | None => (Returned no_tool_pass, st1)
      | Some toolCall =>
          if negb (str_truthy (tool toolCall)) then (Returned no_tool_pass, st1)
          else
            match run_tool' model ("call_" ++ generateId) toolCall st1 with
            | (Returned r, st') =>
                (Returned (synthesize JSON_stringify ("call_" ++ generateId) toolCall r), st')
            | (Thrown e, st') => (Thrown e, st')
            end
      end.
Proof.
  intros model st text H.
  unfold executeToolCall. change (negb true) with false. cbv beta iota.
  unfold call_generateText, read_conversation, bind, lift.
  rewrite perform_logged, H.
  destruct (selectToolCall' text) as [toolCall|]; [|reflexivity].
  destruct (negb (str_truthy (tool toolCall))); reflexivity.
Qed.

(** A pass whose selection step fails throws, having written nothing. *)
Lemma executeToolCall_selection_failure :
  forall model st e,
    generateText model (selection_prompt (defaultMaxResultsSearch model))
      (last_five (conversation st)) = Thrown e ->
    executeToolCall' model true st
    = (Thrown e, logged st [EGenerateText model (selection_prompt (defaultMaxResultsSearch model))
                              (last_five (conversation st))]).
Proof.
  intros model st e H.
  unfold executeToolCall. change (negb true) with false. cbv beta iota.
  unfold call_generateText, read_conversation, bind, lift.
  rewrite perform_logged, H. reflexivity.
Qed.

(** The branches that synthesize a failure without calling an adapter. *)
Lemma dispatch_search_without_query :
  forall model toolCall st,
    tool toolCall = "search" ->
    truthy (get_opt (parameters toolCall) "query") = false ->
    dispatch' model toolCall st
    = (Returned (JSON_stringify (error_object "Search query missing.")), st).
Proof.
  intros model toolCall st Ht Hq. unfold dispatch. rewrite Ht, Hq. reflexivity.
Qed.

Lemma dispatch_market_without_identifier :
  forall model toolCall st,
    tool toolCall = "getSolanaTokenMarketDataTool" ->
    truthy (get_opt (parameters toolCall) "tokenSymbol") = false ->
    truthy (get_opt (parameters toolCall) "tokenMintAddress") = false ->
    dispatch' model toolCall st
    = (Returned (JSON_stringify
                   (error_object "Token symbol or mint address missing for market data.")), st).
Proof.
  intros model toolCall st Ht Hs Hm. unfold dispatch. rewrite Ht, Hs, Hm. reflexivity.
Qed.

(** The market-data tool is called and what it resolves to is serialized. *)
Lemma dispatch_market :
  forall model toolCall st marketData st',
    tool toolCall = "getSolanaTokenMarketDataTool" ->
    negb (truthy (get_opt (parameters toolCall) "tokenSymbol"))
    && negb (truthy (get_opt (parameters toolCall) "tokenMintAddress")) = false ->
    getSolanaTokenMarketDataTool_execute env fetch now_iso (market_params (parameters toolCall))
      (logged st [EMarketDataExecute (parameters toolCall)]) = (Returned marketData, st') ->
    dispatch' model toolCall st
    = (Returned (JSON_stringify (json_of_ExecuteResult marketData)), st').
Proof.
  intros model toolCall st marketData st' Ht Hid Hx.
  unfold dispatch. rewrite Ht, Hid. change ("getSolanaTokenMarketDataTool" =? "search") with false.
  rewrite String.eqb_refl. cbv iota.
  unfold call_marketDataExecute, bind. rewrite perform_logged, Hx. reflexivity.
Qed.

Lemma dispatch_unknown_tool :
  forall model toolCall st,
    tool toolCall <> "search" ->
    tool toolCall <> "getSolanaTokenMarketDataTool" ->
    dispatch' model toolCall st
    = (Returned (JSON_stringify
                   (error_object ("Tool '" ++ tool toolCall
                                  ++ "' is not implemented or recognized."))), st).
Proof.
  intros model toolCall st H1 H2. unfold dispatch.
  apply String.eqb_neq in H1. apply String.eqb_neq in H2. rewrite H1, H2. reflexivity.
Qed.

(** The search branch: one call of the client, with the defaults filled in. *)
Lemma dispatch_search :
  forall model toolCall st,
    tool toolCall = "search" ->
    truthy (get_opt (parameters toolCall) "query") = true ->
    let p := parameters toolCall in
    let q := prop p "query" in
    let m := or_else (prop p "max_results") (VNum (defaultMaxResultsSearch model)) in
    let d := or_else (prop p "search_depth") (VStr "basic") in
    let i := or_else (prop p "include_domains") (VArr []) in
    let x := or_else (prop p "exclude_domains") (VArr []) in
    dispatch' model toolCall st
    = (match executeSearchViaApi q m d i x with
       | Returned v => Returned (JSON_stringify v)
       | Thrown e => Thrown e
       end,
       logged st [EExecuteSearchViaApi q m d i x]).
Proof.
  intros model toolCall st Ht Hq p q m d i x.
  unfold dispatch. rewrite Ht, Hq. change ("search" =? "search") with true.
  change (negb true) with false. cbv iota.
  unfold call_executeSearchViaApi, bind, lift. rewrite perform_logged.
  fold p. fold q. fold m. fold d. fold i. fold x.
  destruct (executeSearchViaApi q m d i x); reflexivity.
Qed.

(** What a run added, as a store. *)
Lemma only_logged :
  forall (A : Type) (P : Effect -> bool) (m : M A) st o st',
    only P m -> m st = (o, st') ->
    exists added, st' = logged st added /\ forallb P added = true.
Proof.
  intros A P m st o st' Ho H. destruct (Ho _ _ _ H) as (C & added & L & F).
  exists added. split; [|exact F].
  destruct st'. unfold logged. simpl in *. now subst.
Qed.

(** Every run of the [try] block, branch by branch: what was dispatched,
    the state of the second event and the result it carries. *)
Lemma run_tool_cases :
  forall model toolCallId toolCall st,
    let p := parameters toolCall in
    let q := prop p "query" in
    let m := or_else (prop p "max_results") (VNum (defaultMaxResultsSearch model)) in
    let d := or_else (prop p "search_depth") (VStr "basic") in
    let i := or_else (prop p "include_domains") (VArr []) in
    let x := or_else (prop p "exclude_domains") (VArr []) in
    let missing := negb (truthy (get_opt p "tokenSymbol"))
                   && negb (truthy (get_opt p "tokenMintAddress")) in
    let call := progress' StateCall toolCallId toolCall None in
    exists state r between,
      run_tool' model toolCallId toolCall st
      = (Returned r,
         logged st ([EWriteData call] ++ between
                    ++ [EWriteMessageAnnotation (progress' state toolCallId toolCall r)]))
      /\ forallb adapter_effect between = true
      /\ ((tool toolCall = "search" /\ truthy (get_opt p "query") = false
           /\ between = [] /\ state = StateResult
           /\ r = JSON_stringify (error_object "Search query missing."))
          \/ (tool toolCall = "search" /\ truthy (get_opt p "query") = true
              /\ between = [EExecuteSearchViaApi q m d i x]
              /\ ((exists searchResults,
                     executeSearchViaApi q m d i x = Returned searchResults
                     /\ state = StateResult /\ r = JSON_stringify searchResults)
                  \/ (exists toolError,
                        executeSearchViaApi q m d i x = Thrown toolError
                        /\ state = StateError
                        /\ r = JSON_stringify
                                 (error_object ("Failed to execute tool search: "
                                                ++ message toolError)))))
          \/ (tool toolCall = "getSolanaTokenMarketDataTool" /\ missing = true
              /\ between = [] /\ state = StateResult
              /\ r = JSON_stringify
                       (error_object "Token symbol or mint address missing for market data."))
          \/ (tool toolCall = "getSolanaTokenMarketDataTool" /\ missing = false
              /\ state = StateResult
              /\ exists marketData requests,
                   getSolanaTokenMarketDataTool_execute env fetch now_iso (market_params p)
                     (logged st [EWriteData call; EMarketDataExecute p])
                   = (Returned marketData,
                      logged st ([EWriteData call; EMarketDataExecute p] ++ requests))
                   /\ forallb fetch_effect requests = true
                   /\ between = EMarketDataExecute p :: requests
                   /\ r = JSON_stringify (json_of_ExecuteResult marketData))
          \/ (tool toolCall <> "search" /\ tool toolCall <> "getSolanaTokenMarketDataTool"
              /\ between = [] /\ state = StateResult
              /\ r = JSON_stringify
                       (error_object ("Tool '" ++ tool toolCall
                                      ++ "' is not implemented or recognized.")))).
Proof.
  intros model toolCallId toolCall st p q m d i x missing call.
  destruct (String.eqb_spec (tool toolCall) "search") as [Ht|Hs].
  { destruct (truthy (get_opt p "query")) eqn:Hq.
    - pose proof (dispatch_search model toolCall (logged st [EWriteData call]) Ht Hq) as D.
      cbv zeta in D. fold p in D. fold q in D. fold m in D. fold d in D. fold i in D.
      fold x in D.
      destruct (executeSearchViaApi q m d i x) as [v|e] eqn:E.
      + exists StateResult, (JSON_stringify v), [EExecuteSearchViaApi q m d i x].
        split; [|split; [reflexivity|]].
        * rewrite (run_tool_result _ _ _ _ _ _ D). rewrite !logged_logged. reflexivity.
        * right; left. repeat (split; [first [assumption|reflexivity]|]).
          left. exists v. auto.
      + exists StateError. eexists. exists [EExecuteSearchViaApi q m d i x].
        split; [|split; [reflexivity|]].
        * rewrite (run_tool_error _ _ _ _ _ _ D). cbv zeta. rewrite !logged_logged.
          reflexivity.
        * right; left. repeat (split; [first [assumption|reflexivity]|]).
          right. exists e. rewrite Ht. auto.
    - exists StateResult. eexists. exists []. split; [|split; [reflexivity|]].
      + erewrite run_tool_result by (apply dispatch_search_without_query; assumption).
        rewrite !logged_logged. reflexivity.
      + left. auto. }
  destruct (String.eqb_spec (tool toolCall) "getSolanaTokenMarketDataTool") as [Ht|Hm].
  { destruct missing eqn:Hmiss.
    - exists StateResult. eexists. exists []. split; [|split; [reflexivity|]].
      + subst missing. apply andb_true_iff in Hmiss. destruct Hmiss as [M1 M2].
        apply negb_true_iff in M1. apply negb_true_iff in M2.
        erewrite run_tool_result by (apply dispatch_market_without_identifier; assumption).
        rewrite !logged_logged. reflexivity.
      + right; right; left. auto.
    - destruct (execute_returns env fetch now_iso (market_params p)
                  (logged st [EWriteData call; EMarketDataExecute p]))
        as (marketData & st2 & Hx).
      destruct (only_logged _ _ _ _ _ _ (execute_only env fetch now_iso _) Hx)
        as (requests & -> & F).
      rewrite logged_logged in Hx.
      exists StateResult, (JSON_stringify (json_of_ExecuteResult marketData)),
             (EMarketDataExecute p :: requests).
      split; [|split].
      + erewrite run_tool_result.
        2:{ apply (dispatch_market model toolCall _ marketData
                     (logged st ([EWriteData call; EMarketDataExecute p] ++ requests)) Ht Hmiss).
            rewrite logged_logged. exact Hx. }
        rewrite !logged_logged. simpl. reflexivity.
      + simpl. rewrite forallb_forall in *. intros e He. apply F in He.
        destruct e; simpl in *; congruence.
      + right; right; right; left. repeat (split; [first [assumption|reflexivity]|]).
        exists marketData, requests. auto. }
  exists StateResult. eexists. exists []. split; [|split; [reflexivity|]].
  - erewrite run_tool_result by (apply dispatch_unknown_tool; assumption).
    rewrite !logged_logged. reflexivity.
  - right; right; right; right. auto.
Qed.

(** The whole pass is transparent for the conversation. *)
Lemma executeToolCall_only :
  forall model searchMode,
    only (fun _ => true) (executeToolCall' model searchMode).
Proof.
  intros model searchMode.
  unfold executeToolCall, call_generateText, run_tool.
  effects.
  apply only_weaken with (P := adapter_effect); [reflexivity|apply dispatch_only].
Qed.

End OrchestratorFacts.

Lemma progress_events_app :
  forall a b, progress_events (a ++ b) = (progress_events a ++ progress_events b)%list.
Proof.
  induction a as [|e a IH]; intros b; [reflexivity|].
  destruct e; simpl; now rewrite IH.
Qed.

(** Adapters do not write on the data stream. *)
Lemma adapters_write_no_progress :
  forall l, forallb adapter_effect l = true -> progress_events l = [].
Proof.
  induction l as [|e l IH]; [reflexivity|].
  simpl. intros H. apply andb_true_iff in H. destruct H as [He Hl].
  destruct e; simpl in *; try discriminate; auto.
Qed.

(** A field that is falsy in the parameters is falsy at the type of the
    market-data parameters. *)
Lemma string_field_falsy :
  forall p k, truthy (get_opt p k) = false -> opt_truthy (string_field (prop p k)) = false.
Proof.
  intros p k. unfold get_opt.
  destruct (nullish p) eqn:N.
  - destruct p; try discriminate; reflexivity.
  - destruct (prop p k); simpl; auto.
Qed.

Lemma execute_without_identifier :
  forall env fetch now_iso params st,
    has_identifier params = false ->
    getSolanaTokenMarketDataTool_execute env fetch now_iso params st
    = (Returned (ErrorObject "Tool execution error: Token symbol or mint address is required."),
       st).
Proof.
  intros env fetch now_iso params st H. unfold has_identifier in H.
  apply orb_false_iff in H. destruct H as [Hs Hm].
  unfold getSolanaTokenMarketDataTool_execute. rewrite Hs, Hm. reflexivity.
Qed.

(* ===================================================================== *)
(** ** The claims about the orchestrator                                  *)
(* ===================================================================== *)

Section OrchestratorClaims.

Variable env : string -> option string.
Variable fetch : Http.Request -> outcome Http.Response.
Variable now_iso : string.
Variable JSON_stringify : jsval -> option string.
Variable generateText : string -> string -> list CoreMessage -> outcome string.
Variable selection_prompt : float -> string.
Variable generateId : string.
Variable parseToolCallXml : string -> option ZodSchema -> ToolCall.
Variable searchSchema : ZodSchema.
Variable executeSearchViaApi : jsval -> jsval -> jsval -> jsval -> jsval -> outcome jsval.

Local Abbreviation executeToolCall' :=
  (executeToolCall env fetch now_iso JSON_stringify generateText selection_prompt
     generateId parseToolCallXml searchSchema executeSearchViaApi).
Local Abbreviation selectToolCall' := (selectToolCall parseToolCallXml searchSchema).
Local Abbreviation progress' := (progress JSON_stringify).
Local Abbreviation synthesize' := (synthesize JSON_stringify).
Local Abbreviation toolCallId' := ("call_" ++ generateId).
Local Abbreviation selection' model st :=
  (EGenerateText model (selection_prompt (defaultMaxResultsSearch model))
     (last_five (conversation st))).
Local Abbreviation selected' model st :=
  (generateText model (selection_prompt (defaultMaxResultsSearch model))
     (last_five (conversation st))).

(** C3.  When the parsed invocation lacks a required parameter (the search
    tool without a query, the market-data tool with neither a token symbol
    nor a mint address) the pass returns the two turns of a failure result
    and its whole effect is the model call and the two progress events: the
    search client is not called, the market-data tool is not called, no
    request is sent.  The market-data tool has the same guard of its own: on
    such parameters it returns an error object without fetching. *)
Theorem missing_parameter_reaches_no_adapter :
  forall model st text toolCall,
    selected' model st = Returned text ->
    selectToolCall' text = Some toolCall ->
    (tool toolCall = "search"
     /\ truthy (get_opt (parameters toolCall) "query") = false)
    \/ (tool toolCall = "getSolanaTokenMarketDataTool"
        /\ truthy (get_opt (parameters toolCall) "tokenSymbol") = false
        /\ truthy (get_opt (parameters toolCall) "tokenMintAddress") = false) ->
    exists failure,
      let r := JSON_stringify (error_object failure) in
      let added := [ selection' model st;
                     EWriteData (progress' StateCall toolCallId' toolCall None);
                     EWriteMessageAnnotation (progress' StateResult toolCallId' toolCall r) ] in
      executeToolCall' model true st
      = (Returned (synthesize' toolCallId' toolCall r), logged st added)
      /\ existsb adapter_effect added = false
      /\ (tool toolCall = "search" -> failure = "Search query missing.")
      /\ (tool toolCall = "getSolanaTokenMarketDataTool" ->
          failure = "Token symbol or mint address missing for market data."
          /\ forall st0,
               getSolanaTokenMarketDataTool_execute env fetch now_iso (market_params (parameters toolCall)) st0
               = (Returned (ErrorObject
                    "Tool execution error: Token symbol or mint address is required."), st0)).
Proof.
  intros model st text toolCall Hgen Hsel [[Ht Hq] | (Ht & Hs & Hm)].
  - exists "Search query missing.". cbv zeta.
    split; [|split; [reflexivity|split; [reflexivity|]]].
    + rewrite (executeToolCall_selection _ _ _ _ _ _ _ _ _ _ _ _ _ Hgen). cbv zeta.
      rewrite Hsel, Ht. change (negb (str_truthy "search")) with false. cbv iota.
      erewrite run_tool_result
        by (apply dispatch_search_without_query; assumption).
      rewrite !logged_logged. reflexivity.
    + rewrite Ht. discriminate.
  - exists "Token symbol or mint address missing for market data.". cbv zeta.
    split; [|split; [reflexivity|split]].
    + rewrite (executeToolCall_selection _ _ _ _ _ _ _ _ _ _ _ _ _ Hgen). cbv zeta.
      rewrite Hsel, Ht.
      change (negb (str_truthy "getSolanaTokenMarketDataTool")) with false. cbv iota.
      erewrite run_tool_result
        by (apply dispatch_market_without_identifier; assumption).
      rewrite !logged_logged. reflexivity.
    + rewrite Ht. discriminate.
    + intros _. split; [reflexivity|]. intros st0.
      apply execute_without_identifier. unfold has_identifier, market_params. simpl.
      now rewrite !string_field_falsy.
Qed.

(** C2, amended.  When a pass ends in a synthesized failure (the search tool
    without a query, the market-data tool with neither identifier, or the
    market-data tool resolving to its wholesale error) the progress events of
    the pass are the 'call' event followed by one event of state 'result',
    which carries the serialized error object.  No event of state 'error' is
    written: that state is kept for a dispatch that throws. *)
Theorem synthesized_failure_is_reported_as_result :
  forall model st text toolCall failure,
    selected' model st = Returned text ->
    selectToolCall' text = Some toolCall ->
    (tool toolCall = "search"
     /\ truthy (get_opt (parameters toolCall) "query") = false
     /\ failure = "Search query missing.")
    \/ (tool toolCall = "getSolanaTokenMarketDataTool"
        /\ truthy (get_opt (parameters toolCall) "tokenSymbol") = false
        /\ truthy (get_opt (parameters toolCall) "tokenMintAddress") = false
        /\ failure = "Token symbol or mint address missing for market data.")
    \/ (tool toolCall = "getSolanaTokenMarketDataTool"
        /\ negb (truthy (get_opt (parameters toolCall) "tokenSymbol"))
           && negb (truthy (get_opt (parameters toolCall) "tokenMintAddress")) = false
        /\ exists st2,
             getSolanaTokenMarketDataTool_execute env fetch now_iso (market_params (parameters toolCall))
               (logged st [ selection' model st;
                            EWriteData (progress' StateCall toolCallId' toolCall None);
                            EMarketDataExecute (parameters toolCall) ])
             = (Returned (ErrorObject failure), st2)) ->
    exists added st',
      let r := JSON_stringify (error_object failure) in
      executeToolCall' model true st = (Returned (synthesize' toolCallId' toolCall r), st')
      /\ log st' = (log st ++ added)%list
      /\ progress_events added
         = [ progress' StateCall toolCallId' toolCall None;
             progress' StateResult toolCallId' toolCall r ]
      /\ ~ In StateError (map ev_state (progress_events added)).
Proof.
  intros model st text toolCall failure Hgen Hsel Hcase.
  assert (Hname : negb (str_truthy (tool toolCall)) = false).
  { destruct Hcase as [(Ht & _) | [(Ht & _) | (Ht & _)]]; rewrite Ht; reflexivity. }
  assert (Hd : exists added st2,
             dispatch env fetch now_iso JSON_stringify executeSearchViaApi model toolCall
               (logged st [ selection' model st;
                            EWriteData (progress' StateCall toolCallId' toolCall None) ])
             = (Returned (JSON_stringify (error_object failure)), st2)
             /\ log st2 = (log st ++ [ selection' model st;
                                      EWriteData (progress' StateCall toolCallId' toolCall None) ]
                           ++ added)%list
             /\ forallb adapter_effect added = true).
  { destruct Hcase as [(Ht & Hq & ->) | [(Ht & Hs & Hm & ->) | (Ht & Hid & st2 & Hx)]].
    - exists []. eexists. split; [apply dispatch_search_without_query; assumption|].
      simpl. auto.
    - exists []. eexists. split; [apply dispatch_market_without_identifier; assumption|].
      simpl. auto.
    - destruct (execute_only env fetch now_iso _ _ _ _ Hx) as (_ & l & L & F).
      exists (EMarketDataExecute (parameters toolCall) :: l), st2. split.
      + apply (dispatch_market env fetch now_iso JSON_stringify executeSearchViaApi
                 model toolCall _ (ErrorObject failure) st2 Ht Hid).
        rewrite logged_logged. exact Hx.
      + split.
        * rewrite L. simpl. rewrite <- !app_assoc. reflexivity.
        * simpl. rewrite forallb_forall in *. intros e He. apply F in He.
          destruct e; simpl in *; congruence. }
  destruct Hd as (added & st2 & Hd & L & F).
  eexists. eexists. cbv zeta. split; [|split; [|split]].
  - rewrite (executeToolCall_selection _ _ _ _ _ _ _ _ _ _ _ _ _ Hgen). cbv zeta.
    rewrite Hsel, Hname.
    erewrite run_tool_result by (rewrite logged_logged; exact Hd).
    reflexivity.
  - simpl. rewrite L. rewrite <- !app_assoc. reflexivity.
  - simpl. rewrite progress_events_app, (adapters_write_no_progress _ F). reflexivity.
  - simpl. rewrite progress_events_app, (adapters_write_no_progress _ F). simpl.
    intros [H | [H | []]]; discriminate.
Qed.

(** C5, amended.  A pass never changes the conversation it was given: the
    array is the same after the call as before, whatever the pass does.
    When a tool call was selected (dispatched or failed at validation) the
    pass returns normally with exactly two turns.  The first is an assistant
    turn that carries the serialized tool result: what the search client or
    the market-data tool returned, serialized, or the serialized error
    object of a failed validation, of an unknown tool or of a search client
    that threw; it is the result reported on the data stream and in the
    annotation.  The second is a user turn that carries the instruction to
    answer from it: a text that is fixed except for the name of the selected
    tool, which it quotes. *)
Theorem pass_returns_two_turns_and_keeps_conversation :
  forall model searchMode st out st',
    executeToolCall' model searchMode st = (out, st') ->
    conversation st' = conversation st
    /\ forall text toolCall,
         searchMode = true ->
         selected' model st = Returned text ->
         selectToolCall' text = Some toolCall ->
         str_truthy (tool toolCall) = true ->
         let p := parameters toolCall in
         let q := prop p "query" in
         let m := or_else (prop p "max_results")
                    (VNum (if includes "ollama" model then 5%float else 7%float)) in
         let d := or_else (prop p "search_depth") (VStr "basic") in
         let i := or_else (prop p "include_domains") (VArr []) in
         let x := or_else (prop p "exclude_domains") (VArr []) in
         let missing := negb (truthy (get_opt p "tokenSymbol"))
                        && negb (truthy (get_opt p "tokenMintAddress")) in
         let call := {| ev_state := StateCall;
                        ev_toolCallId := toolCallId';
                        ev_toolName := tool toolCall;
                        ev_args := JSON_stringify p;
                        ev_result := None |} in
         exists toolResultJson state res,
           out = Returned res
           /\ toolCallMessages res
              = [ {| role := RAssistant;
                     content := VStr ("[Tool Used: " ++ tool toolCall ++ "]" ++ nl
                                      ++ "Output:" ++ nl ++ show_opt toolResultJson) |};
                  {| role := RUser;
                     content :=
                       VStr ("The user's original query led to the use of the '"
                             ++ tool toolCall
                             ++ "' tool, and the output is provided above." ++ nl
                             ++ "Please analyze this output in the context of our conversation." ++ nl
                             ++ "- If the tool was 'search', synthesize the search results to answer the user's question about the Solana ecosystem. Cite sources using [number](url) format." ++ nl
                             ++ "- If the tool was 'getSolanaTokenMarketDataTool', present the key market data (price, volume, market cap, supply, holders) clearly. Mention the sources (Birdeye, Solscan) and the 'lastUpdated' time from the tool's output." ++ nl
                             ++ "- If there were errors from the tool, acknowledge them." ++ nl
                             ++ "Now, provide a comprehensive response to the user based on this information.") |} ]
           /\ List.length (toolCallMessages res) = 2%nat
           /\ toolCallDataAnnotation res
              = Some {| ext_role := RData;
                        ext_type := "tool_call";
                        ext_data := {| toolCallId := toolCallId';
                                       toolName := tool toolCall;
                                       args := JSON_stringify p;
                                       result := toolResultJson |} |}
           /\ last (log st') (selection' model st)
              = EWriteMessageAnnotation {| ev_state := state;
                                           ev_toolCallId := toolCallId';
                                           ev_toolName := tool toolCall;
                                           ev_args := JSON_stringify p;
                                           ev_result := toolResultJson |}
           /\ ((tool toolCall = "search" /\ truthy (get_opt p "query") = false
                /\ state = StateResult
                /\ toolResultJson = JSON_stringify (VObj [("error", VStr "Search query missing.")]))
               \/ (tool toolCall = "search" /\ truthy (get_opt p "query") = true
                   /\ ((exists searchResults,
                          executeSearchViaApi q m d i x = Returned searchResults
                          /\ state = StateResult
                          /\ toolResultJson = JSON_stringify searchResults)
                       \/ (exists toolError,
                             executeSearchViaApi q m d i x = Thrown toolError
                             /\ state = StateError
                             /\ toolResultJson
                                = JSON_stringify
                                    (VObj [("error", VStr ("Failed to execute tool search: "
                                                           ++ message toolError))]))))
               \/ (tool toolCall = "getSolanaTokenMarketDataTool" /\ missing = true
                   /\ state = StateResult
                   /\ toolResultJson
                      = JSON_stringify
                          (VObj [("error",
                                  VStr "Token symbol or mint address missing for market data.")]))
               \/ (tool toolCall = "getSolanaTokenMarketDataTool" /\ missing = false
                   /\ state = StateResult
                   /\ exists marketData st2,
                        getSolanaTokenMarketDataTool_execute env fetch now_iso (market_params p)
                          (logged st [ selection' model st; EWriteData call;
                                       EMarketDataExecute p ])
                        = (Returned marketData, st2)
                        /\ toolResultJson = JSON_stringify (json_of_ExecuteResult marketData))
               \/ (tool toolCall <> "search"
                   /\ tool toolCall <> "getSolanaTokenMarketDataTool"
                   /\ state = StateResult
                   /\ toolResultJson
                      = JSON_stringify
                          (VObj [("error", VStr ("Tool '" ++ tool toolCall
                                                 ++ "' is not implemented or recognized."))]))).
Proof.
  intros model searchMode st out st' Hrun. split.
  - exact (proj1 (executeToolCall_only env fetch now_iso JSON_stringify generateText
                    selection_prompt generateId parseToolCallXml searchSchema
                    executeSearchViaApi model searchMode _ _ _ Hrun)).
  - intros text toolCall -> Hgen Hsel Hname p q m d i x missing call.
    rewrite (executeToolCall_selection _ _ _ _ _ _ _ _ _ _ _ _ _ Hgen) in Hrun.
    cbv zeta in Hrun. rewrite Hsel, Hname in Hrun.
    change (negb true) with false in Hrun. cbv iota in Hrun.
    destruct (run_tool_cases env fetch now_iso JSON_stringify executeSearchViaApi
                model toolCallId' toolCall (logged st [selection' model st]))
      as (state & r & between & Hr & _ & Hcases).
    rewrite Hr in Hrun. inversion Hrun; subst out st'. clear Hrun Hr.
    exists r, state. eexists. split; [reflexivity|].
    split; [reflexivity|]. split; [reflexivity|]. split; [reflexivity|]. split.
    + unfold logged at 1. cbn [log].
      match goal with
      | |- last (?l ++ ?a :: ?b ++ [?c])%list _ = _ =>
          change (l ++ a :: b ++ [c])%list with (l ++ (a :: b) ++ [c])%list;
          rewrite app_assoc; apply last_last
      end.
    + rewrite !logged_logged in Hcases.
      destruct Hcases as [(Ht & Hq & _ & Hs & Hres)
                         | [(Ht & Hq & _ & Hres)
                           | [(Ht & Hmiss & _ & Hs & Hres)
                             | [(Ht & Hmiss & Hs & marketData & requests & Hx & _ & _ & Hres)
                               | (Ht1 & Ht2 & _ & Hs & Hres)]]]].
      * left. auto.
      * right; left. split; [exact Ht|]. split; [exact Hq|]. exact Hres.
      * right; right; left. auto.
      * right; right; right; left. split; [exact Ht|]. split; [exact Hmiss|].
        split; [exact Hs|]. exists marketData. eexists. split; [exact Hx|exact Hres].
      * right; right; right; right. auto.
Qed.

(** C7.  The progress events of a pass are none exactly when tools are off,
    the selection step fails, or no tool is selected.  In every other pass
    they are exactly two, for one tool call identifier: first the event of
    state 'call', written after the model call and before anything is
    dispatched, and last one event of state 'result' or 'error', 'error'
    exactly when the search client threw; whatever lies between the two is
    the work of the adapters. *)
Theorem progress_is_call_then_outcome :
  forall model searchMode st out st',
    executeToolCall' model searchMode st = (out, st') ->
    exists added,
      log st' = (log st ++ added)%list
      /\ ((progress_events added = [] /\ existsb adapter_effect added = false
           /\ (searchMode = false
               \/ (exists e, selected' model st = Thrown e)
               \/ (exists text,
                     selected' model st = Returned text
                     /\ forall toolCall,
                          selectToolCall' text = Some toolCall ->
                          str_truthy (tool toolCall) = false)))
          \/ exists text toolCall state r between,
               let p := parameters toolCall in
               let call := {| ev_state := StateCall;
                              ev_toolCallId := toolCallId';
                              ev_toolName := tool toolCall;
                              ev_args := JSON_stringify p;
                              ev_result := None |} in
               let outcome := {| ev_state := state;
                                 ev_toolCallId := toolCallId';
                                 ev_toolName := tool toolCall;
                                 ev_args := JSON_stringify p;
                                 ev_result := r |} in
               searchMode = true
               /\ selected' model st = Returned text
               /\ selectToolCall' text = Some toolCall
               /\ str_truthy (tool toolCall) = true
               /\ added = ([selection' model st] ++ [EWriteData call] ++ between
                           ++ [EWriteMessageAnnotation outcome])%list
               /\ forallb adapter_effect between = true
               /\ (state = StateResult \/ state = StateError)
               /\ (state = StateError
                   <-> (tool toolCall = "search"
                        /\ truthy (get_opt p "query") = true
                        /\ exists toolError,
                             executeSearchViaApi
                               (prop p "query")
                               (or_else (prop p "max_results")
                                  (VNum (if includes "ollama" model
                                         then 5%float else 7%float)))
                               (or_else (prop p "search_depth") (VStr "basic"))
                               (or_else (prop p "include_domains") (VArr []))
                               (or_else (prop p "exclude_domains") (VArr []))
                             = Thrown toolError))
               /\ progress_events added = [call; outcome]
               /\ map ev_state (progress_events added) = [StateCall; state]
               /\ ev_toolCallId call = ev_toolCallId outcome).
Proof.
  intros model searchMode st out st' Hrun.
  destruct searchMode.
  2:{ rewrite executeToolCall_off in Hrun. inversion Hrun; subst.
      exists []. rewrite app_nil_r. split; [reflexivity|]. left.
      split; [reflexivity|]. split; [reflexivity|]. now left. }
  destruct (selected' model st) as [text|e] eqn:Hgen.
  2:{ rewrite (executeToolCall_selection_failure _ _ _ _ _ _ _ _ _ _ _ _ _ Hgen) in Hrun.
      inversion Hrun; subst. eexists. split; [reflexivity|]. left.
      split; [reflexivity|]. split; [reflexivity|]. right; left. now exists e. }
  rewrite (executeToolCall_selection _ _ _ _ _ _ _ _ _ _ _ _ _ Hgen) in Hrun.
  cbv zeta in Hrun.
  destruct (selectToolCall' text) as [toolCall|] eqn:Hsel.
  2:{ inversion Hrun; subst. eexists. split; [reflexivity|]. left.
      split; [reflexivity|]. split; [reflexivity|]. right; right.
      exists text. split; [reflexivity|]. intros toolCall H. congruence. }
  destruct (str_truthy (tool toolCall)) eqn:Hname.
  2:{ change (negb false) with true in Hrun. cbv iota in Hrun.
      inversion Hrun; subst. eexists. split; [reflexivity|]. left.
      split; [reflexivity|]. split; [reflexivity|]. right; right.
      exists text. split; [reflexivity|]. intros toolCall' H.
      assert (toolCall' = toolCall) by congruence. subst toolCall'. exact Hname. }
  change (negb true) with false in Hrun. cbv iota in Hrun.
  destruct (run_tool_cases env fetch now_iso JSON_stringify executeSearchViaApi
              model toolCallId' toolCall (logged st [selection' model st]))
    as (state & r & between & Hr & F & Hcases).
  rewrite Hr in Hrun. inversion Hrun; subst out st'. clear Hrun Hr.
  eexists. split.
  - simpl log. rewrite <- !app_assoc. simpl. reflexivity.
  - right. exists text, toolCall, state, r, between. cbv zeta.
    assert (Hev : progress_events
                    ([selection' model st]
                     ++ [EWriteData (progress' StateCall toolCallId' toolCall None)]
                     ++ between
                     ++ [EWriteMessageAnnotation (progress' state toolCallId' toolCall r)])
                  = [ progress' StateCall toolCallId' toolCall None;
                      progress' state toolCallId' toolCall r ]).
    { simpl. rewrite progress_events_app, (adapters_write_no_progress _ F). reflexivity. }
    split; [reflexivity|]. split; [first [reflexivity|assumption]|].
    split; [exact Hsel|]. split; [exact Hname|]. split; [reflexivity|]. split; [exact F|].
    split; [|split; [|split; [exact Hev|split; [exact (f_equal (map ev_state) Hev)|reflexivity]]]].
    + destruct Hcases as [(_ & _ & _ & Hs & _)
                         | [(_ & _ & _ & [(v & _ & Hs & _) | (e & _ & Hs & _)])
                           | [(_ & _ & _ & Hs & _)
                             | [(_ & _ & Hs & _)
                               | (_ & _ & _ & Hs & _)]]]]; auto.
    + split.
      * intros Hs.
        destruct Hcases as [(_ & _ & _ & Hs' & _)
                           | [(Ht & Hq & _ & [(v & _ & Hs' & _) | (e & He & _ & _)])
                             | [(_ & _ & _ & Hs' & _)
                               | [(_ & _ & Hs' & _)
                                 | (_ & _ & _ & Hs' & _)]]]];
          try congruence.
        split; [exact Ht|]. split; [exact Hq|]. exists e. exact He.
      * intros (Ht & Hq & e & He).
        destruct Hcases as [(_ & Hq' & _)
                           | [(_ & _ & _ & [(v & Hv & _) | (e' & _ & Hs' & _)])
                             | [(Ht' & _)
                               | [(Ht' & _)
                                 | (Ht' & _)]]]];
          try congruence.
        unfold defaultMaxResultsSearch in Hv. congruence.
Qed.


End OrchestratorClaims.

(* ===================================================================== *)
(** ** The call parser and the no-tool pass                               *)
(* ===================================================================== *)

Module CallParserFacts.

Import CallParser.

Lemma prefix_drop :
  forall pat s, prefix pat s = true -> s = pat ++ drop (String.length pat) s.
Proof.
  induction pat as [|a pat IH]; intros s H; [reflexivity|].
  destruct s as [|b s]; [discriminate|].
  simpl in H. destruct (ascii_dec a b) as [->|]; [|discriminate].
  simpl. f_equal. now apply IH.
Qed.

Lemma split_at_sound :
  forall pat s before after,
    split_at pat s = Some (before, after) -> s = before ++ pat ++ after.
Proof.
  intros pat s. induction s as [|c s IH]; intros before after H.
  - unfold split_at in H. destruct (prefix pat "") eqn:P; [|discriminate].
    inversion H; subst. simpl. now apply prefix_drop.
  - unfold split_at in H; fold split_at in H.
    destruct (prefix pat (String c s)) eqn:P.
    + inversion H; subst. simpl. now apply prefix_drop.
    + destruct (split_at pat s) as [[b a]|]; [|discriminate].
      inversion H; subst. simpl. f_equal. now apply IH.
Qed.

Lemma append_assoc :
  forall a b c : string, (a ++ b) ++ c = a ++ b ++ c.
Proof.
  induction a as [|x a IH]; intros b c; [reflexivity|]. simpl. now rewrite IH.
Qed.

Lemma between_sound :
  forall opening closing s inner rest,
    between opening closing s = Some (inner, rest) ->
    exists pre, s = pre ++ opening ++ inner ++ closing ++ rest.
Proof.
  intros opening closing s inner rest H. unfold between in H.
  destruct (split_at opening s) as [[pre r]|] eqn:E1; [|discriminate].
  apply split_at_sound in E1. apply split_at_sound in H.
  exists pre. now rewrite E1, H.
Qed.

(** The tool name does not depend on the schema. *)
Lemma tool_name_first :
  forall xml schema,
    tool (parseToolCallXml xml schema) = tool (parseToolCallXml xml None).
Proof.
  intros xml schema. unfold parseToolCallXml.
  destruct (between "<tool_call>" "</tool_call>" xml) as [[block rest]|]; [|reflexivity].
  destruct (between "<tool>" "</tool>" block) as [[name rest']|]; [|reflexivity].
  destruct (name =? ""); reflexivity.
Qed.

(** Whatever the text, the parser gives either the no-tool invocation or
    a tool that a call block of the text names. *)
Lemma parse_cases :
  forall xml schema,
    parseToolCallXml xml schema = no_tool
    \/ (tool (parseToolCallXml xml schema) <> ""
        /\ names_tool xml (tool (parseToolCallXml xml schema))).
Proof.
  intros xml schema. unfold parseToolCallXml.
  destruct (between "<tool_call>" "</tool_call>" xml) as [[block rest]|] eqn:E1; [|now left].
  destruct (between "<tool>" "</tool>" block) as [[name rest']|] eqn:E2; [|now left].
  destruct (name =? "") eqn:N; [now left|].
  right. simpl. split; [now apply String.eqb_neq|].
  apply between_sound in E1. destruct E1 as (pre & E1).
  apply between_sound in E2. destruct E2 as (p & E2).
  exists pre, block, rest, p, rest'. split; assumption.
Qed.

End CallParserFacts.

(** An invocation without a tool name ends the pass, whatever the parser. *)
Lemma no_tool_ends_the_pass :
  forall env fetch now_iso JSON_stringify generateText selection_prompt generateId
         parseToolCallXml searchSchema executeSearchViaApi model st text,
    generateText model (selection_prompt (defaultMaxResultsSearch model))
      (last_five (conversation st)) = Returned text ->
    tool (parseToolCallXml text None) = "" ->
    executeToolCall env fetch now_iso JSON_stringify generateText selection_prompt
      generateId parseToolCallXml searchSchema executeSearchViaApi model true st
    = (Returned no_tool_pass,
       logged st [EGenerateText model (selection_prompt (defaultMaxResultsSearch model))
                    (last_five (conversation st))]).
Proof.
  intros env fetch now_iso JSON_stringify generateText selection_prompt generateId
    parseToolCallXml searchSchema executeSearchViaApi model st text Hgen Hname.
  rewrite (executeToolCall_selection _ _ _ _ _ _ _ _ _ _ _ _ _ Hgen). cbv zeta.
  unfold selectToolCall. rewrite Hname. reflexivity.
Qed.

(** C6.  The call parser is a total function of the text: it throws on no
    input.  Every text without a call block that names a tool, and every
    text whose tool name is empty, gives one and the same no-tool invocation;
    the name it finds does not depend on the schema.  When the model's text
    parses to the no-tool invocation the pass ends after the model call: no
    data annotation, no synthesized turn, nothing written on the data
    stream. *)
Theorem no_tool_is_normalized_and_ends_the_pass :
  forall xml schema,
    let invocation := CallParser.parseToolCallXml xml schema in
    (invocation = CallParser.no_tool
     \/ (tool invocation <> "" /\ CallParser.names_tool xml (tool invocation)))
    /\ tool invocation = tool (CallParser.parseToolCallXml xml None)
    /\ forall env fetch now_iso JSON_stringify generateText selection_prompt generateId
              searchSchema executeSearchViaApi model st,
         generateText model (selection_prompt (defaultMaxResultsSearch model))
           (last_five (conversation st)) = Returned xml ->
         invocation = CallParser.no_tool ->
         let st' := logged st [EGenerateText model
                                 (selection_prompt (defaultMaxResultsSearch model))
                                 (last_five (conversation st))] in
         executeToolCall env fetch now_iso JSON_stringify generateText selection_prompt
           generateId CallParser.parseToolCallXml searchSchema executeSearchViaApi
           model true st
         = (Returned {| toolCallDataAnnotation := None; toolCallMessages := [] |}, st')
         /\ progress_events (log st') = progress_events (log st).
Proof.
  intros xml schema invocation.
  split; [apply CallParserFacts.parse_cases|].
  split; [apply CallParserFacts.tool_name_first|].
  intros env fetch now_iso JSON_stringify generateText selection_prompt generateId
    searchSchema executeSearchViaApi model st Hgen Hno. cbv zeta. split.
  - apply no_tool_ends_the_pass with (text := xml); [exact Hgen|].
    rewrite <- (CallParserFacts.tool_name_first xml schema).
    fold invocation. now rewrite Hno.
  - simpl. rewrite progress_events_app. simpl. now rewrite app_nil_r.
Qed.

Lemma no_tool_is_normalized_and_ends_the_pass_witness :
  Stub.pass Stub.env_empty Stub.no_tool_text Stub.st0
  = (Returned {| toolCallDataAnnotation := None; toolCallMessages := [] |},
     logged Stub.st0
       [EGenerateText "openai:gpt-4o"
          (Stub.selection_prompt (defaultMaxResultsSearch "openai:gpt-4o"))
          (last_five (conversation Stub.st0))]).
Proof.
  destruct (no_tool_is_normalized_and_ends_the_pass Stub.no_tool_text None) as (_ & _ & H).
  exact (proj1 (H Stub.env_empty Stub.fetch_down Stub.now_iso Stub.stringify
                  (Stub.answers Stub.no_tool_text) Stub.selection_prompt Stub.generateId
                  CallParser.searchSchema Stub.executeSearchViaApi "openai:gpt-4o" Stub.st0
                  eq_refl eq_refl)).
Defined.

(* ===================================================================== *)
(** ** Content retrieval                                                  *)
(* ===================================================================== *)

Lemma substring_prefix_length :
  forall n s, String.length (substring 0 n s) <= n.
Proof.
  induction n as [|n IH]; intros s.
  - destruct s; simpl; lia.
  - destruct s as [|c s]; simpl; [lia|]. specialize (IH s). lia.
Qed.

Lemma substring_prefix_all :
  forall n s, String.length s <= n -> substring 0 n s = s.
Proof.
  induction n as [|n IH]; intros s H.
  - destruct s; simpl in *; [reflexivity|lia].
  - destruct s as [|c s]; simpl in *; [reflexivity|]. f_equal. apply IH. lia.
Qed.

(** [slice(0, n)] keeps at most [n] units and keeps everything when there
    are no more than [n]. *)
Lemma slice_to_spec :
  forall n raw content,
    slice_to n raw = Returned content ->
    size content <= n /\ (size raw <= n -> content = raw).
Proof.
  intros n raw content H.
  destruct raw; simpl in H; try discriminate; inversion H; subst; simpl; split.
  - apply substring_prefix_length.
  - intros L. now rewrite substring_prefix_all.
  - apply firstn_le_length.
  - intros L. now rewrite firstn_all2.
Qed.

Lemma fetchJinaReaderData_inv :
  forall fetch url st r st',
    fetchJinaReaderData fetch url st = (Returned (Some r), st') ->
    exists raw content title url',
      jina_content fetch url raw
      /\ slice_to CONTENT_CHARACTER_LIMIT raw = Returned content
      /\ r = {| results := [ {| item_title := title; item_content := content;
                                item_url := url' |} ];
                query := ""; images := [] |}.
Proof.
  intros fetch url st r st' H.
  unfold fetchJinaReaderData, http_fetch, try_catch, bind, lift, perform, ret in H.
  cbv beta iota in H.
  destruct (fetch (jina_request url)) as [response|] eqn:Ef; [|cbv beta iota in H; discriminate H]; cbv beta iota in H.
  destruct (Http.json response) as [json|] eqn:Ej; [|cbv beta iota in H; discriminate H]; cbv beta iota in H.
  destruct (get json "data") as [data|] eqn:Ed; [|cbv beta iota in H; discriminate H]; cbv beta iota in H.
  destruct (negb (truthy data) || is_number_zero (prop data "length")); [cbv beta iota in H; discriminate H|]; cbv beta iota in H.
  destruct (get data "content") as [raw|] eqn:Ec; [|cbv beta iota in H; discriminate H]; cbv beta iota in H.
  destruct (slice_to CONTENT_CHARACTER_LIMIT raw) as [content|] eqn:Es; [|cbv beta iota in H; discriminate H]; cbv beta iota in H.
  destruct (get data "title") as [title|]; [|cbv beta iota in H; discriminate H]; cbv beta iota in H.
  destruct (get data "url") as [url'|]; [|cbv beta iota in H; discriminate H]; cbv beta iota in H.
  inversion H; subst.
  exists raw, content, title, url'. split; [|split; [exact Es|reflexivity]].
  exists response, json, data. auto.
Qed.

Lemma fetchTavilyExtractData_inv :
  forall env fetch JSON_stringify url st r st',
    fetchTavilyExtractData env fetch JSON_stringify url st = (Returned (Some r), st') ->
    exists raw content title url',
      tavily_raw_content env fetch JSON_stringify url raw
      /\ slice_to CONTENT_CHARACTER_LIMIT raw = Returned content
      /\ r = {| results := [ {| item_title := title; item_content := content;
                                item_url := url' |} ];
                query := ""; images := [] |}.
Proof.
  intros env fetch JSON_stringify url st r st' H.
  unfold fetchTavilyExtractData, http_fetch, try_catch, bind, lift, perform, ret in H.
  cbv beta iota in H.
  destruct (fetch (tavily_extract_request env JSON_stringify url)) as [response|] eqn:Ef;
    [|cbv beta iota in H; discriminate H]; cbv beta iota in H.
  destruct (Http.json response) as [json|] eqn:Ej; [|cbv beta iota in H; discriminate H]; cbv beta iota in H.
  destruct (get json "results") as [rs|] eqn:Er; [|cbv beta iota in H; discriminate H]; cbv beta iota in H.
  destruct (negb (truthy rs) || is_number_zero (prop rs "length")); [cbv beta iota in H; discriminate H|]; cbv beta iota in H.
  destruct (first_elem rs) as [result|] eqn:E0; [|cbv beta iota in H; discriminate H]; cbv beta iota in H.
  destruct (get result "raw_content") as [raw|] eqn:Ec; [|cbv beta iota in H; discriminate H]; cbv beta iota in H.
  destruct (slice_to CONTENT_CHARACTER_LIMIT raw) as [content|] eqn:Es; [|cbv beta iota in H; discriminate H]; cbv beta iota in H.
  destruct (slice_to 100 content) as [title|]; [|cbv beta iota in H; discriminate H]; cbv beta iota in H.
  destruct (get result "url") as [url'|]; [|cbv beta iota in H; discriminate H]; cbv beta iota in H.
  inversion H; subst.
  exists raw, content, title, url'. split; [|split; [exact Es|reflexivity]].
  exists response, json, rs, result. auto.
Qed.

(** The retrieval functions catch what they throw. *)
Lemma fetchJinaReaderData_returns :
  forall fetch url, returns (fetchJinaReaderData fetch url).
Proof. intros. apply returns_try_catch. intros e. apply returns_ret. Qed.

Lemma fetchTavilyExtractData_returns :
  forall env fetch JSON_stringify url,
    returns (fetchTavilyExtractData env fetch JSON_stringify url).
Proof. intros. apply returns_try_catch. intros e. apply returns_ret. Qed.

(** C8.  When a retrieval succeeds, through the Jina reader or through
    Tavily Extract, the result holds one item whose content is the content
    the provider answered with, cut to its first 10,000 characters: its
    length is at most 10,000, and a content of 10,000 characters or fewer
    comes through unchanged. *)
Theorem retrieved_content_is_capped :
  forall env fetch JSON_stringify url st r st',
    fetchJinaReaderData fetch url st = (Returned (Some r), st')
    \/ fetchTavilyExtractData env fetch JSON_stringify url st = (Returned (Some r), st') ->
    exists item raw,
      results r = [item]
      /\ (jina_content fetch url raw \/ tavily_raw_content env fetch JSON_stringify url raw)
      /\ slice_to 10000 raw = Returned (item_content item)
      /\ size (item_content item) <= 10000
      /\ (size raw <= 10000 -> item_content item = raw)
      /\ (forall s, raw = VStr s -> item_content item = VStr (substring 0 10000 s)).
Proof.
  intros env fetch JSON_stringify url st r st' [H | H].
  - apply fetchJinaReaderData_inv in H.
    destruct H as (raw & content & title & url' & Hraw & Hs & ->).
    exists {| item_title := title; item_content := content; item_url := url' |}, raw.
    split; [reflexivity|]. split; [left; exact Hraw|]. split; [exact Hs|].
    destruct (slice_to_spec _ _ _ Hs) as [H1 H2]. split; [exact H1|]. split; [exact H2|].
    intros s ->. simpl in *. now inversion Hs.
  - apply fetchTavilyExtractData_inv in H.
    destruct H as (raw & content & title & url' & Hraw & Hs & ->).
    exists {| item_title := title; item_content := content; item_url := url' |}, raw.
    split; [reflexivity|]. split; [right; exact Hraw|]. split; [exact Hs|].
    destruct (slice_to_spec _ _ _ Hs) as [H1 H2]. split; [exact H1|]. split; [exact H2|].
    intros s ->. simpl in *. now inversion Hs.
Qed.

Lemma retrieved_content_is_capped_witness :
  exists r st' item,
    fetchJinaReaderData Stub.fetch_page "https://nosana.io" Stub.st0 = (Returned (Some r), st')
    /\ results r = [item]
    /\ size (item_content item) <= 10000.
Proof.
  destruct (fetchJinaReaderData Stub.fetch_page "https://nosana.io" Stub.st0)
    as [[[r|]|e] st'] eqn:E; try (vm_compute in E; discriminate E).
  destruct (retrieved_content_is_capped Stub.env_keys Stub.fetch_page Stub.stringify
              "https://nosana.io" Stub.st0 r st' (or_introl E))
    as (item & raw & H1 & _ & _ & H2 & _).
  exists r, st', item. split; [reflexivity|]. split; [exact H1|exact H2].
Defined.

(* ===================================================================== *)
(** ** The Tavily search provider                                         *)
(* ===================================================================== *)

Module FloatFacts.

Import SpecFloat FloatOps FloatAxioms.

Lemma SFcompare_refl :
  forall x, x <> S754_nan -> SFcompare x x = Some Eq.
Proof.
  intros [s| s | | s m e] H; simpl; try congruence.
  - destruct s; reflexivity.
  - destruct s; rewrite Z.compare_refl, Pos.compare_cont_refl; reflexivity.
Qed.

Lemma compare_cont_swap :
  forall m1 m2, Pos.compare_cont Eq m2 m1 = CompOpp (Pos.compare_cont Eq m1 m2).
Proof. intros m1 m2. exact (eq_sym (Pos.compare_cont_antisym m1 m2 Eq)). Qed.

Lemma SFcompare_antisym :
  forall x y c, SFcompare x y = Some c -> SFcompare y x = Some (CompOpp c).
Proof.
  intros [s1| s1 | | s1 m1 e1] [s2| s2 | | s2 m2 e2] c H; simpl in *;
    try discriminate; inversion H; subst; clear H;
    try (destruct s1; try destruct s2; reflexivity);
    try (destruct s2; reflexivity).
  destruct s1, s2; simpl; try reflexivity.
  - rewrite (Z.compare_antisym e1 e2).
    destruct (e1 ?= e2)%Z; simpl; try reflexivity.
    now rewrite (compare_cont_swap m1 m2).
  - rewrite (Z.compare_antisym e1 e2).
    destruct (e1 ?= e2)%Z; simpl; try reflexivity.
    now rewrite (compare_cont_swap m1 m2).
Qed.

Lemma ltb_not_nan_l : forall a b, ltb a b = true -> is_nan a = false.
Proof.
  intros a b H. unfold is_nan. rewrite eqb_spec. rewrite ltb_spec in H.
  unfold SFltb in H. unfold SFeqb.
  destruct (Prim2SF a) eqn:Ea; [| | simpl in H; discriminate H |];
    rewrite SFcompare_refl by discriminate; reflexivity.
Qed.

Lemma ltb_not_nan_r : forall a b, ltb a b = true -> is_nan b = false.
Proof.
  intros a b H. unfold is_nan. rewrite eqb_spec. rewrite ltb_spec in H.
  unfold SFltb in H. unfold SFeqb.
  destruct (Prim2SF b) eqn:Eb;
    [| | destruct (Prim2SF a); simpl in H; discriminate H |];
    rewrite SFcompare_refl by discriminate; reflexivity.
Qed.

Lemma ltb_asym : forall a b, ltb a b = true -> ltb b a = false.
Proof.
  intros a b H. rewrite ltb_spec in *. unfold SFltb in *.
  destruct (SFcompare (Prim2SF a) (Prim2SF b)) as [[]|] eqn:E; try discriminate.
  now rewrite (SFcompare_antisym _ _ _ E).
Qed.

Lemma ltb_irrefl : forall a, ltb a a = false.
Proof.
  intros a. destruct (ltb a a) eqn:E; [|reflexivity].
  now rewrite (ltb_asym _ _ E) in E.
Qed.

(** [Math.max] returns one of its arguments, no smaller than either, unless
    one of them is [NaN]. *)
Lemma Math_max_spec :
  forall a b,
    is_nan a = false -> is_nan b = false ->
    (Math_max a b = a \/ Math_max a b = b)
    /\ ltb (Math_max a b) a = false
    /\ ltb (Math_max a b) b = false.
Proof.
  intros a b Ha Hb. unfold Math_max. rewrite Ha, Hb. simpl.
  destruct (ltb a b) eqn:Hab.
  - split; [now right|]. split; [now apply ltb_asym|apply ltb_irrefl].
  - destruct (ltb b a) eqn:Hba.
    + split; [now left|]. split; [apply ltb_irrefl|exact Hab].
    + destruct (get_sign a).
      * split; [now right|]. split; [exact Hba|apply ltb_irrefl].
      * split; [now left|]. split; [apply ltb_irrefl|exact Hab].
Qed.

Lemma Math_max_lt : forall a b, ltb a b = true -> Math_max a b = b.
Proof.
  intros a b H. unfold Math_max.
  now rewrite (ltb_not_nan_l _ _ H), (ltb_not_nan_r _ _ H), H.
Qed.

Lemma Math_max_gt : forall a b, ltb b a = true -> Math_max a b = a.
Proof.
  intros a b H. unfold Math_max.
  now rewrite (ltb_not_nan_l _ _ H), (ltb_not_nan_r _ _ H), (ltb_asym _ _ H), H.
Qed.

Lemma Math_max_nan : forall a b, is_nan a = true -> Math_max a b = nan.
Proof. intros a b H. unfold Math_max. now rewrite H. Qed.

(** On numbers, not being less is being greater or equal. *)
Lemma leb_of_not_ltb :
  forall a b, is_nan a = false -> is_nan b = false -> ltb a b = false -> leb b a = true.
Proof.
  intros a b Na Nb H. unfold is_nan in Na, Nb. rewrite eqb_spec in Na, Nb.
  rewrite ltb_spec in H. rewrite leb_spec. unfold SFeqb, SFltb, SFleb in *.
  destruct (SFcompare (Prim2SF a) (Prim2SF b)) as [c|] eqn:E.
  - rewrite (SFcompare_antisym _ _ _ E). destruct c; simpl; try reflexivity. discriminate H.
  - exfalso. destruct (Prim2SF a), (Prim2SF b); simpl in *; discriminate.
Qed.

Lemma Math_max_not_nan :
  forall a b, is_nan a = false -> is_nan b = false -> is_nan (Math_max a b) = false.
Proof.
  intros a b Na Nb. destruct (Math_max_spec a b Na Nb) as ([-> | ->] & _); assumption.
Qed.

End FloatFacts.

Lemma spaces_length : forall n, String.length (spaces n) = n.
Proof. induction n; simpl; congruence. Qed.

Lemma append_length :
  forall a b, String.length (a ++ b) = String.length a + String.length b.
Proof. induction a as [|c a IH]; intros b; simpl; [reflexivity|]. now rewrite IH. Qed.

(** The query sent has at least five characters: a shorter one is padded
    with spaces to exactly five, any other is sent as it is. *)
Lemma filledQuery_spec :
  forall query,
    (String.length query < 5 ->
     filledQuery query = query ++ spaces (5 - String.length query)
     /\ String.length (filledQuery query) = 5)
    /\ (5 <= String.length query -> filledQuery query = query).
Proof.
  intros query. unfold filledQuery.
  destruct (String.length query <? 5)%nat eqn:E.
  - apply Nat.ltb_lt in E. split; [|lia]. intros _. split; [reflexivity|].
    rewrite append_length, spaces_length. lia.
  - apply Nat.ltb_ge in E. split; [lia|]. reflexivity.
Qed.

(** C9.  A call of the Tavily provider that passes the check of the API key
    sends exactly one request: a POST to https://api.tavily.com/search whose
    body is the serialized object written out below.  Its [max_results] is
    [Math.max(maxResults, 5)], where [maxResults] is the requested number or
    10 when none is given: it is never less than 5 and, for a number, at
    least 5; it is 5 when fewer are requested and the requested number when
    more are.  Its [query] is the original query, padded with spaces to
    exactly five characters when it is shorter than five and unchanged
    otherwise. *)
Theorem tavily_request_asks_for_at_least_five :
  forall env fetch JSON_stringify validateApiKey sanitizeUrl
         query maxResults searchDepth includeDomains excludeDomains st,
    validateApiKey (env "TAVILY_API_KEY") "TAVILY" = Returned tt ->
    let requested := with_default 10%float maxResults in
    let sent := Math_max requested 5 in
    let sentQuery := filledQuery query in
    let payload := tavily_search_payload (env "TAVILY_API_KEY") query requested
                     (with_default "basic" searchDepth)
                     (with_default default_includeDomains includeDomains)
                     (with_default [] excludeDomains) in
    let body :=
      VObj [ ("api_key", of_opt_string (env "TAVILY_API_KEY"));
             ("query", VStr sentQuery);
             ("max_results", VNum sent);
             ("search_depth", VStr (with_default "basic" searchDepth));
             ("include_images", VBool true);
             ("include_image_descriptions", VBool true);
             ("include_answers", VBool true);
             ("include_domains",
              VArr (map VStr (with_default default_includeDomains includeDomains)));
             ("exclude_domains", VArr (map VStr (with_default [] excludeDomains))) ] in
    let request := {| Http.url := "https://api.tavily.com/search";
                      Http.method := "POST";
                      Http.headers := [("Content-Type", "application/json")];
                      Http.body := JSON_stringify body |} in
    exists out st',
      TavilySearchProvider_search env fetch JSON_stringify validateApiKey sanitizeUrl
        query maxResults searchDepth includeDomains excludeDomains st = (out, st')
      /\ log st' = (log st ++ [EFetch request])%list
      /\ payload = body
      /\ prop payload "max_results" = VNum sent
      /\ ltb sent 5 = false
      /\ (is_nan requested = false -> leb 5 sent = true)
      /\ (ltb requested 5 = true -> sent = 5%float)
      /\ (ltb 5 requested = true -> sent = requested)
      /\ (is_nan requested = false ->
          (sent = requested \/ sent = 5%float) /\ ltb sent requested = false)
      /\ (is_nan requested = true -> sent = nan)
      /\ prop payload "query" = VStr sentQuery
      /\ (String.length query < 5 ->
          sentQuery = query ++ spaces (5 - String.length query)
          /\ String.length sentQuery = 5)
      /\ (5 <= String.length query -> sentQuery = query).
Proof.
  intros env fetch JSON_stringify validateApiKey sanitizeUrl
    query maxResults searchDepth includeDomains excludeDomains st Hkey
    requested sent sentQuery payload body request.
  assert (Hrun : exists out,
             TavilySearchProvider_search env fetch JSON_stringify validateApiKey sanitizeUrl
               query maxResults searchDepth includeDomains excludeDomains st
             = (out, logged st [EFetch (tavily_search_request JSON_stringify payload)])).
  { unfold TavilySearchProvider_search. fold requested. fold payload.
    unfold http_fetch, bind, lift, throw, ret. rewrite Hkey, perform_logged.
    cbv beta iota.
    destruct (fetch (tavily_search_request JSON_stringify payload)) as [response|e];
      [|eexists; reflexivity].
    destruct (negb (Http.ok response)); [eexists; reflexivity|].
    destruct (Http.json response) as [data|e]; [|eexists; reflexivity].
    destruct (get data "images") as [imgs|e]; [|eexists; reflexivity].
    destruct (processedImages sanitizeUrl imgs); eexists; reflexivity. }
  destruct Hrun as (out & Hrun).
  exists out. eexists. split; [exact Hrun|]. split; [reflexivity|].
  split; [reflexivity|]. split; [reflexivity|].
  assert (Hmax : ltb sent 5 = false).
  { unfold sent. destruct (is_nan requested) eqn:N.
    - now rewrite FloatFacts.Math_max_nan.
    - now apply FloatFacts.Math_max_spec. }
  split; [exact Hmax|].
  split.
  { intros N. apply FloatFacts.leb_of_not_ltb; [|reflexivity|exact Hmax].
    now apply FloatFacts.Math_max_not_nan. }
  split; [apply FloatFacts.Math_max_lt|].
  split; [apply FloatFacts.Math_max_gt|].
  split.
  { intros N. destruct (FloatFacts.Math_max_spec requested 5 N eq_refl) as (H1 & H2 & _).
    split; assumption. }
  split; [apply FloatFacts.Math_max_nan|].
  split; [reflexivity|].
  apply filledQuery_spec.
Qed.

Lemma tavily_request_asks_for_at_least_five_witness :
  exists out st' body,
    TavilySearchProvider_search Stub.env_keys Stub.fetch_page Stub.stringify
      Stub.validateApiKey Stub.sanitizeUrl
      "NOS" (Some 3%float) None None None Stub.st0 = (out, st')
    /\ log st' = [EFetch {| Http.url := "https://api.tavily.com/search";
                            Http.method := "POST";
                            Http.headers := [("Content-Type", "application/json")];
                            Http.body := Stub.stringify body |}]
    /\ prop body "max_results" = VNum 5
    /\ prop body "query" = VStr "NOS  ".
Proof.
  destruct (tavily_request_asks_for_at_least_five Stub.env_keys Stub.fetch_page Stub.stringify
              Stub.validateApiKey Stub.sanitizeUrl "NOS" (Some 3%float) None None None
              Stub.st0 eq_refl)
    as (out & st' & H1 & H2 & _).
  exists out, st'. eexists. split; [exact H1|]. split; [exact H2|].
  split; vm_compute; reflexivity.
Defined.

(* ===================================================================== *)
(** ** The claims about the orchestrator, in the closed world             *)
(* ===================================================================== *)

Lemma missing_parameter_reaches_no_adapter_witness :
  exists out st',
    Stub.pass Stub.env_empty Stub.search_without_query Stub.st0 = (Returned out, st')
    /\ existsb adapter_effect (log st') = false.
Proof.
  destruct (missing_parameter_reaches_no_adapter
              Stub.env_empty Stub.fetch_down Stub.now_iso Stub.stringify
              (Stub.answers Stub.search_without_query) Stub.selection_prompt Stub.generateId
              CallParser.parseToolCallXml CallParser.searchSchema Stub.executeSearchViaApi
              "openai:gpt-4o" Stub.st0 Stub.search_without_query
              (CallParser.parseToolCallXml Stub.search_without_query
                 (Some CallParser.searchSchema))
              eq_refl eq_refl (or_introl (conj eq_refl eq_refl)))
    as (failure & H & Hno & _).
  unfold Stub.pass. eexists. eexists. split; [exact H|exact Hno].
Defined.

(** C2, the claim as written fails: a pass that ends in the failure
    synthesized for a search without a query writes, after the 'call' event,
    an event of state 'result', not of state 'error'. *)
Lemma validation_failure_is_not_reported_as_error :
  exists toolCall out st' call second,
    selectToolCall CallParser.parseToolCallXml CallParser.searchSchema
      Stub.search_without_query = Some toolCall
    /\ tool toolCall = "search"
    /\ truthy (get_opt (parameters toolCall) "query") = false
    /\ Stub.pass Stub.env_empty Stub.search_without_query Stub.st0 = (Returned out, st')
    /\ progress_events (log st') = [call; second]
    /\ ev_state call = StateCall
    /\ ev_result second = Stub.stringify (error_object "Search query missing.")
    /\ ev_state second = StateResult
    /\ ev_state second <> StateError.
Proof.
  pose (run := Stub.pass Stub.env_empty Stub.search_without_query Stub.st0).
  pose (none := mkEvent StateError "" "" None None).
  exists (CallParser.parseToolCallXml Stub.search_without_query
            (Some CallParser.searchSchema)),
         (match fst run with Returned o => o | Thrown _ => no_tool_pass end),
         (snd run),
         (nth 0 (progress_events (log (snd run))) none),
         (nth 1 (progress_events (log (snd run))) none).
  split; [vm_compute; reflexivity|]. split; [vm_compute; reflexivity|].
  split; [vm_compute; reflexivity|]. split; [vm_compute; reflexivity|].
  split; [vm_compute; reflexivity|]. split; [vm_compute; reflexivity|].
  split; [vm_compute; reflexivity|]. split; [vm_compute; reflexivity|].
  vm_compute. discriminate.
Qed.

Lemma synthesized_failure_is_reported_as_result_witness :
  exists added st' call second,
    log st' = (log Stub.st0 ++ added)%list
    /\ progress_events added = [call; second]
    /\ ev_state second = StateResult.
Proof.
  destruct (synthesized_failure_is_reported_as_result
              Stub.env_empty Stub.fetch_down Stub.now_iso Stub.stringify
              (Stub.answers Stub.market_without_identifier) Stub.selection_prompt
              Stub.generateId CallParser.parseToolCallXml CallParser.searchSchema
              Stub.executeSearchViaApi
              "openai:gpt-4o" Stub.st0 Stub.market_without_identifier
              (CallParser.parseToolCallXml Stub.market_without_identifier
                 (Some solanaTokenMarketDataSchema))
              "Token symbol or mint address missing for market data."
              eq_refl eq_refl
              (or_intror (or_introl (conj eq_refl (conj eq_refl (conj eq_refl eq_refl))))))
    as (added & st' & _ & L & E & _).
  exists added, st'. eexists. eexists. split; [exact L|]. split; [exact E|reflexivity].
Defined.

(** C5, the claim as written fails: the instruction of the user turn is
    not one fixed text.  Two passes on the same conversation, one that
    selects the search tool and one that selects the market-data tool,
    return user turns whose instructions differ: each quotes the name of
    its tool. *)
Lemma instruction_names_the_selected_tool :
  exists out1 st1 out2 st2 turn1 turn2,
    Stub.pass Stub.env_empty Stub.search_without_query Stub.st0 = (Returned out1, st1)
    /\ Stub.pass Stub.env_empty Stub.market_without_identifier Stub.st0 = (Returned out2, st2)
    /\ nth_error (toolCallMessages out1) 1 = Some turn1
    /\ nth_error (toolCallMessages out2) 1 = Some turn2
    /\ role turn1 = RUser
    /\ role turn2 = RUser
    /\ content turn1 <> content turn2.
Proof.
  pose (run1 := Stub.pass Stub.env_empty Stub.search_without_query Stub.st0).
  pose (run2 := Stub.pass Stub.env_empty Stub.market_without_identifier Stub.st0).
  pose (result := fun run : outcome ToolExecutionResult * Store =>
                    match fst run with Returned o => o | Thrown _ => no_tool_pass end).
  pose (none := mkMessage RSystem VUndefined).
  exists (result run1), (snd run1), (result run2), (snd run2),
         (nth 1 (toolCallMessages (result run1)) none),
         (nth 1 (toolCallMessages (result run2)) none).
  split; [vm_compute; reflexivity|]. split; [vm_compute; reflexivity|].
  split; [vm_compute; reflexivity|]. split; [vm_compute; reflexivity|].
  split; [vm_compute; reflexivity|]. split; [vm_compute; reflexivity|].
  vm_compute. discriminate.
Qed.

Lemma pass_returns_two_turns_and_keeps_conversation_witness :
  exists out st',
    Stub.pass Stub.env_empty Stub.search_with_query Stub.st0 = (Returned out, st')
    /\ conversation st' = conversation Stub.st0
    /\ List.length (toolCallMessages out) = 2%nat.
Proof.
  unfold Stub.pass.
  destruct (executeToolCall Stub.env_empty Stub.fetch_down Stub.now_iso Stub.stringify
              (Stub.answers Stub.search_with_query) Stub.selection_prompt Stub.generateId
              CallParser.parseToolCallXml CallParser.searchSchema Stub.executeSearchViaApi
              "openai:gpt-4o" true Stub.st0) as [o st'] eqn:E.
  destruct (pass_returns_two_turns_and_keeps_conversation
              Stub.env_empty Stub.fetch_down Stub.now_iso Stub.stringify
              (Stub.answers Stub.search_with_query) Stub.selection_prompt Stub.generateId
              CallParser.parseToolCallXml CallParser.searchSchema Stub.executeSearchViaApi
              "openai:gpt-4o" true Stub.st0 o st' E)
    as (Hconv & Hturns).
  destruct (Hturns Stub.search_with_query
              (CallParser.parseToolCallXml Stub.search_with_query
                 (Some CallParser.searchSchema))
              eq_refl eq_refl eq_refl eq_refl)
    as (r & state & res & -> & _ & Hlen & _).
  exists res, st'. split; [reflexivity|]. split; [exact Hconv|exact Hlen].
Defined.

Lemma progress_is_call_then_outcome_witness :
  exists out st' added,
    Stub.pass Stub.env_empty Stub.market_with_symbol Stub.st0 = (out, st')
    /\ log st' = (log Stub.st0 ++ added)%list
    /\ List.length (progress_events added) = 2%nat.
Proof.
  unfold Stub.pass.
  destruct (executeToolCall Stub.env_empty Stub.fetch_down Stub.now_iso Stub.stringify
              (Stub.answers Stub.market_with_symbol) Stub.selection_prompt Stub.generateId
              CallParser.parseToolCallXml CallParser.searchSchema Stub.executeSearchViaApi
              "openai:gpt-4o" true Stub.st0) as [o st'] eqn:E.
  destruct (progress_is_call_then_outcome
              Stub.env_empty Stub.fetch_down Stub.now_iso Stub.stringify
              (Stub.answers Stub.market_with_symbol) Stub.selection_prompt Stub.generateId
              CallParser.parseToolCallXml CallParser.searchSchema Stub.executeSearchViaApi
              "openai:gpt-4o" true Stub.st0 o st' E)
    as (added & L & [(Hnone & _) | (text & toolCall & state & r & between & _ & _ & _ & _
                                    & _ & _ & _ & _ & Hev & _)]).
  - exfalso. vm_compute in E. inversion E; subst st'. clear E.
    simpl in L. rewrite <- L in Hnone. discriminate Hnone.
  - exists o, st', added. split; [reflexivity|]. split; [exact L|]. now rewrite Hev.
Defined.


(* ===================================================================== *)
(** ** Runs of the model on the scenarios of the specification            *)
(* ===================================================================== *)

(** Scenario A: the markup without a tool name is the no-tool invocation. *)
Example scenario_A_parses_to_no_tool :
  CallParser.parseToolCallXml Stub.no_tool_text None = CallParser.no_tool.
Proof. reflexivity. Qed.

(** Scenario B: a search with a query only takes the declared defaults. *)
Example scenario_B_takes_the_defaults :
  let invocation := CallParser.parseToolCallXml Stub.search_with_query
                      (Some CallParser.searchSchema) in
  tool invocation = "search"
  /\ prop (parameters invocation) "query" = VStr "Nosana $NOS overview"
  /\ prop (parameters invocation) "search_depth" = VStr "basic"
  /\ prop (parameters invocation) "max_results" = VUndefined.
Proof. vm_compute. repeat split. Qed.

(** The count the orchestrator substitutes for a missing [max_results]. *)
Example default_count_of_the_search :
  defaultMaxResultsSearch "openai:gpt-4o" = 7%float
  /\ defaultMaxResultsSearch "ollama:llama3" = 5%float.
Proof. split; reflexivity. Qed.

(** Scenario C, through the orchestrator: the wholesale error is the result
    of the pass and is reported with state 'result'. *)
Example scenario_C_through_the_orchestrator :
  map ev_state
    (progress_events (log (snd (Stub.pass Stub.env_keys Stub.market_with_symbol Stub.st0))))
  = [StateCall; StateResult]
  /\ map ev_result
       (progress_events (log (snd (Stub.pass Stub.env_keys Stub.market_with_symbol Stub.st0))))
     = [ None;
         Stub.stringify
           (error_object
              ("Failed to fetch significant market data. Errors: "
               ++ "Birdeye: Mint address preferred for precise data."
               ++ "; " ++ "Solscan: Mint address required for precise data.")) ].
Proof. split; vm_compute; reflexivity. Qed.

(** Scenario D: a backend that cannot be reached makes the retrieval tool
    return its error object; nothing is thrown. *)
Example scenario_D_retrieval_failure :
  fst (retrieveTool_execute Stub.env_empty Stub.fetch_down Stub.stringify
         "https://nosana.io/whitepaper" Stub.st0)
  = Returned (RetrieveError "Failed to retrieve content from the URL or no content found.").
Proof. reflexivity. Qed.

Example short_query_is_padded : filledQuery "NOS" = "NOS  ".
Proof. reflexivity. Qed.

Example few_results_are_raised_to_five :
  Math_max 3 5 = 5%float /\ Math_max 10 5 = 10%float /\ Math_max 5 5 = 5%float.
Proof. repeat split. Qed.

(* ===================================================================== *)
(** ** Further properties: the requests of the market-data tool           *)
(* ===================================================================== *)

Lemma http_fetch_run :
  forall fetch req st, http_fetch fetch req st = (fetch req, logged st [EFetch req]).
Proof. reflexivity. Qed.

Lemma log_logged : forall st added, log (logged st added) = (log st ++ added)%list.
Proof. reflexivity. Qed.

(** Split a run on everything it branches on. *)
Ltac case_run H :=
  repeat (cbv beta iota in H;
          match type of H with
          | context [match ?x with _ => _ end] =>
              lazymatch x with
              | context [match _ with _ => _ end] => fail
              | _ => let E := fresh "E" in destruct x eqn:E
              end
          end).

Ltac open_run H :=
  unfold http_fetch, try_catch, bind, lift, perform, throw, ret in H.





(* ===================================================================== *)
(** ** Further properties: the results of the two fetchers                *)
(* ===================================================================== *)

Ltac ok_facts :=
  repeat match goal with
         | E : negb _ = true |- _ => apply negb_true_iff in E
         | E : negb _ = false |- _ => apply negb_false_iff in E
         end.





(** X4.  When the price request is answered well and the overview request
    with a status that is not ok, the Birdeye fetcher has sent both
    requests, drops the price it read and returns an error that names the
    overview endpoint and the status. *)
Theorem failed_overview_loses_the_price :
  forall env fetch params st r1 priceData r2,
    let key := show_opt (env "BIRDEYE_API_KEY") in
    let mint := show_opt (tokenMintAddress params) in
    opt_truthy (env "BIRDEYE_API_KEY") = true ->
    opt_truthy (tokenMintAddress params) = true ->
    fetch (birdeye_price_request key mint) = Returned r1 ->
    Http.ok r1 = true ->
    Http.json r1 = Returned priceData ->
    fetch (birdeye_overview_request key mint) = Returned r2 ->
    Http.ok r2 = false ->
    fetchBirdeyeData env fetch params st
    = (Returned (birdeye_failure
                   ("Birdeye API fetch error: Birdeye API error (overview): "
                    ++ string_of_Z (Http.status r2))),
       logged st [ EFetch (birdeye_price_request key mint);
                   EFetch (birdeye_overview_request key mint) ])
    /\ BirdeyeData.price
         (birdeye_failure ("Birdeye API fetch error: Birdeye API error (overview): "
                           ++ string_of_Z (Http.status r2))) = VUndefined.
Proof.
  intros env fetch params st r1 priceData r2 key mint K Mt F1 O1 J1 F2 O2.
  split; [|reflexivity].
  unfold fetchBirdeyeData. fold key. fold mint. rewrite K, Mt.
  change (negb true) with false. cbv beta iota.
  unfold try_catch, bind, lift, throw, ret.
  rewrite http_fetch_run, F1, O1. change (negb true) with false. cbv beta iota.
  rewrite J1, http_fetch_run, F2, O2. change (negb false) with true. cbv beta iota.
  rewrite logged_logged. reflexivity.
Qed.

Lemma failed_overview_loses_the_price_witness :
  exists msg,
    fst (fetchBirdeyeData Stub.env_keys Cases.fetch_without_overview Cases.with_mint Stub.st0)
    = Returned (birdeye_failure msg)
    /\ includes "(overview): 503" msg = true.
Proof.
  eexists. split.
  - rewrite (proj1 (failed_overview_loses_the_price Stub.env_keys
                      Cases.fetch_without_overview Cases.with_mint Stub.st0
                      _ _ _ eq_refl eq_refl eq_refl eq_refl eq_refl eq_refl eq_refl)).
    reflexivity.
  - vm_compute. reflexivity.
Defined.

(** X5.  Whatever the network answers, the results of the fetchers never
    carry a Birdeye volume, liquidity or market cap, nor a Solscan price;
    the total supply Solscan reports is always its circulating supply; and
    a result that carries an error carries no data and no link. *)
Theorem fetchers_fill_only_what_they_read :
  forall env fetch params st b st1 s st2,
    fetchBirdeyeData env fetch params st = (Returned b, st1) ->
    fetchSolscanData fetch params st1 = (Returned s, st2) ->
    BirdeyeData.volume24h b = VUndefined
    /\ BirdeyeData.liquidity b = VUndefined
    /\ BirdeyeData.mc b = VUndefined
    /\ SolscanData.price s = VUndefined
    /\ SolscanData.totalSupply s = SolscanData.circulatingSupply s
    /\ (BirdeyeData.error b <> None ->
        BirdeyeData.price b = VUndefined /\ BirdeyeData.url b = None
        /\ BirdeyeData.source b = Some "Birdeye")
    /\ (SolscanData.error s <> None ->
        SolscanData.marketCap s = VUndefined /\ SolscanData.circulatingSupply s = VUndefined
        /\ SolscanData.holders s = VUndefined /\ SolscanData.url s = None
        /\ SolscanData.source s = Some "Solscan")
    /\ (BirdeyeData.error b = None ->
        BirdeyeData.source b = Some "Birdeye API"
        /\ BirdeyeData.url b = Some ("https://birdeye.so/token/"
                                     ++ show_opt (tokenMintAddress params)
                                     ++ "?chain=solana"))
    /\ (SolscanData.error s = None ->
        SolscanData.source s = Some "Solscan API"
        /\ SolscanData.url s = Some ("https://solscan.io/token/"
                                     ++ show_opt (tokenMintAddress params))).
Proof.
  intros env fetch params st b st1 s st2 Hb Hs.
  assert (Fb : (exists msg, b = birdeye_failure msg)
               \/ (BirdeyeData.error b = None
                   /\ BirdeyeData.volume24h b = VUndefined
                   /\ BirdeyeData.liquidity b = VUndefined
                   /\ BirdeyeData.mc b = VUndefined
                   /\ BirdeyeData.source b = Some "Birdeye API"
                   /\ BirdeyeData.url b = Some ("https://birdeye.so/token/"
                                                ++ show_opt (tokenMintAddress params)
                                                ++ "?chain=solana"))).
  { unfold fetchBirdeyeData in Hb. open_run Hb.
    case_run Hb; inversion Hb; subst; clear Hb;
      first [left; eexists; reflexivity | right; repeat split]. }
  assert (Fs : (exists msg, s = solscan_failure msg)
               \/ (SolscanData.error s = None
                   /\ SolscanData.price s = VUndefined
                   /\ SolscanData.totalSupply s = SolscanData.circulatingSupply s
                   /\ SolscanData.source s = Some "Solscan API"
                   /\ SolscanData.url s = Some ("https://solscan.io/token/"
                                                ++ show_opt (tokenMintAddress params)))).
  { unfold fetchSolscanData in Hs. open_run Hs.
    case_run Hs; inversion Hs; subst; clear Hs;
      first [left; eexists; reflexivity | right; repeat split]. }
  destruct Fb as [(mb & ->) | (Eb & V & L & Mc & Sb & Ub)];
    destruct Fs as [(ms & ->) | (Es & Ps & Ts & Ss & Us)]; simpl;
    intuition congruence.
Qed.

Lemma fetchers_fill_only_what_they_read_witness :
  exists b st1 s st2,
    fetchBirdeyeData Stub.env_empty Stub.fetch_page Cases.with_mint Stub.st0
    = (Returned b, st1)
    /\ fetchSolscanData Stub.fetch_page Cases.with_mint st1 = (Returned s, st2)
    /\ SolscanData.totalSupply s = SolscanData.circulatingSupply s
    /\ BirdeyeData.mc b = VUndefined.
Proof.
  destruct (fetchBirdeyeData_returns Stub.env_empty Stub.fetch_page Cases.with_mint Stub.st0)
    as (b & st1 & Eb).
  destruct (fetchSolscanData_returns Stub.fetch_page Cases.with_mint st1) as (s & st2 & Es).
  destruct (fetchers_fill_only_what_they_read _ _ _ _ _ _ _ _ Eb Es)
    as (_ & _ & Mc & _ & Ts & _).
  exists b, st1, s, st2. auto.
Defined.

(** X6.  When at most one of the two sources fails, the tool returns the
    aggregate, never the wholesale error; its error list holds the message
    of the failed source and nothing else, and is empty when both
    succeeded, whether or not any price or supply came back. *)
Theorem one_failed_source_gives_the_aggregate :
  forall env fetch now_iso params st b st1 s st2,
    has_identifier params = true ->
    fetchBirdeyeData env fetch params st = (Returned b, st1) ->
    fetchSolscanData fetch params st1 = (Returned s, st2) ->
    BirdeyeData.error b = None \/ SolscanData.error s = None ->
    let errors := (match BirdeyeData.error b with Some m => [m] | None => [] end
                   ++ match SolscanData.error s with Some m => [m] | None => [] end)%list in
    getSolanaTokenMarketDataTool_execute env fetch now_iso params st
    = (Returned (Combined
         {| CombinedMarketData.tokenSymbol := tokenSymbol params;
            CombinedMarketData.tokenMintAddress := tokenMintAddress params;
            CombinedMarketData.birdeye := Some b;
            CombinedMarketData.solscan := Some s;
            CombinedMarketData.lastUpdated := Some now_iso;
            CombinedMarketData.errors := Some errors |}), st2)
    /\ List.length errors <= 1.
Proof.
  intros env fetch now_iso params st b st1 s st2 Hid Eb Es Hone errors.
  assert (Hguard : negb (opt_truthy (tokenSymbol params))
                   && negb (opt_truthy (tokenMintAddress params)) = false).
  { unfold has_identifier in Hid.
    destruct (opt_truthy (tokenSymbol params)), (opt_truthy (tokenMintAddress params));
      simpl in *; congruence. }
  assert (Herr : push_error (push_error [] (BirdeyeData.error b)) (SolscanData.error s)
                 = errors
                 /\ nothing_significant b s errors = false
                 /\ List.length errors <= 1).
  { subst errors. unfold nothing_significant, push_error.
    destruct (fetchBirdeyeData_shape _ _ _ _ _ _ Eb) as [Nb | (mb & -> & Tb)];
      destruct (fetchSolscanData_shape _ _ _ _ _ Es) as [Ns | (ms & -> & Ts)].
    - rewrite Nb, Ns. simpl. rewrite !andb_false_r. auto.
    - rewrite Nb. simpl. rewrite Ts. simpl. rewrite !andb_false_r. auto.
    - rewrite Ns. simpl. rewrite Tb. simpl. rewrite !andb_false_r. auto.
    - destruct Hone as [Hn | Hn]; discriminate Hn. }
  destruct Herr as (Hpush & Hsig & Hlen). split; [|exact Hlen].
  unfold getSolanaTokenMarketDataTool_execute. rewrite Hguard. unfold bind.
  rewrite Eb, Es, Hpush, Hsig. reflexivity.
Qed.

Lemma one_failed_source_gives_the_aggregate_witness :
  exists c st',
    getSolanaTokenMarketDataTool_execute Stub.env_empty Stub.fetch_page Stub.now_iso
      Cases.with_mint Stub.st0 = (Returned (Combined c), st')
    /\ CombinedMarketData.errors c = Some ["Birdeye API key not configured."].
Proof.
  destruct (fetchBirdeyeData_returns Stub.env_empty Stub.fetch_page Cases.with_mint Stub.st0)
    as (b & st1 & Eb).
  destruct (fetchSolscanData_returns Stub.fetch_page Cases.with_mint st1) as (s & st2 & Es).
  assert (Hs : SolscanData.error s = None).
  { vm_compute in Eb. inversion Eb; subst b st1. vm_compute in Es. now inversion Es. }
  destruct (one_failed_source_gives_the_aggregate Stub.env_empty Stub.fetch_page Stub.now_iso
              Cases.with_mint Stub.st0 b st1 s st2 eq_refl Eb Es (or_intror Hs))
    as [H _].
  eexists. eexists. split; [exact H|].
  vm_compute in Eb. inversion Eb; subst b st1. vm_compute in Es. inversion Es; subst s st2.
  reflexivity.
Defined.

(* ===================================================================== *)
(** ** Further properties: content retrieval                              *)
(* ===================================================================== *)




Lemma fetchJinaReaderData_same_bodies :
  forall fetch1 fetch2 url st,
    same_bodies fetch1 fetch2 ->
    fetchJinaReaderData fetch1 url st = fetchJinaReaderData fetch2 url st.
Proof.
  intros fetch1 fetch2 url st S. specialize (S (jina_request url)).
  unfold fetchJinaReaderData, try_catch, bind, lift, ret. rewrite !http_fetch_run.
  destruct (fetch1 (jina_request url)) as [r1|e1], (fetch2 (jina_request url)) as [r2|e2];
    try contradiction; [|reflexivity].
  cbv beta iota. now rewrite S.
Qed.

Lemma fetchTavilyExtractData_same_bodies :
  forall env fetch1 fetch2 JSON_stringify url st,
    same_bodies fetch1 fetch2 ->
    fetchTavilyExtractData env fetch1 JSON_stringify url st
    = fetchTavilyExtractData env fetch2 JSON_stringify url st.
Proof.
  intros env fetch1 fetch2 JSON_stringify url st S.
  specialize (S (tavily_extract_request env JSON_stringify url)).
  unfold fetchTavilyExtractData, try_catch, bind, lift, ret. rewrite !http_fetch_run.
  destruct (fetch1 (tavily_extract_request env JSON_stringify url)) as [r1|e1],
    (fetch2 (tavily_extract_request env JSON_stringify url)) as [r2|e2];
    try contradiction; [|reflexivity].
  cbv beta iota. now rewrite S.
Qed.

(** X8.  Neither backend looks at the status of the answer: two networks
    that deliver the same bodies, whatever their status lines, give the same
    outcome of the retrieval.  A 500 answer with a document in its body is
    retrieved like a 200 answer. *)
Theorem retrieval_ignores_the_status :
  forall env fetch1 fetch2 JSON_stringify url st,
    same_bodies fetch1 fetch2 ->
    retrieveTool_execute env fetch1 JSON_stringify url st
    = retrieveTool_execute env fetch2 JSON_stringify url st.
Proof.
  intros env fetch1 fetch2 JSON_stringify url st S.
  unfold retrieveTool_execute, bind.
  destruct (opt_truthy (env "JINA_API_KEY")).
  - now rewrite (fetchJinaReaderData_same_bodies fetch1 fetch2 url st S).
  - now rewrite (fetchTavilyExtractData_same_bodies env fetch1 fetch2 JSON_stringify url st S).
Qed.

Lemma retrieval_ignores_the_status_witness :
  same_bodies Stub.fetch_page Cases.fetch_page_as_500
  /\ exists r,
       fst (retrieveTool_execute Stub.env_keys Cases.fetch_page_as_500 Stub.stringify
              "https://nosana.io" Stub.st0) = Returned (Retrieved r).
Proof.
  assert (S : same_bodies Stub.fetch_page Cases.fetch_page_as_500)
    by (intros req; reflexivity).
  split; [exact S|].
  rewrite <- (retrieval_ignores_the_status Stub.env_keys _ _ Stub.stringify
                "https://nosana.io" Stub.st0 S).
  eexists. vm_compute. reflexivity.
Defined.

Lemma substring_prefix_twice :
  forall n m s, n <= m -> substring 0 n (substring 0 m s) = substring 0 n s.
Proof.
  induction n as [|n IH]; intros m s H.
  - destruct (substring 0 m s), s; reflexivity.
  - destruct m as [|m]; [lia|]. destruct s as [|c s]; [reflexivity|].
    simpl. f_equal. apply IH. lia.
Qed.

(** X9.  A result of the Tavily Extract backend has for title the first
    hundred characters of its content, so of the provider's raw content
    when that is text; it has one item, an empty query and no images. *)
Theorem tavily_title_is_the_head_of_the_content :
  forall env fetch JSON_stringify url st r st',
    fetchTavilyExtractData env fetch JSON_stringify url st = (Returned (Some r), st') ->
    exists item,
      results r = [item]
      /\ query r = ""
      /\ images r = []
      /\ slice_to 100 (item_content item) = Returned (item_title item)
      /\ size (item_title item) <= 100
      /\ (forall raw s,
            tavily_raw_content env fetch JSON_stringify url raw ->
            raw = VStr s ->
            item_title item = VStr (substring 0 100 s)).
Proof.
  intros env fetch JSON_stringify url st r st' H.
  unfold fetchTavilyExtractData in H. open_run H.
  case_run H; inversion H; subst; clear H.
  eexists. split; [reflexivity|]. split; [reflexivity|]. split; [reflexivity|].
  simpl. split; [assumption|].
  split; [eapply slice_to_spec; eassumption|].
  intros raw s (response & json & rs & result & F & J & R & E0' & C) ->.
  assert (Hraw : a3 = VStr s) by congruence. subst a3.
  match goal with
  | Hc : slice_to CONTENT_CHARACTER_LIMIT (VStr s) = Returned ?c,
    Ht : slice_to 100 ?c = Returned ?t |- ?t = _ =>
      simpl in Hc; inversion Hc; subst; simpl in Ht; inversion Ht; subst
  end.
  f_equal. apply substring_prefix_twice.
  apply Nat.leb_le. vm_compute. reflexivity.
Qed.

Lemma tavily_title_is_the_head_of_the_content_witness :
  exists r st' item,
    fetchTavilyExtractData Stub.env_empty Stub.fetch_page Stub.stringify
      "https://nosana.io" Stub.st0 = (Returned (Some r), st')
    /\ results r = [item]
    /\ slice_to 100 (item_content item) = Returned (item_title item).
Proof.
  destruct (fetchTavilyExtractData Stub.env_empty Stub.fetch_page Stub.stringify
              "https://nosana.io" Stub.st0) as [[[r|]|e] st'] eqn:E;
    try (vm_compute in E; discriminate E).
  destruct (tavily_title_is_the_head_of_the_content _ _ _ _ _ _ _ E)
    as (item & H1 & _ & _ & H2 & _).
  exists r, st', item. split; [reflexivity|]. split; assumption.
Defined.

(* ===================================================================== *)
(** ** Further properties: the answer of the Tavily search provider       *)
(* ===================================================================== *)

Lemma assoc_set_field_same :
  forall k v fs, assoc k (set_field k v fs) = v.
Proof.
  intros k v fs. induction fs as [|[k' v'] fs IH]; simpl.
  - now rewrite String.eqb_refl.
  - destruct (k' =? k) eqn:E; simpl; [now rewrite String.eqb_refl|].
    now rewrite E.
Qed.

Lemma assoc_set_field_other :
  forall k k0 v fs, k0 <> k -> assoc k0 (set_field k v fs) = assoc k0 fs.
Proof.
  intros k k0 v fs H. apply String.eqb_neq in H.
  induction fs as [|[k' v'] fs IH]; simpl.
  - rewrite String.eqb_sym. now rewrite H.
  - destruct (k' =? k) eqn:E; simpl.
    + apply String.eqb_eq in E. subst k'.
      rewrite String.eqb_sym. now rewrite H.
    + destruct (k' =? k0); [reflexivity|exact IH].
Qed.

Lemma map_outcome_spec :
  forall (A B : Type) (f : A -> outcome B) l l',
    map_outcome f l = Returned l' ->
    List.length l' = List.length l
    /\ Forall (fun b => exists a, In a l /\ f a = Returned b) l'.
Proof.
  intros A B f. induction l as [|a l IH]; intros l' H; simpl in H.
  - inversion H. split; [reflexivity|constructor].
  - destruct (f a) as [b|e] eqn:Fa; [|discriminate].
    destruct (map_outcome f l) as [bs|e] eqn:Fl; [|discriminate].
    inversion H; subst. destruct (IH bs eq_refl) as [L F].
    split; [simpl; congruence|]. constructor.
    + exists a. split; [now left|exact Fa].
    + eapply Forall_impl; [|exact F]. intros b' (a' & I & E). exists a'. split; [now right|exact E].
Qed.

(** The images that come out: as many as went in or fewer, each an object
    of a sanitized address and a description that is there and not empty. *)
Lemma processedImages_spec :
  forall sanitizeUrl imgs out,
    processedImages sanitizeUrl imgs = Returned out ->
    exists l kept,
      imgs = VArr l /\ out = VArr kept
      /\ List.length kept <= List.length l
      /\ Forall (fun image =>
                   exists source u,
                     In source l
                     /\ get source "url" = Returned (prop source "url")
                     /\ sanitizeUrl (prop source "url") = Returned u
                     /\ image = VObj [("url", u); ("description", prop source "description")]
                     /\ prop source "description" <> VUndefined
                     /\ prop source "description" <> VStr "")
           kept.
Proof.
  intros sanitizeUrl imgs out H. unfold processedImages in H.
  destruct imgs; try discriminate.
  destruct (map_outcome (sanitize_image sanitizeUrl) elems) as [l'|e] eqn:E; [|discriminate].
  inversion H; subst. destruct (map_outcome_spec _ _ _ _ _ E) as [L F].
  exists elems, (filter described l'). split; [reflexivity|]. split; [reflexivity|]. split.
  - rewrite <- L. apply filter_length_le.
  - apply Forall_forall. intros image I. apply filter_In in I. destruct I as [I D].
    rewrite Forall_forall in F. destruct (F image I) as (source & Is & S).
    unfold sanitize_image, get in S.
    destruct (nullish source) eqn:N; [discriminate|].
    destruct (sanitizeUrl (prop source "url")) as [u|e] eqn:U; [|discriminate].
    inversion S; subst image. exists source, u.
    split; [exact Is|]. unfold get. rewrite N.
    split; [reflexivity|]. split; [exact U|]. split; [reflexivity|].
    unfold described in D. simpl in D.
    destruct (prop source "description") eqn:P; try discriminate; split; try discriminate.
    intros Hs. inversion Hs; subst. discriminate.
Qed.

Lemma TavilySearchProvider_search_inv :
  forall env fetch JSON_stringify validateApiKey sanitizeUrl
         query maxResults searchDepth includeDomains excludeDomains st v st',
    TavilySearchProvider_search env fetch JSON_stringify validateApiKey sanitizeUrl
      query maxResults searchDepth includeDomains excludeDomains st = (Returned v, st') ->
    let req := tavily_search_request JSON_stringify
                 (tavily_search_payload (env "TAVILY_API_KEY") query
                    (with_default 10%float maxResults) (with_default "basic" searchDepth)
                    (with_default default_includeDomains includeDomains)
                    (with_default [] excludeDomains)) in
    exists response data imgs processed,
      fetch req = Returned response
      /\ Http.ok response = true
      /\ Http.json response = Returned data
      /\ get data "images" = Returned imgs
      /\ processedImages sanitizeUrl imgs = Returned processed
      /\ v = spread_with_images data processed.
Proof.
  intros env fetch JSON_stringify validateApiKey sanitizeUrl
    query maxResults searchDepth includeDomains excludeDomains st v st' H req.
  unfold TavilySearchProvider_search in H. fold req in H. open_run H.
  case_run H; ok_facts; inversion H; subst; clear H.
  do 4 eexists. repeat (split; [first [reflexivity | eassumption]|]). reflexivity.
Qed.

(** X10.  The Tavily provider checks the API key before it sends anything:
    when the check throws, the search throws the same error and no request
    leaves.  It does not catch what follows either: a rejected request is
    rethrown, and an answer whose status is not ok is thrown as an error
    that carries the status code and text. *)
Theorem tavily_search_fails_loudly :
  forall env fetch JSON_stringify validateApiKey sanitizeUrl
         query maxResults searchDepth includeDomains excludeDomains st,
    let req := tavily_search_request JSON_stringify
                 (tavily_search_payload (env "TAVILY_API_KEY") query
                    (with_default 10%float maxResults) (with_default "basic" searchDepth)
                    (with_default default_includeDomains includeDomains)
                    (with_default [] excludeDomains)) in
    let run := TavilySearchProvider_search env fetch JSON_stringify validateApiKey sanitizeUrl
                 query maxResults searchDepth includeDomains excludeDomains st in
    (forall e, validateApiKey (env "TAVILY_API_KEY") "TAVILY" = Thrown e ->
               run = (Thrown e, st))
    /\ (forall u e, validateApiKey (env "TAVILY_API_KEY") "TAVILY" = Returned u ->
                    fetch req = Thrown e ->
                    run = (Thrown e, logged st [EFetch req]))
    /\ (forall u response,
          validateApiKey (env "TAVILY_API_KEY") "TAVILY" = Returned u ->
          fetch req = Returned response ->
          Http.ok response = false ->
          run = (Thrown (mkError ("Tavily API error: " ++ string_of_Z (Http.status response)
                                  ++ " " ++ Http.statusText response)),
                 logged st [EFetch req])).
Proof.
  intros env fetch JSON_stringify validateApiKey sanitizeUrl
    query maxResults searchDepth includeDomains excludeDomains st req run.
  subst run. unfold TavilySearchProvider_search. fold req.
  unfold bind, lift, throw. split; [|split].
  - intros e V. now rewrite V.
  - intros u e V F. now rewrite V, http_fetch_run, F.
  - intros u response V F O. rewrite V, http_fetch_run, F, O. reflexivity.
Qed.

Lemma tavily_search_fails_loudly_witness :
  (exists e,
     TavilySearchProvider_search Stub.env_empty Stub.fetch_page Stub.stringify
       Stub.validateApiKey Stub.sanitizeUrl "NOS" None None None None Stub.st0
     = (Thrown e, Stub.st0))
  /\ fst (TavilySearchProvider_search Stub.env_keys Cases.fetch_unavailable Stub.stringify
            Stub.validateApiKey Stub.sanitizeUrl "NOS" None None None None Stub.st0)
     = Thrown (mkError "Tavily API error: 503 Service Unavailable").
Proof.
  split.
  - eexists.
    apply (proj1 (tavily_search_fails_loudly Stub.env_empty Stub.fetch_page Stub.stringify
                    Stub.validateApiKey Stub.sanitizeUrl "NOS" None None None None Stub.st0)).
    reflexivity.
  - rewrite (proj2 (proj2 (tavily_search_fails_loudly Stub.env_keys Cases.fetch_unavailable
                             Stub.stringify Stub.validateApiKey Stub.sanitizeUrl
                             "NOS" None None None None Stub.st0))
               tt _ eq_refl eq_refl eq_refl).
    vm_compute. reflexivity.
Defined.

Lemma map_outcome_complete :
  forall (A B : Type) (f : A -> outcome B) l l',
    map_outcome f l = Returned l' ->
    forall a, In a l -> exists b, f a = Returned b /\ In b l'.
Proof.
  intros A B f. induction l as [|a0 l IH]; intros l' H a I; simpl in *; [contradiction|].
  destruct (f a0) as [b0|e] eqn:Fa; [|discriminate].
  destruct (map_outcome f l) as [bs|e] eqn:Fl; [|discriminate].
  inversion H; subst. destruct I as [->|I].
  - exists b0. split; [exact Fa|now left].
  - destruct (IH bs eq_refl a I) as (b & Fb & Ib). exists b. split; [exact Fb|now right].
Qed.

(** No described image is lost. *)
Lemma processedImages_complete :
  forall sanitizeUrl l kept source,
    processedImages sanitizeUrl (VArr l) = Returned (VArr kept) ->
    In source l ->
    prop source "description" <> VUndefined ->
    prop source "description" <> VStr "" ->
    exists u,
      sanitizeUrl (prop source "url") = Returned u
      /\ In (VObj [("url", u); ("description", prop source "description")]) kept.
Proof.
  intros sanitizeUrl l kept source P I N1 N2. unfold processedImages in P.
  destruct (map_outcome (sanitize_image sanitizeUrl) l) as [l'|e] eqn:E; [|discriminate].
  inversion P; subst kept. clear P.
  destruct (map_outcome_complete _ _ _ _ _ E source I) as (image & S & Ii).
  unfold sanitize_image, get in S. destruct (nullish source); [discriminate|].
  destruct (sanitizeUrl (prop source "url")) as [u|e]; [|discriminate].
  inversion S; subst image. exists u. split; [reflexivity|].
  apply filter_In. split; [exact Ii|].
  unfold described. simpl.
  destruct (prop source "description") as [| | | |d| |]; try reflexivity; try congruence.
  destruct (d =? "") eqn:D; [|reflexivity].
  apply String.eqb_eq in D. subst d. congruence.
Qed.

(** X11.  In what a search returns, [images] is made of the images of the
    provider's answer to the one request: it holds exactly those that came
    with a description that is there and not empty, each reduced to its
    sanitized address and that description.  None of them is lost, none is
    added, and there are never more of them than the provider sent. *)
Theorem tavily_search_keeps_described_images :
  forall env fetch JSON_stringify validateApiKey sanitizeUrl
         query maxResults searchDepth includeDomains excludeDomains st v st',
    TavilySearchProvider_search env fetch JSON_stringify validateApiKey sanitizeUrl
      query maxResults searchDepth includeDomains excludeDomains st = (Returned v, st') ->
    exists response data sent kept,
      fetch (tavily_search_request JSON_stringify
               (tavily_search_payload (env "TAVILY_API_KEY") query
                  (with_default 10%float maxResults) (with_default "basic" searchDepth)
                  (with_default default_includeDomains includeDomains)
                  (with_default [] excludeDomains))) = Returned response
      /\ Http.json response = Returned data
      /\ prop data "images" = VArr sent
      /\ prop v "images" = VArr kept
      /\ List.length kept <= List.length sent
      /\ Forall (fun image =>
                   exists source u,
                     In source sent
                     /\ sanitizeUrl (prop source "url") = Returned u
                     /\ image = VObj [("url", u); ("description", prop source "description")]
                     /\ prop source "description" <> VUndefined
                     /\ prop source "description" <> VStr "")
           kept
      /\ (forall source,
            In source sent ->
            prop source "description" <> VUndefined ->
            prop source "description" <> VStr "" ->
            exists u,
              sanitizeUrl (prop source "url") = Returned u
              /\ In (VObj [("url", u); ("description", prop source "description")]) kept).
Proof.
  intros env fetch JSON_stringify validateApiKey sanitizeUrl
    query maxResults searchDepth includeDomains excludeDomains st v st' H.
  destruct (TavilySearchProvider_search_inv _ _ _ _ _ _ _ _ _ _ _ _ _ H)
    as (response & data & imgs & processed & Hf & _ & Hj & G & P & ->).
  destruct (processedImages_spec _ _ _ P) as (l & kept & -> & -> & L & F).
  exists response, data, l, kept.
  split; [exact Hf|]. split; [exact Hj|]. split.
  { unfold get in G. destruct (nullish data); [discriminate|]. now inversion G. }
  split; [|split; [exact L|split]].
  - unfold spread_with_images. destruct data; try reflexivity.
    apply assoc_set_field_same.
  - eapply Forall_impl; [|exact F].
    intros image (source & u & I & _ & U & E & N1 & N2). exists source, u. auto.
  - intros source I N1 N2. exact (processedImages_complete _ _ _ _ P I N1 N2).
Qed.

Lemma tavily_search_keeps_described_images_witness :
  exists (v : jsval) (st' : Store) (sent : list jsval),
    TavilySearchProvider_search Stub.env_keys Cases.fetch_images Stub.stringify
      Stub.validateApiKey Stub.sanitizeUrl "NOS" None None None None Stub.st0
    = (Returned v, st')
    /\ List.length sent = 2
    /\ prop v "images" = VArr [ VObj [("url", VStr "https://a.example/1.png");
                                      ("description", VStr "logo")] ].
Proof.
  destruct (TavilySearchProvider_search Stub.env_keys Cases.fetch_images Stub.stringify
              Stub.validateApiKey Stub.sanitizeUrl "NOS" None None None None Stub.st0)
    as [[v|e] st'] eqn:E; [|vm_compute in E; discriminate E].
  destruct (tavily_search_keeps_described_images _ _ _ _ _ _ _ _ _ _ _ _ _ E)
    as (response & data & sent & kept & Hf & Hj & Hs & _).
  exists v, st', sent. split; [reflexivity|].
  vm_compute in Hf. inversion Hf; subst response. vm_compute in Hj. inversion Hj; subst data.
  vm_compute in Hs. inversion Hs; subst sent.
  split; [reflexivity|].
  vm_compute in E. inversion E; subst v. reflexivity.
Defined.

(** X12.  What a search returns is the provider's answer with [images]
    replaced: every other field of the answer comes through as it was
    sent. *)
Theorem tavily_search_passes_the_answer_on :
  forall env fetch JSON_stringify validateApiKey sanitizeUrl
         query maxResults searchDepth includeDomains excludeDomains st v st',
    TavilySearchProvider_search env fetch JSON_stringify validateApiKey sanitizeUrl
      query maxResults searchDepth includeDomains excludeDomains st = (Returned v, st') ->
    exists response data,
      fetch (tavily_search_request JSON_stringify
               (tavily_search_payload (env "TAVILY_API_KEY") query
                  (with_default 10%float maxResults) (with_default "basic" searchDepth)
                  (with_default default_includeDomains includeDomains)
                  (with_default [] excludeDomains))) = Returned response
      /\ Http.json response = Returned data
      /\ forall k, k <> "images" -> prop v k = prop data k.
Proof.
  intros env fetch JSON_stringify validateApiKey sanitizeUrl
    query maxResults searchDepth includeDomains excludeDomains st v st' H.
  destruct (TavilySearchProvider_search_inv _ _ _ _ _ _ _ _ _ _ _ _ _ H)
    as (response & data & imgs & processed & F & _ & J & G & P & ->).
  exists response, data. split; [exact F|]. split; [exact J|].
  intros k Hk.
  destruct (processedImages_spec _ _ _ P) as (l & kept & -> & -> & _).
  unfold get in G. destruct (nullish data) eqn:N; [discriminate|].
  inversion G as [G']. clear G.
  destruct data; simpl in *; try discriminate;
    try (destruct ("images" =? "length") eqn:Q; [vm_compute in Q|]; discriminate).
  now apply assoc_set_field_other.
Qed.

Lemma tavily_search_passes_the_answer_on_witness :
  exists v st',
    TavilySearchProvider_search Stub.env_keys Cases.fetch_images Stub.stringify
      Stub.validateApiKey Stub.sanitizeUrl "NOS" None None None None Stub.st0
    = (Returned v, st')
    /\ prop v "query" = VStr "NOS  ".
Proof.
  destruct (TavilySearchProvider_search Stub.env_keys Cases.fetch_images Stub.stringify
              Stub.validateApiKey Stub.sanitizeUrl "NOS" None None None None Stub.st0)
    as [[v|e] st'] eqn:E; [|vm_compute in E; discriminate E].
  destruct (tavily_search_passes_the_answer_on _ _ _ _ _ _ _ _ _ _ _ _ _ E)
    as (response & data & F & J & Hk).
  exists v, st'. split; [reflexivity|].
  rewrite (Hk "query") by discriminate.
  vm_compute in F. inversion F; subst response. vm_compute in J. inversion J; subst data.
  reflexivity.
Defined.

(* ===================================================================== *)
(** ** Further properties: the orchestrator                               *)
(* ===================================================================== *)

Lemma last_five_suffix :
  forall coreMessages : list CoreMessage, suffix_of (last_five coreMessages) coreMessages.
Proof.
  intros l. unfold last_five.
  exists (firstn (List.length l - Nat.min (List.length l) 5) l).
  symmetry. apply firstn_skipn.
Qed.

Lemma last_five_length :
  forall coreMessages : list CoreMessage,
    List.length (last_five coreMessages) = Nat.min (List.length coreMessages) 5.
Proof. intros l. unfold last_five. rewrite length_skipn. lia. Qed.

Lemma adapters_are_no_model_calls :
  forall l, forallb adapter_effect l = true -> existsb model_call l = false.
Proof.
  induction l as [|e l IH]; [reflexivity|].
  simpl. intros H. apply andb_true_iff in H. destruct H as [He Hl].
  rewrite (IH Hl). destruct e; simpl in *; try discriminate; reflexivity.
Qed.

Section OrchestratorFurther.

Variable env : string -> option string.
Variable fetch : Http.Request -> outcome Http.Response.
Variable now_iso : string.
Variable JSON_stringify : jsval -> option string.
Variable generateText : string -> string -> list CoreMessage -> outcome string.
Variable selection_prompt : float -> string.
Variable generateId : string.
Variable parseToolCallXml : string -> option ZodSchema -> ToolCall.
Variable searchSchema : ZodSchema.
Variable executeSearchViaApi : jsval -> jsval -> jsval -> jsval -> jsval -> outcome jsval.

Local Abbreviation executeToolCall' :=
  (executeToolCall env fetch now_iso JSON_stringify generateText selection_prompt
     generateId parseToolCallXml searchSchema executeSearchViaApi).
Local Abbreviation dispatch' :=
  (dispatch env fetch now_iso JSON_stringify executeSearchViaApi).
Local Abbreviation selectToolCall' := (selectToolCall parseToolCallXml searchSchema).
Local Abbreviation progress' := (progress JSON_stringify).
Local Abbreviation synthesize' := (synthesize JSON_stringify).
Local Abbreviation toolCallId' := ("call_" ++ generateId).
Local Abbreviation selection' model st :=
  (EGenerateText model (selection_prompt (defaultMaxResultsSearch model))
     (last_five (conversation st))).
Local Abbreviation selected' model st :=
  (generateText model (selection_prompt (defaultMaxResultsSearch model))
     (last_five (conversation st))).


(** X15.  A pass with tools on consults the model first and once: the first
    thing it does is the model call, on the last turns of the conversation,
    five at most and all of them when there are fewer, in their order; no
    other model call follows in the pass. *)
Theorem the_model_sees_the_last_five_turns :
  forall model st out st',
    executeToolCall' model true st = (out, st') ->
    exists messages rest,
      log st' = (log st
                 ++ EGenerateText model (selection_prompt (defaultMaxResultsSearch model))
                      messages :: rest)%list
      /\ suffix_of messages (conversation st)
      /\ List.length messages = Nat.min (List.length (conversation st)) 5
      /\ existsb model_call rest = false.
Proof.
  intros model st out st' H.
  exists (last_five (conversation st)).
  assert (S := last_five_suffix (conversation st)).
  assert (L := last_five_length (conversation st)).
  destruct (selected' model st) as [text|e0] eqn:Hgen.
  - rewrite (executeToolCall_selection _ _ _ _ _ _ _ _ _ _ _ _ _ Hgen) in H. cbv zeta in H.
    destruct (selectToolCall' text) as [toolCall|];
      [|inversion H; subst; exists []; simpl; auto].
    destruct (negb (str_truthy (tool toolCall)));
      [inversion H; subst; exists []; simpl; auto|].
    destruct (run_tool_shape env fetch now_iso JSON_stringify executeSearchViaApi
                model toolCallId' toolCall (logged st [selection' model st]))
      as (state & r & added & st2 & R & _ & Lg & F & _).
    rewrite R in H. inversion H; subst.
    eexists. split; [|split; [exact S|split; [exact L|]]].
    + rewrite Lg. simpl. rewrite <- app_assoc. simpl. reflexivity.
    + simpl. rewrite existsb_app, (adapters_are_no_model_calls _ F). reflexivity.
  - rewrite (executeToolCall_selection_failure _ _ _ _ _ _ _ _ _ _ _ _ _ Hgen) in H.
    inversion H; subst. exists []. simpl. auto.
Qed.

(** X16.  For parameters whose two identifier fields are strings or absent,
    as the schema of the market-data tool declares them, the three guards
    agree: the check of the orchestrator, the refinement of the schema and
    the check at the head of the tool.  So the orchestrator either answers
    with its own failure, calling nothing, or calls the tool, and then the
    tool never answers with its 'Tool execution error' object. *)
Theorem identifier_guards_agree :
  forall model toolCall st,
    tool toolCall = "getSolanaTokenMarketDataTool" ->
    let p := parameters toolCall in
    string_or_absent (prop p "tokenSymbol") = true ->
    string_or_absent (prop p "tokenMintAddress") = true ->
    let missing := negb (truthy (get_opt p "tokenSymbol"))
                   && negb (truthy (get_opt p "tokenMintAddress")) in
    has_identifier (market_params p) = negb missing
    /\ (exists check, refinement solanaTokenMarketDataSchema = Some check
                      /\ check p = negb missing)
    /\ (missing = true ->
        dispatch' model toolCall st
        = (Returned (JSON_stringify
                       (error_object "Token symbol or mint address missing for market data.")),
           st))
    /\ (missing = false ->
        forall marketData st',
          getSolanaTokenMarketDataTool_execute env fetch now_iso (market_params p)
            (logged st [EMarketDataExecute p]) = (Returned marketData, st') ->
          dispatch' model toolCall st
          = (Returned (JSON_stringify (json_of_ExecuteResult marketData)), st')
          /\ marketData
             <> ErrorObject "Tool execution error: Token symbol or mint address is required.").
Proof.
  intros model toolCall st Ht p Hs Hm missing.
  assert (G : forall k, get_opt p k = prop p k).
  { intros k. unfold get_opt. destruct p; reflexivity. }
  assert (T : forall k, string_or_absent (prop p k) = true ->
                        opt_truthy (string_field (prop p k)) = truthy (prop p k)).
  { intros k Hk. destruct (prop p k); simpl in *; try discriminate; reflexivity. }
  assert (Hid : has_identifier (market_params p) = negb missing).
  { subst missing. unfold has_identifier, market_params. simpl.
    rewrite !G, (T _ Hs), (T _ Hm).
    destruct (truthy (prop p "tokenSymbol")), (truthy (prop p "tokenMintAddress")); reflexivity. }
  split; [exact Hid|]. split; [|split].
  - eexists. split; [reflexivity|]. subst missing. cbv beta. rewrite !G. unfold or_else.
    destruct (truthy (prop p "tokenSymbol")) eqn:E1; [now rewrite E1|].
    destruct (truthy (prop p "tokenMintAddress")); reflexivity.
  - intros Hmiss. subst missing. apply andb_true_iff in Hmiss. destruct Hmiss as [M1 M2].
    apply negb_true_iff in M1. apply negb_true_iff in M2.
    now apply dispatch_market_without_identifier.
  - intros Hmiss marketData st' Hx. split.
    + now apply dispatch_market.
    + intros ->. rewrite Hmiss in Hid. simpl in Hid.
      unfold has_identifier in Hid. unfold getSolanaTokenMarketDataTool_execute in Hx.
      replace (negb (opt_truthy (tokenSymbol (market_params p)))
               && negb (opt_truthy (tokenMintAddress (market_params p)))) with false in Hx
        by (destruct (opt_truthy (tokenSymbol (market_params p))),
                     (opt_truthy (tokenMintAddress (market_params p)));
            simpl in *; congruence).
      unfold bind, ret in Hx.
      destruct (fetchBirdeyeData env fetch (market_params p) (logged st [EMarketDataExecute p]))
        as [[b|eb] s1]; [|discriminate Hx].
      destruct (fetchSolscanData fetch (market_params p) s1) as [[s|es] s2]; [|discriminate Hx].
      destruct (nothing_significant b s _); inversion Hx.
Qed.

End OrchestratorFurther.


Lemma the_model_sees_the_last_five_turns_witness :
  exists messages rest out st',
    Cases.pass Stub.env_keys Stub.fetch_down (Stub.answers Stub.no_tool_text)
      Stub.executeSearchViaApi true (mkStore Cases.long_conversation []) = (out, st')
    /\ log st' = EGenerateText "openai:gpt-4o"
                   (Stub.selection_prompt (defaultMaxResultsSearch "openai:gpt-4o"))
                   messages :: rest
    /\ List.length Cases.long_conversation = 7
    /\ List.length messages = 5.
Proof.
  unfold Cases.pass.
  destruct (executeToolCall Stub.env_keys Stub.fetch_down Stub.now_iso Stub.stringify
              (Stub.answers Stub.no_tool_text) Stub.selection_prompt Stub.generateId
              CallParser.parseToolCallXml CallParser.searchSchema Stub.executeSearchViaApi
              "openai:gpt-4o" true (mkStore Cases.long_conversation []))
    as [out st'] eqn:E.
  destruct (the_model_sees_the_last_five_turns _ _ _ _ _ _ _ _ _ _ _ _ _ _ E)
    as (messages & rest & Lg & _ & L & _).
  exists messages, rest, out, st'.
  split; [reflexivity|]. split; [exact Lg|]. split; [reflexivity|]. exact L.
Defined.

Lemma identifier_guards_agree_witness :
  has_identifier
    (market_params
       (parameters (CallParser.parseToolCallXml Cases.market_with_mint
                      (Some solanaTokenMarketDataSchema)))) = true.
Proof.
  rewrite (proj1 (identifier_guards_agree Stub.env_keys Stub.fetch_down Stub.now_iso
                    Stub.stringify Stub.executeSearchViaApi "openai:gpt-4o"
                    (CallParser.parseToolCallXml Cases.market_with_mint
                       (Some solanaTokenMarketDataSchema))
                    Stub.st0 eq_refl eq_refl eq_refl)).
  vm_compute. reflexivity.
Defined.

(* ===================================================================== *)
(** ** Further properties: what makes a pass throw                        *)
(* ===================================================================== *)

Section ThrowingFacts.

Variable env : string -> option string.
Variable fetch : Http.Request -> outcome Http.Response.
Variable now_iso : string.
Variable JSON_stringify : jsval -> option string.
Variable generateText : string -> string -> list CoreMessage -> outcome string.
Variable selection_prompt : float -> string.
Variable generateId : outcome string.
Variable parseToolCallXml : string -> option ZodSchema -> outcome ToolCall.
Variable searchSchema : ZodSchema.
Variable executeSearchViaApi : jsval -> jsval -> jsval -> jsval -> jsval -> outcome jsval.
Variable writeData : ProgressEvent -> outcome unit.
Variable writeMessageAnnotation : ProgressEvent -> outcome unit.

Local Abbreviation pass' :=
  (Throwing.executeToolCall env fetch now_iso JSON_stringify generateText selection_prompt
     generateId parseToolCallXml searchSchema executeSearchViaApi
     writeData writeMessageAnnotation).
Local Abbreviation run_tool' :=
  (Throwing.run_tool env fetch now_iso JSON_stringify executeSearchViaApi
     writeData writeMessageAnnotation).
Local Abbreviation selection' model st :=
  (EGenerateText model (selection_prompt (defaultMaxResultsSearch model))
     (last_five (conversation st))).
Local Abbreviation selected' model st :=
  (generateText model (selection_prompt (defaultMaxResultsSearch model))
     (last_five (conversation st))).





End ThrowingFacts.

(** With a data stream, a parser and an id generator that return, a pass
    is the pass of the orchestrator above. *)
Lemma Throwing_agrees :
  forall env fetch now_iso JSON_stringify generateText selection_prompt generateId
         parseToolCallXml searchSchema executeSearchViaApi model searchMode st,
    Throwing.executeToolCall env fetch now_iso JSON_stringify generateText selection_prompt
      (Returned generateId) (fun text schema => Returned (parseToolCallXml text schema))
      searchSchema executeSearchViaApi Cases.stream_open Cases.stream_open
      model searchMode st
    = executeToolCall env fetch now_iso JSON_stringify generateText selection_prompt
        generateId parseToolCallXml searchSchema executeSearchViaApi model searchMode st.
Proof.
  intros env fetch now_iso JSON_stringify generateText selection_prompt generateId
    parseToolCallXml searchSchema executeSearchViaApi model searchMode st.
  unfold Throwing.executeToolCall, executeToolCall.
  destruct searchMode; [|reflexivity].
  change (negb true) with false. cbv beta iota.
  unfold call_generateText, read_conversation, bind, lift. rewrite perform_logged.
  destruct (generateText model (selection_prompt (defaultMaxResultsSearch model))
              (last_five (conversation st))) as [text|e]; [|reflexivity].
  assert (Hsel : Throwing.selectToolCall
                   (fun text schema => Returned (parseToolCallXml text schema))
                   searchSchema text
                 = Returned (selectToolCall parseToolCallXml searchSchema text)).
  { unfold Throwing.selectToolCall, selectToolCall, and_then.
    destruct (tool (parseToolCallXml text None) =? "search"); [reflexivity|].
    destruct (tool (parseToolCallXml text None) =? "getSolanaTokenMarketDataTool");
      [reflexivity|].
    destruct (str_truthy (tool (parseToolCallXml text None))); reflexivity. }
  rewrite Hsel.
  destruct (selectToolCall parseToolCallXml searchSchema text) as [toolCall|];
    [|reflexivity].
  destruct (negb (str_truthy (tool toolCall))); [reflexivity|].
  unfold Throwing.run_tool, run_tool, try_catch, Throwing.call_writeData,
    Throwing.call_writeMessageAnnotation, Cases.stream_open, bind, lift, ret.
  rewrite !perform_logged.
  destruct (dispatch env fetch now_iso JSON_stringify executeSearchViaApi model toolCall _)
    as [[r|e] st2]; reflexivity.
Qed.



(* ===================================================================== *)
(** ** Further properties: the callers of the tools                       *)
(* ===================================================================== *)

Lemma is_string_spec : forall v s, is_string v s = true <-> v = VStr s.
Proof.
  intros v s. destruct v; simpl; split; intros H; try discriminate.
  - apply String.eqb_eq in H. now subst.
  - inversion H. apply String.eqb_refl.
Qed.

Lemma some_ask_question_found :
  forall before item after,
    Forall (fun i => nullish i = false) before ->
    nullish item = false ->
    prop item "type" = VStr "tool-call" ->
    prop item "toolName" = VStr "ask_question" ->
    some_ask_question (before ++ item :: after) = Returned true.
Proof.
  induction before as [|b before IH]; intros item after F N T Q; simpl.
  - unfold get. rewrite N, T, Q. reflexivity.
  - inversion F as [|? ? Nb Fb]; subst. unfold get. rewrite Nb.
    destruct (is_string (prop b "type") "tool-call"
              && is_string (prop b "toolName") "ask_question"); [reflexivity|].
    now apply IH.
Qed.

Lemma some_ask_question_inv :
  forall items,
    some_ask_question items = Returned true ->
    exists before item after,
      items = (before ++ item :: after)%list
      /\ Forall (fun i => nullish i = false) before
      /\ nullish item = false
      /\ prop item "type" = VStr "tool-call"
      /\ prop item "toolName" = VStr "ask_question".
Proof.
  induction items as [|i items IH]; intros H; simpl in H; [discriminate|].
  unfold get in H. destruct (nullish i) eqn:N; [discriminate|].
  destruct (is_string (prop i "type") "tool-call"
            && is_string (prop i "toolName") "ask_question") eqn:C.
  - apply andb_true_iff in C. destruct C as [C1 C2].
    apply is_string_spec in C1. apply is_string_spec in C2.
    exists [], i, items. repeat split; auto.
  - destruct (IH H) as (before & item & after & -> & F & Ni & T & Q).
    exists (i :: before), item, after. repeat split; auto.
Qed.

(** X17.  [containsAskQuestionTool] answers true exactly for an assistant
    message whose content is an array that holds a part of type 'tool-call'
    with tool name 'ask_question', no part before it being null or
    undefined.  A message of another role, or one whose content is text, is
    never taken for a question, whatever it says. *)
Theorem ask_question_is_found_iff :
  forall message,
    containsAskQuestionTool message = Returned true
    <-> (role message = RAssistant
         /\ exists before item after,
              content message = VArr (before ++ item :: after)
              /\ Forall (fun i => nullish i = false) before
              /\ nullish item = false
              /\ prop item "type" = VStr "tool-call"
              /\ prop item "toolName" = VStr "ask_question").
Proof.
  intros [r c]. unfold containsAskQuestionTool. simpl. split.
  - intros H. destruct r; try discriminate. destruct c; try discriminate.
    split; [reflexivity|].
    destruct (some_ask_question_inv _ H) as (before & item & after & -> & F).
    exists before, item, after. split; [reflexivity|exact F].
  - intros (-> & before & item & after & -> & F & N & T & Q).
    now apply some_ask_question_found.
Qed.

Lemma ask_question_is_found_iff_witness :
  containsAskQuestionTool Cases.asks_a_question = Returned true
  /\ containsAskQuestionTool (mkMessage RUser (content Cases.asks_a_question)) <> Returned true.
Proof.
  split.
  - apply (proj2 (ask_question_is_found_iff Cases.asks_a_question)).
    split; [reflexivity|].
    exists [VObj [("type", VStr "text"); ("text", VStr "Which token?")]],
           (VObj [("type", VStr "tool-call"); ("toolName", VStr "ask_question")]),
           [].
    split; [reflexivity|]. split; [repeat constructor|].
    split; [reflexivity|]. split; reflexivity.
  - intros H.
    apply (proj1 (ask_question_is_found_iff
                    (mkMessage RUser (content Cases.asks_a_question)))) in H.
    destruct H as [H _]. discriminate H.
Defined.

Section ResearcherFacts.

Variable Tool Model Transform : Type.
Variable createSearchTool createVideoSearchTool createQuestionTool : string -> outcome Tool.
Variable retrieveTool getSolanaTokenMarketDataTool : Tool.
Variable getModel : string -> outcome Model.
Variable smoothStream : outcome Transform.
Variable researcher_system : string.

Local Abbreviation researcher' :=
  (researcher createSearchTool createVideoSearchTool createQuestionTool
     retrieveTool getSolanaTokenMarketDataTool getModel smoothStream researcher_system).

(** What a returning call went through. *)
Lemma researcher_inv :
  forall messages model searchMode config,
    researcher' messages model searchMode = Returned config ->
    exists searchTool videoSearchTool askQuestionTool m transform,
      createSearchTool model = Returned searchTool
      /\ createVideoSearchTool model = Returned videoSearchTool
      /\ createQuestionTool model = Returned askQuestionTool
      /\ getModel model = Returned m
      /\ smoothStream = Returned transform
      /\ config
         = {| rr_model := m;
              rr_system := researcher_system;
              rr_messages := messages;
              rr_tools := if searchMode
                          then [ ("search", searchTool);
                                 ("retrieve", retrieveTool);
                                 ("videoSearch", videoSearchTool);
                                 ("ask_question", askQuestionTool);
                                 ("getSolanaTokenMarketDataTool",
                                  getSolanaTokenMarketDataTool) ]
                          else [];
              experimental_activeTools :=
                if searchMode
                then [ "search"; "retrieve"; "videoSearch"; "ask_question";
                       "getSolanaTokenMarketDataTool" ]
                else [];
              maxSteps := if searchMode then 7 else 1;
              experimental_transform := transform |}.
Proof.
  intros messages model searchMode config H. unfold researcher, or_catch, and_then in H.
  destruct (createSearchTool model) as [s|e1]; [|discriminate].
  destruct (createVideoSearchTool model) as [v|e2]; [|discriminate].
  destruct (createQuestionTool model) as [q|e3]; [|discriminate].
  destruct (getModel model) as [m|e4]; [|discriminate].
  destruct smoothStream as [t|e5]; [|discriminate].
  inversion H; subst. exists s, v, q, m, t. repeat split; reflexivity.
Qed.

(** X18.  In the configuration the researcher returns, the tools that are
    registered are the tools that are active, name for name and in the same
    order, and the conversation is passed on as given.  The step budget goes
    with the tools: one step exactly when no tool is registered, and seven
    with the five tools of search mode, among them the retrieval tool and
    the market-data tool themselves. *)
Theorem researcher_registers_what_it_activates :
  forall messages model searchMode config,
    researcher createSearchTool createVideoSearchTool createQuestionTool
      retrieveTool getSolanaTokenMarketDataTool getModel smoothStream researcher_system
      messages model searchMode = Returned config ->
    map fst (rr_tools config) = experimental_activeTools config
    /\ rr_messages config = messages
    /\ (rr_tools config = [] <-> maxSteps config = 1)
    /\ (rr_tools config = [] <-> searchMode = false)
    /\ (searchMode = true ->
        maxSteps config = 7
        /\ experimental_activeTools config
           = [ "search"; "retrieve"; "videoSearch"; "ask_question";
               "getSolanaTokenMarketDataTool" ]
        /\ In ("retrieve", retrieveTool) (rr_tools config)
        /\ In ("getSolanaTokenMarketDataTool", getSolanaTokenMarketDataTool)
              (rr_tools config)).
Proof.
  intros messages model searchMode config H.
  destruct (researcher_inv _ _ _ _ H) as (s & v & q & m & t & _ & _ & _ & _ & _ & ->).
  destruct searchMode; simpl.
  - split; [reflexivity|]. split; [reflexivity|].
    split; [split; intros; discriminate|]. split; [split; intros; discriminate|].
    intros _. split; [reflexivity|]. split; [reflexivity|]. split; [now right; left|].
    now do 4 right; left.
  - split; [reflexivity|]. split; [reflexivity|].
    split; [split; reflexivity|]. split; [split; reflexivity|]. intros; discriminate.
Qed.

(** X19.  The researcher builds the three tools, the model handle and the
    stream transform whether tools are on or off, so it returns exactly when
    all five constructors return, in search mode or not.  When one of them
    throws, the researcher throws a new error whose message is 'Failed to
    configure researcher agent: ' followed by the message of the cause. *)
Theorem researcher_fails_with_its_own_message :
  forall messages model searchMode,
    ((exists config, researcher createSearchTool createVideoSearchTool createQuestionTool
      retrieveTool getSolanaTokenMarketDataTool getModel smoothStream researcher_system
      messages model searchMode = Returned config)
     <-> ((exists searchTool, createSearchTool model = Returned searchTool)
          /\ (exists videoSearchTool, createVideoSearchTool model = Returned videoSearchTool)
          /\ (exists askQuestionTool, createQuestionTool model = Returned askQuestionTool)
          /\ (exists m, getModel model = Returned m)
          /\ (exists transform, smoothStream = Returned transform)))
    /\ forall e,
         researcher createSearchTool createVideoSearchTool createQuestionTool
      retrieveTool getSolanaTokenMarketDataTool getModel smoothStream researcher_system
      messages model searchMode = Thrown e ->
         exists cause,
           e = mkError ("Failed to configure researcher agent: " ++ message cause)
           /\ (createSearchTool model = Thrown cause
               \/ createVideoSearchTool model = Thrown cause
               \/ createQuestionTool model = Thrown cause
               \/ getModel model = Thrown cause
               \/ smoothStream = Thrown cause).
Proof.
  intros messages model searchMode. split; [split|].
  - intros [config H].
    destruct (researcher_inv _ _ _ _ H) as (s & v & q & m & t & H1 & H2 & H3 & H4 & H5 & _).
    repeat split; eexists; eassumption.
  - intros ([s H1] & [v H2] & [q H3] & [m H4] & [t H5]).
    unfold researcher, or_catch, and_then. rewrite H1, H2, H3, H4, H5. eexists. reflexivity.
  - intros e H. unfold researcher, or_catch, and_then in H.
    destruct (createSearchTool model) as [s|e1];
      [|inversion H; exists e1; split; [reflexivity|now left]].
    destruct (createVideoSearchTool model) as [v|e2];
      [|inversion H; exists e2; split; [reflexivity|now right; left]].
    destruct (createQuestionTool model) as [q|e3];
      [|inversion H; exists e3; split; [reflexivity|now do 2 right; left]].
    destruct (getModel model) as [m|e4];
      [|inversion H; exists e4; split; [reflexivity|now do 3 right; left]].
    destruct smoothStream as [t|e5];
      [|inversion H; exists e5; split; [reflexivity|now do 4 right]].
    discriminate H.
Qed.

End ResearcherFacts.

Lemma researcher_registers_what_it_activates_witness :
  exists config,
    researcher (fun model => Returned ("search for " ++ model))
      (fun model => Returned ("videoSearch for " ++ model))
      (fun model => Returned ("ask_question for " ++ model))
      "retrieve" "getSolanaTokenMarketDataTool"
      (fun model => Returned model) (Returned tt) "You are a researcher."
      (conversation Stub.st0) "openai:gpt-4o" true = Returned config
    /\ map fst (rr_tools config) = experimental_activeTools config
    /\ maxSteps config = 7.
Proof.
  eexists. split; [reflexivity|].
  destruct (researcher_registers_what_it_activates string string unit
              (fun model => Returned ("search for " ++ model))
              (fun model => Returned ("videoSearch for " ++ model))
              (fun model => Returned ("ask_question for " ++ model))
              "retrieve" "getSolanaTokenMarketDataTool"
              (fun model => Returned model) (Returned tt) "You are a researcher."
              (conversation Stub.st0) "openai:gpt-4o" true _ eq_refl)
    as (H1 & _ & _ & _ & H5).
  split; [exact H1|]. exact (proj1 (H5 eq_refl)).
Defined.

Lemma researcher_fails_with_its_own_message_witness :
  researcher (fun model => Returned ("search for " ++ model))
    (fun model => Returned ("videoSearch for " ++ model))
    (fun _ => Thrown (mkError "no question tool"))
    "retrieve" "getSolanaTokenMarketDataTool"
    (fun model => Returned model) (Returned tt) "You are a researcher."
    (conversation Stub.st0) "openai:gpt-4o" false
  = Thrown (mkError "Failed to configure researcher agent: no question tool").
Proof.
  destruct (researcher (fun model => Returned ("search for " ++ model))
              (fun model => Returned ("videoSearch for " ++ model))
              (fun _ => Thrown (mkError "no question tool"))
              "retrieve" "getSolanaTokenMarketDataTool"
              (fun model => Returned model) (Returned tt) "You are a researcher."
              (conversation Stub.st0) "openai:gpt-4o" false) as [config|e] eqn:E.
  - discriminate E.
  - destruct (proj2 (researcher_fails_with_its_own_message string string unit _ _ _ _ _ _ _ _
                       _ _ _) e E)
      as (cause & -> & [C|[C|[C|[C|C]]]]); try discriminate C.
    inversion C; subst. reflexivity.
Defined.
